(** * ld-relay: HTTP endpoints, relay feature store and file-data actions

    A shallow embedding of the relay's request handlers
    (relay_endpoints.go, endpoints.go), of the file-data actions that add and
    update environments, of the write-through feature store, and of the
    command that starts the HTTP server, with the properties the
    specification states about them and further properties of the code. *)

From Stdlib Require Import ZArith List String Ascii Bool Lia Permutation.
From Stdlib Require Import DecimalString DecimalPos DecimalZ OrdersEx Sorted.
From stdpp Require Import gmap strings list sorting.
Import ListNotations.

Local Open Scope string_scope.
Local Open Scope list_scope.
Local Open Scope Z_scope.

(** ** Go strings

    A Go string is a sequence of bytes; [len], indexing and slicing count
    bytes.  [string] (a list of [ascii], one per byte) is exactly that. *)

Module GoString.

Definition bytes (s : string) : list ascii := list_ascii_of_string s.
Definition of_bytes (l : list ascii) : string := string_of_list_ascii l.

(** [len(s)] *)
Definition len (s : string) : nat := List.length (bytes s).

(** The slice expression [l[lo:hi]]. *)
Definition slice {A} (lo hi : nat) (l : list A) : list A :=
  firstn (hi - lo) (skipn lo l).

(** The slice expression [l[lo:]]. *)
Definition slice_from {A} (lo : nat) (l : list A) : list A := skipn lo l.

(** [s[:n]] on a string, as in [hex.EncodeToString(...)[:15]]. *)
Definition prefix (n : nat) (s : string) : string :=
  of_bytes (slice 0 n (bytes s)).

End GoString.

(** ** obscureKey *)

(** The character class of [regexp.MustCompile(`[a-fA-F\d]`)]: in Go's RE2
    syntax [\d] is the ASCII digits only. *)
Definition hexdigit (c : ascii) : bool :=
  let n := nat_of_ascii c in
  ((48 <=? n) && (n <=? 57) || (97 <=? n) && (n <=? 102)
   || (65 <=? n) && (n <=? 70))%nat.

(** [hexdigit.ReplaceAllString(s, "*")]: every match is one byte long and is
    replaced by the one byte ["*"]; the bytes between matches are copied. *)
Definition replace_hexdigits (l : list ascii) : list ascii :=
  List.map (fun c => if hexdigit c then "*"%char else c) l.

Definition obscureKey (key : string) : string :=
  let k := GoString.bytes key in
  let n := List.length k in
  if (8 <? n)%nat then
    GoString.of_bytes
      (GoString.slice 0 4 k
         ++ replace_hexdigits (GoString.slice 4 (n - 5) k)
         ++ GoString.slice_from (n - 5) k)
  else key.

(** What [obscureKey] leaves at index [i] of a key of [n] bytes whose byte
    there is [c]. *)
Definition obscured (n i : nat) (c : ascii) : ascii :=
  if (i <? 4)%nat || (n - 5 <=? i)%nat then c
  else if hexdigit c then "*"%char else c.

(** The hexadecimal digits as the statement on [obscureKey] names them,
    written out: [0-9], [a-f] and [A-F].  It is the reading of "hexadecimal
    digit" that the regular expression of the source is compared with. *)
Definition hexadecimalDigit (c : ascii) : bool :=
  existsb (Ascii.eqb c) (GoString.bytes "0123456789abcdefABCDEF").

(** ** Hashing

    [crypto/sha1] is what [pollAllFlagsHandler] hashes the flag keys and
    versions with; the SDK client's [SecureModeHash] is HMAC-SHA256 keyed by
    the SDK key.  Both are written out over 32-bit words held in [Z], with the
    wrap-around explicit. *)

Module Word32.
Definition modulus : Z := 2 ^ 32.
Definition wrap (x : Z) : Z := x mod modulus.
Definition add (x y : Z) : Z := wrap (x + y).
Definition not (x : Z) : Z := Z.lxor x (modulus - 1).
Definition rotl (n x : Z) : Z :=
  wrap (Z.lor (Z.shiftl x n) (Z.shiftr x (32 - n))).
Definition rotr (n x : Z) : Z := rotl (32 - n) x.
Definition shr (n x : Z) : Z := Z.shiftr x n.
(** Big-endian bytes of a word. *)
Definition to_bytes (x : Z) : list Z :=
  [Z.shiftr x 24 mod 256; Z.shiftr x 16 mod 256; Z.shiftr x 8 mod 256; x mod 256].
Definition of_bytes (b3 b2 b1 b0 : Z) : Z :=
  Z.lor (Z.shiftl b3 24) (Z.lor (Z.shiftl b2 16) (Z.lor (Z.shiftl b1 8) b0)).
End Word32.

Module Digest.
(** The big-endian 32-bit words of a byte string. *)
Fixpoint words (bs : list Z) : list Z :=
  match bs with
  | b3 :: b2 :: b1 :: b0 :: rest => Word32.of_bytes b3 b2 b1 b0 :: words rest
  | _ => []
  end.

(** The 16-word blocks of a padded message; [fuel] bounds their number. *)
Fixpoint chunks (fuel : nat) (ws : list Z) : list (list Z) :=
  match fuel with
  | O => []
  | S fuel' =>
      match ws with
      | [] => []
      | _ => firstn 16 ws :: chunks fuel' (skipn 16 ws)
      end
  end.

(** Merkle-Damgard padding shared by SHA-1 and SHA-256: a 0x80 byte, zeros up
    to 56 mod 64, then the bit length as a 64-bit big-endian integer. *)
Definition pad (msg : list Z) : list Z :=
  let n := Z.of_nat (List.length msg) in
  let zeros := Z.to_nat ((55 - n) mod 64) in
  let bits := 8 * n in
  msg ++ [128] ++ repeat 0 zeros
      ++ List.map (fun i => Z.shiftr bits (8 * i) mod 256) [7; 6; 5; 4; 3; 2; 1; 0].

Definition blocks (msg : list Z) : list (list Z) :=
  let ws := words (pad msg) in chunks (List.length ws) ws.

Definition hexchar (n : Z) : ascii :=
  if n <? 10 then ascii_of_nat (Z.to_nat (48 + n))
  else ascii_of_nat (Z.to_nat (87 + n)).

(** [hex.EncodeToString] *)
Fixpoint hex (bs : list Z) : string :=
  match bs with
  | [] => EmptyString
  | b :: rest => String (hexchar (b / 16)) (String (hexchar (b mod 16)) (hex rest))
  end.

Definition of_string (s : string) : list Z :=
  List.map (fun c => Z.of_nat (nat_of_ascii c)) (list_ascii_of_string s).
End Digest.

Module SHA1.
Import Word32.
Record state := St { h0 : Z; h1 : Z; h2 : Z; h3 : Z; h4 : Z }.
Definition init : state :=
  St 0x67452301 0xEFCDAB89 0x98BADCFE 0x10325476 0xC3D2E1F0.

(** The message schedule, most recent word first. *)
Fixpoint extend (n : nat) (rw : list Z) : list Z :=
  match n with
  | O => rw
  | S n' =>
      let w := rotl 1 (Z.lxor (Z.lxor (nth 2 rw 0) (nth 7 rw 0))
                              (Z.lxor (nth 13 rw 0) (nth 15 rw 0))) in
      extend n' (w :: rw)
  end.
Definition schedule (block : list Z) : list Z := rev (extend 64 (rev block)).

Definition round (i : nat) (s : state) (w : Z) : state :=
  let '(St a b c d e) := s in
  let '(f, k) :=
    if (i <? 20)%nat then (Z.lor (Z.land b c) (Z.land (not b) d), 0x5A827999)
    else if (i <? 40)%nat then (Z.lxor b (Z.lxor c d), 0x6ED9EBA1)
    else if (i <? 60)%nat then
      (Z.lor (Z.land b c) (Z.lor (Z.land b d) (Z.land c d)), 0x8F1BBCDC)
    else (Z.lxor b (Z.lxor c d), 0xCA62C1D6) in
  St (add (add (add (add (rotl 5 a) f) e) k) w) a (rotl 30 b) c d.

Fixpoint rounds (i : nat) (s : state) (ws : list Z) : state :=
  match ws with
  | [] => s
  | w :: rest => rounds (S i) (round i s w) rest
  end.

Definition compress (s : state) (block : list Z) : state :=
  let '(St a b c d e) := rounds 0 s (schedule block) in
  St (add (h0 s) a) (add (h1 s) b) (add (h2 s) c) (add (h3 s) d) (add (h4 s) e).

Definition sum (msg : list Z) : list Z :=
  let '(St a b c d e) := fold_left compress (Digest.blocks msg) init in
  to_bytes a ++ to_bytes b ++ to_bytes c ++ to_bytes d ++ to_bytes e.
End SHA1.

Module SHA256.
Import Word32.
Record state := St { a : Z; b : Z; c : Z; d : Z; e : Z; f : Z; g : Z; h : Z }.
(** FIPS 180-4 gives the constants by what they are: for the first primes
    [p], the first 32 bits of the fractional part of the square root of [p]
    (the initial hash value, 8 primes) and of its cube root (the round
    constants, 64 primes). *)
Definition is_prime (n : Z) : bool :=
  (1 <? n)
  && forallb (fun d => negb (n mod d =? 0))
       (List.map Z.of_nat (seq 2 (Z.to_nat n - 2))).

Definition primes : list Z :=
  Eval vm_compute in List.filter is_prime (List.map Z.of_nat (seq 2 310)).

(** The integer cube root of [n < 2^105], one bit at a time. *)
Definition cube_root (n : Z) : Z :=
  fold_left (fun r bit => if (r + bit) ^ 3 <=? n then r + bit else r)
    (List.map (fun i => 2 ^ Z.of_nat i) (rev (seq 0 35))) 0.

Definition fraction_of_sqrt (p : Z) : Z := wrap (Z.sqrt (p * 2 ^ 64)).
Definition fraction_of_cbrt (p : Z) : Z := wrap (cube_root (p * 2 ^ 96)).

Definition init : state :=
  Eval vm_compute in
    match List.map fraction_of_sqrt (firstn 8 primes) with
    | [a0; b0; c0; d0; e0; f0; g0; h0] => St a0 b0 c0 d0 e0 f0 g0 h0
    | _ => St 0 0 0 0 0 0 0 0
    end.

Definition K : list Z := Eval vm_compute in List.map fraction_of_cbrt primes.

Definition ssig0 x := Z.lxor (rotr 7 x) (Z.lxor (rotr 18 x) (shr 3 x)).
Definition ssig1 x := Z.lxor (rotr 17 x) (Z.lxor (rotr 19 x) (shr 10 x)).
Definition bsig0 x := Z.lxor (rotr 2 x) (Z.lxor (rotr 13 x) (rotr 22 x)).
Definition bsig1 x := Z.lxor (rotr 6 x) (Z.lxor (rotr 11 x) (rotr 25 x)).
Definition ch x y z := Z.lxor (Z.land x y) (Z.land (not x) z).
Definition maj x y z := Z.lxor (Z.land x y) (Z.lxor (Z.land x z) (Z.land y z)).

Fixpoint extend (n : nat) (rw : list Z) : list Z :=
  match n with
  | O => rw
  | S n' =>
      let w := add (add (ssig1 (nth 1 rw 0)) (nth 6 rw 0))
                   (add (ssig0 (nth 14 rw 0)) (nth 15 rw 0)) in
      extend n' (w :: rw)
  end.
Definition schedule (block : list Z) : list Z := rev (extend 48 (rev block)).

Definition round (s : state) (kw : Z * Z) : state :=
  let '(St a b c d e f g h) := s in
  let t1 := add (add (add h (bsig1 e)) (ch e f g)) (add (fst kw) (snd kw)) in
  let t2 := add (bsig0 a) (maj a b c) in
  St (add t1 t2) a b c (add d t1) e f g.

Definition compress (s : state) (block : list Z) : state :=
  let '(St a' b' c' d' e' f' g' h') :=
    fold_left round (combine K (schedule block)) s in
  St (add (a s) a') (add (b s) b') (add (c s) c') (add (d s) d')
     (add (e s) e') (add (f s) f') (add (g s) g') (add (h s) h').

Definition sum (msg : list Z) : list Z :=
  let '(St a b c d e f g h) := fold_left compress (Digest.blocks msg) init in
  to_bytes a ++ to_bytes b ++ to_bytes c ++ to_bytes d
    ++ to_bytes e ++ to_bytes f ++ to_bytes g ++ to_bytes h.
End SHA256.

Module HMAC.
(** [hmac.New(sha256.New, key)], then [Write(msg)] and [Sum(nil)]. *)
Definition sha256 (key msg : list Z) : list Z :=
  let key' := if (64 <? List.length key)%nat then SHA256.sum key else key in
  let block := key' ++ repeat 0 (64 - List.length key') in
  let ipad := List.map (Z.lxor 0x36) block in
  let opad := List.map (Z.lxor 0x5c) block in
  SHA256.sum (opad ++ SHA256.sum (ipad ++ msg)).
End HMAC.

(** ** Data model *)

(** [strconv.Itoa], and the [%d] verb of [fmt.Sprintf]. *)
Definition Itoa (n : Z) : string := NilZero.string_of_int (Z.to_int n).

(** A Go call that returns [(value, error)]. *)
Inductive result (A : Type) : Type :=
| Ok (a : A)
| Error (err : string).
Arguments Ok {A} a.
Arguments Error {A} err.

(** [ldvalue.Value]: a JSON value; an array or an object is kept as its
    JSON text. *)
Inductive Value : Type :=
| VNull
| VBool (b : bool)
| VInt (n : Z)
| VString (s : string)
| VComposite (jsonText : string).

(** [ldreason.EvaluationReason] *)
Inductive EvaluationReason : Type :=
| ReasonOff
| ReasonFallthrough
| ReasonTargetMatch
| ReasonRuleMatch (ruleIndex : Z) (ruleID : string)
| ReasonPrerequisiteFailed (prerequisiteKey : string)
| ReasonError (errorKind : string).

(** [ldreason.EvaluationDetail] *)
Module EvaluationDetail.
Record t : Type := Build
  { Value : Value; VariationIndex : Z; Reason : EvaluationReason }.
End EvaluationDetail.

Module User.
(** [lduser.User]: its key, and the rest of its attributes. *)
Record t : Type := Build { GetKey : string; Attributes : Value }.
(** The zero value of [var user lduser.User]. *)
Definition zero : t := Build "" VNull.
End User.

Module FeatureFlag.
(** [ldmodel.FeatureFlag]: the fields the handlers read, and the rest of
    the flag (variations, rules, targets, ...) as [Body]. *)
Record t : Type := Build
  { Key : string;
    Version : Z;
    ClientSide : bool;
    TrackEvents : bool;
    DebugEventsUntilDate : Z;
    Body : Value }.
End FeatureFlag.

Module Segment.
Record t : Type := Build { Key : string; Version : Z; Body : Value }.
End Segment.

(** What a store slot holds behind [interface{}]. *)
Inductive Item : Type :=
| ItemFlag (flag : FeatureFlag.t)
| ItemSegment (segment : Segment.t).

(** [ldstoretypes.DataKind]: [ldstoreimpl.Features()] and
    [ldstoreimpl.Segments()]. *)
Inductive DataKind : Type := Features | Segments.

Module ItemDescriptor.
(** [ldstoretypes.ItemDescriptor]; [Item = None] is Go's [nil], a deleted
    item's tombstone. *)
Record t : Type := Build { Version : Z; Item : option Item }.
(** [ItemDescriptor{}.NotFound()] *)
Definition NotFound : t := Build (-1) None.
End ItemDescriptor.

Module KeyedItemDescriptor.
Record t : Type := Build { Key : string; Item : ItemDescriptor.t }.
End KeyedItemDescriptor.

Module DataStore.
(** The read side of [interfaces.DataStore] that the handlers use. *)
Record t : Type := Build
  { GetAll : DataKind -> result (list KeyedItemDescriptor.t);
    Get : DataKind -> string -> result ItemDescriptor.t;
    IsInitialized : bool }.
End DataStore.

Module LDClient.
(** What the handlers ask of [clientCtx.GetClient()]. *)
Record t : Type := Build
  { Initialized : bool; SecureModeHash : User.t -> string }.

(** The SDK client for [sdkKey]: [SecureModeHash] is the lowercase hex of
    HMAC-SHA256 keyed by the SDK key over the user's key. *)
Definition New (sdkKey : string) (initialized : bool) : t :=
  {| Initialized := initialized;
     SecureModeHash := fun user =>
       Digest.hex (HMAC.sha256 (Digest.of_string sdkKey)
                               (Digest.of_string (User.GetKey user))) |}.
End LDClient.

(** [config.SDKCredential]: a tagged value. *)
Inductive Credential : Type :=
| SDKKey (key : string)
| MobileKey (key : string)
| EnvironmentID (id : string).

Inductive sdkKind : Type := serverSdk | mobileSdk | jsClientSdk.

Definition sdkKind_eqb (a b : sdkKind) : bool :=
  match a, b with
  | serverSdk, serverSdk | mobileSdk, mobileSdk | jsClientSdk, jsClientSdk => true
  | _, _ => false
  end.

(** [streams.StreamProvider]: which channel a stream handler serves. *)
Inductive StreamProvider : Type := AllStream | FlagsStream | PingStream.

(** ** HTTP *)

Definition StatusOK : Z := 200.
Definition StatusNotModified : Z := 304.
Definition StatusBadRequest : Z := 400.
Definition StatusUnauthorized : Z := 401.
Definition StatusNotFound : Z := 404.
Definition StatusUnsupportedMediaType : Z := 415.
Definition StatusInternalServerError : Z := 500.
Definition StatusServiceUnavailable : Z := 503.

(** [m[k]] on a [map[string]string], and [Header.Get], [Values.Get]: the
    empty string when the key is absent. *)
Definition get (m : gmap string string) (k : string) : string :=
  default "" (m !! k).

Module Request.
(** [*http.Request], with the route variables of [mux.Vars(req)]. *)
Record t : Type := Build
  { Method : string;
    Header : gmap string string;
    Query : gmap string string;
    Vars : gmap string string;
    Body : string }.
End Request.

Module ResponseWriter.
(** What an [http.ResponseWriter] has been told: the headers the handler
    set, the status once [WriteHeader] was called, the bytes written. *)
Record t : Type := Build
  { Header : gmap string string; Code : option Z; Body : string }.
Definition new : t := Build ∅ None "".
End ResponseWriter.

Inductive LogLevel : Type := LDebug | LInfo | LWarn | LError.

(** What a handler does besides writing the response. *)
Inductive Effect : Type :=
| Logged (level : LogLevel) (format : string) (args : list string)
| Evaluated (flagKey userKey : string)
| ServedStream (provider : StreamProvider) (credential : Credential).

Record HState : Type := MkHState
  { w : ResponseWriter.t; trace : list Effect }.

(** *** Statements

    A Go statement either falls through to the next one or returns from the
    enclosing function; [Go R A] is a statement sequence inside a function that
    returns [R]. *)
Inductive outcome (R A : Type) : Type :=
| Next (a : A)
| Return (r : R).
Arguments Next {R A} a.
Arguments Return {R A} r.

Definition Go (R A : Type) : Type := HState -> outcome R A * HState.

Definition ret {R A} (a : A) : Go R A := fun s => (Next a, s).
Definition return_ {R A} (r : R) : Go R A := fun s => (Return r, s).
Definition bind {R A B} (m : Go R A) (k : A -> Go R B) : Go R B :=
  fun s =>
    match m s with
    | (Next a, s') => k a s'
    | (Return r, s') => (Return r, s')
    end.

(** Calling a function: its [return] ends the callee, not the caller. *)
Definition call {R R'} (body : Go R R) : Go R' R :=
  fun s =>
    match body s with
    | (Next r, s') => (Next r, s')
    | (Return r, s') => (Next r, s')
    end.

Declare Scope go_scope.
Delimit Scope go_scope with go.
Notation "x <- m ;; k" := (bind m (fun x => k))
  (at level 100, m at next level, right associativity) : go_scope.
Notation "m ;; k" := (bind m (fun _ => k))
  (at level 100, right associativity) : go_scope.

(** [w.Header().Set(k, v)]: once the status line is out, a header set is not
    sent. *)
Definition Header_Set {R} (k v : string) : Go R unit :=
  fun s =>
    let rw := w s in
    match ResponseWriter.Code rw with
    | None =>
        (Next tt,
         MkHState (ResponseWriter.Build (<[k := v]> (ResponseWriter.Header rw))
                     None (ResponseWriter.Body rw))
                  (trace s))
    | Some _ => (Next tt, s)
    end.

(** [w.WriteHeader(code)]: the first call fixes the status. *)
Definition WriteHeader {R} (code : Z) : Go R unit :=
  fun s =>
    let rw := w s in
    match ResponseWriter.Code rw with
    | None =>
        (Next tt,
         MkHState (ResponseWriter.Build (ResponseWriter.Header rw) (Some code)
                     (ResponseWriter.Body rw))
                  (trace s))
    | Some _ => (Next tt, s)
    end.

(** [w.Write(bytes)]: an implicit [WriteHeader(200)] when none was sent. *)
Definition Write {R} (bytes : string) : Go R unit :=
  fun s =>
    let rw := w s in
    (Next tt,
     MkHState (ResponseWriter.Build (ResponseWriter.Header rw)
                 (Some (default StatusOK (ResponseWriter.Code rw)))
                 (ResponseWriter.Body rw +:+ bytes))
              (trace s)).

Definition effect {R} (e : Effect) : Go R unit :=
  fun s => (Next tt, MkHState (w s) (trace s ++ [e])).

Definition Debug {R} (msg : string) : Go R unit := effect (Logged LDebug msg []).
Definition Debugf {R} (fmt : string) (args : list string) : Go R unit :=
  effect (Logged LDebug fmt args).
Definition Warn {R} (msg : string) : Go R unit := effect (Logged LWarn msg []).
Definition Warnf {R} (fmt : string) (args : list string) : Go R unit :=
  effect (Logged LWarn fmt args).
Definition Errorf {R} (fmt : string) (args : list string) : Go R unit :=
  effect (Logged LError fmt args).

(** A handler serves a request by running its body on the response writer. *)
Definition ServeHTTP (body : Go unit unit) (s : HState) : HState := snd (body s).

(** ** Environments *)

Module EnvContext.
(** The part of [relayenv.EnvContext] that the handlers consult.
    [GetStreamHandler] gives the handler that attaches the caller to a
    channel of the environment's fan-out hub. *)
Record t : Type := Build
  { IsSecureMode : bool;
    GetClient : LDClient.t;
    GetStore : DataStore.t;
    GetTTL : Z;
    GetStreamHandler : StreamProvider -> Credential -> Request.t -> HState -> HState }.
End EnvContext.

(** What the authentication middleware leaves in the request's context and
    [getClientContext(req)] reads back. *)
Record clientContext : Type := MkClientContext
  { env : EnvContext.t; credential : Credential }.

Module evalXResult.
(** A member's value in the JSON object emitted for one flag. *)
Inductive field : Type :=
| FValue (v : Value)
| FInt (n : Z)
| FBool (b : bool)
| FReason (r : EvaluationReason).

(** Modelled from the spec: the declaration of the struct [evalXResult] is
    not in src/.  Section 3 gives its fields as [{value, variation?, version,
    trackEvents, trackReason, debugEventsUntilDate?, reason?}]; the optional
    ones are the pointers that [evaluateAllShared] leaves nil or sets to an
    address. *)
Record t : Type := Build
  { Value : Value;
    Variation : option Z;
    Version : Z;
    TrackEvents : bool;
    TrackReason : bool;
    DebugEventsUntilDate : option Z;
    Reason : option EvaluationReason }.

Definition optional {A} (name : string) (f : A -> field) (o : option A)
  : list (string * field) :=
  match o with Some a => [(name, f a)] | None => [] end.

(** Modelled from the spec: the members of the JSON object emitted for one
    flag, a nil pointer leaving its member out. *)
Definition members (r : t) : list (string * field) :=
  [("value", FValue (Value r))]
    ++ optional "variation" FInt (Variation r)
    ++ [("version", FInt (Version r));
        ("trackEvents", FBool (TrackEvents r));
        ("trackReason", FBool (TrackReason r))]
    ++ optional "debugEventsUntilDate" FInt (DebugEventsUntilDate r)
    ++ optional "reason" FReason (Reason r).

(** The member called [name], if the object has one. *)
Definition member (name : string) (r : t) : option field :=
  snd <$> List.find (fun m => String.eqb (fst m) name) (members r).
End evalXResult.

(** One entry of the evaluation response: the bare value under the legacy
    schema, an [evalXResult] under the new one. *)
Inductive EvalEntry : Type :=
| ValueOnly (v : Value)
| EvalX (r : evalXResult.t).

(** What the handlers pass to [json.Marshal]. *)
Inductive Entity : Type :=
| EItem (item : Item)
| EItems (respData : gmap string (option Item))
| EResponse (response : gmap string EvalEntry).

Module Lib.
(** What the handlers use and src/ does not hold: user decoding, JSON, the
    flag evaluator, the clock, and the string that the constant of an
    [sdkKind] stands for (what [%s] prints of it). *)
Record t : Type := Build
  { sdkKind_String : sdkKind -> string;
    UserV2FromBase64 : string -> User.t * option string;
    json_Unmarshal : string -> User.t * option string;
    json_Marshal : Entity -> result string;
    ErrorJsonMsg : string -> string;
    Evaluate : DataStore.t -> FeatureFlag.t -> User.t -> EvaluationDetail.t;
    IsExperimentationEnabled : FeatureFlag.t -> EvaluationReason -> bool;
    time_Now : Z;
    TimeFormat : Z -> string }.
End Lib.

(** ** The handlers of relay_endpoints.go *)

(** Go's [<] on strings: bytewise lexicographic. *)
Definition string_lt (a b : string) : bool :=
  match String_as_OT.compare a b with Lt => true | _ => false end.

(** [sort.Slice(data, func(i, j) bool { return data[i].Key < data[j].Key })].
    The keys of one store read are pairwise different, so every correct sort
    gives the same slice; this one inserts each item before the first item
    whose key is not smaller. *)
Fixpoint insert_by_key (x : KeyedItemDescriptor.t) (l : list KeyedItemDescriptor.t)
  : list KeyedItemDescriptor.t :=
  match l with
  | [] => [x]
  | y :: l' =>
      if string_lt (KeyedItemDescriptor.Key y) (KeyedItemDescriptor.Key x)
      then y :: insert_by_key x l'
      else x :: y :: l'
  end.

Definition sort_by_key (data : list KeyedItemDescriptor.t) : list KeyedItemDescriptor.t :=
  fold_right insert_by_key [] data.

(** [fmt.Sprintf("%s:%d", item.Key, item.Item.Version)] *)
Definition key_version (item : KeyedItemDescriptor.t) : string :=
  KeyedItemDescriptor.Key item +:+ ":"
    +:+ Itoa (ItemDescriptor.Version (KeyedItemDescriptor.Item item)).

(** The Etag of the data set: the first 15 hex digits of the SHA-1 of the
    keys and versions, written to the hash in key order. *)
Definition flags_etag (data : list KeyedItemDescriptor.t) : string :=
  let written := flat_map (fun item => Digest.of_string (key_version item))
                          (sort_by_key data) in
  GoString.prefix 15 (Digest.hex (SHA1.sum written)).

Definition itemsCollectionToMap (coll : list KeyedItemDescriptor.t)
  : gmap string (option Item) :=
  fold_left
    (fun ret item =>
       <[KeyedItemDescriptor.Key item :=
           ItemDescriptor.Item (KeyedItemDescriptor.Item item)]> ret)
    coll ∅.

Section Handlers.
Context (lib : Lib.t).
Local Open Scope go_scope.

Definition getClientSideUserProperties {R} (clientCtx : EnvContext.t)
    (kind : sdkKind) (req : Request.t) : Go R (User.t * bool) :=
  call
    (decoded <-
       (if String.eqb (Request.Method req) "REPORT" then
          (if negb (String.eqb (get (Request.Header req) "Content-Type")
                               "application/json")
           then
             WriteHeader StatusUnsupportedMediaType ;;
             Write "Content-Type must be application/json." ;;
             return_ (User.zero, false)
           else ret tt) ;;
          ret (Lib.json_Unmarshal lib (Request.Body req))
        else
          ret (Lib.UserV2FromBase64 lib (get (Request.Vars req) "user"))) ;;
     let user := fst decoded in
     match snd decoded with
     | Some userDecodeErr =>
         Header_Set "Content-Type" "application/json" ;;
         WriteHeader StatusBadRequest ;;
         Write (Lib.ErrorJsonMsg lib userDecodeErr) ;;
         return_ (user, false)
     | None =>
         (if EnvContext.IsSecureMode clientCtx && sdkKind_eqb kind jsClientSdk
          then
            let hash := get (Request.Query req) "h" in
            let valid :=
              if negb (String.eqb hash "")
              then String.eqb hash
                     (LDClient.SecureModeHash (EnvContext.GetClient clientCtx) user)
              else false in
            if negb valid then
              Header_Set "Content-Type" "application/json" ;;
              WriteHeader StatusBadRequest ;;
              Write (Lib.ErrorJsonMsg lib
                       "Environment is in secure mode, and user hash does not match.") ;;
              return_ (user, false)
            else ret tt
          else ret tt) ;;
         return_ (user, true)
     end).

(** [env.GetStreamHandler(streamProvider, credential).ServeHTTP(w, req)];
    the trace keeps that the stream handler was given the connection. *)
Definition serveStream {R} (clientCtx : clientContext) (provider : StreamProvider)
    (req : Request.t) : Go R unit :=
  effect (ServedStream provider (credential clientCtx)) ;;
  (fun s =>
     (Next tt,
      EnvContext.GetStreamHandler (env clientCtx) provider
        (credential clientCtx) req s)).

Definition pingStreamHandler (provider : StreamProvider)
    (clientCtx : clientContext) (req : Request.t) : Go unit unit :=
  Debug "Application requested client-side ping stream" ;;
  serveStream clientCtx provider req.

Definition pingStreamHandlerWithUser (kind : sdkKind) (provider : StreamProvider)
    (clientCtx : clientContext) (req : Request.t) : Go unit unit :=
  Debug "Application requested client-side ping stream" ;;
  r <- getClientSideUserProperties (env clientCtx) kind req ;;
  if snd r then serveStream clientCtx provider req else ret tt.

Definition streamHandler (provider : StreamProvider) (logMessage : string)
    (clientCtx : clientContext) (req : Request.t) : Go unit unit :=
  Debug logMessage ;;
  serveStream clientCtx provider req.

Definition writeCacheableJSONResponse {R} (req : Request.t)
    (clientContext : EnvContext.t) (entity : Entity) (etagValue : string)
  : Go R unit :=
  call
    (let etag := "relay-" +:+ etagValue in
     let cachedEtag := get (Request.Header req) "If-None-Match" in
     (if negb (String.eqb cachedEtag "") then
        if String.eqb cachedEtag etag then
          WriteHeader StatusNotModified ;;
          return_ tt
        else ret tt
      else ret tt) ;;
     match Lib.json_Marshal lib entity with
     | Error err =>
         Errorf "Error marshaling JSON: %s" [err] ;;
         WriteHeader StatusInternalServerError
     | Ok bytes =>
         Header_Set "Content-Type" "application/json" ;;
         Header_Set "Etag" etag ;;
         let ttl := EnvContext.GetTTL clientContext in
         (if 0 <? ttl then
            Header_Set "Vary" "Authorization" ;;
            let expiresAt := Lib.time_Now lib + ttl in
            Header_Set "Expires" (Lib.TimeFormat lib expiresAt)
          else ret tt) ;;
         WriteHeader StatusOK ;;
         Write bytes
     end).

Definition pollAllFlagsHandler (clientCtx : clientContext) (req : Request.t)
  : Go unit unit :=
  match DataStore.GetAll (EnvContext.GetStore (env clientCtx)) Features with
  | Error err =>
      Errorf "Error reading feature store: %s" [err] ;;
      WriteHeader 500 ;;
      return_ tt
  | Ok data =>
      let respData := itemsCollectionToMap data in
      let etag := flags_etag data in
      writeCacheableJSONResponse req (env clientCtx) (EItems respData) etag
  end.

Definition pollFlagOrSegment (clientContext : EnvContext.t) (kind : DataKind)
    (req : Request.t) : Go unit unit :=
  let key := get (Request.Vars req) "key" in
  match DataStore.Get (EnvContext.GetStore clientContext) kind key with
  | Error err =>
      Errorf "Error reading feature store: %s" [err] ;;
      WriteHeader StatusInternalServerError ;;
      return_ tt
  | Ok item =>
      match ItemDescriptor.Item item with
      | None => WriteHeader StatusNotFound
      | Some entity =>
          writeCacheableJSONResponse req clientContext (EItem entity)
            (Itoa (ItemDescriptor.Version item))
      end
  end.

Definition pollFlagHandler (clientCtx : clientContext) (req : Request.t)
  : Go unit unit :=
  pollFlagOrSegment (env clientCtx) Features req.

Definition pollSegmentHandler (clientCtx : clientContext) (req : Request.t)
  : Go unit unit :=
  pollFlagOrSegment (env clientCtx) Segments req.

(** [evaluator.Evaluate(flag, user, nil)], the evaluator reading
    prerequisites and segments from [store]. *)
Definition Evaluate {R} (store : DataStore.t) (flag : FeatureFlag.t)
    (user : User.t) : Go R EvaluationDetail.t :=
  effect (Evaluated (FeatureFlag.Key flag) (User.GetKey user)) ;;
  ret (Lib.Evaluate lib store flag user).

(** What the loop of [evaluateAllShared] stores under the flag's key. *)
Definition evalResult (valueOnly withReasons : bool) (flag : FeatureFlag.t)
    (detail : EvaluationDetail.t) : EvalEntry :=
  if valueOnly then ValueOnly (EvaluationDetail.Value detail)
  else
    let isExperiment :=
      Lib.IsExperimentationEnabled lib flag (EvaluationDetail.Reason detail) in
    EvalX
      {| evalXResult.Value := EvaluationDetail.Value detail;
         evalXResult.Version := FeatureFlag.Version flag;
         evalXResult.TrackEvents := FeatureFlag.TrackEvents flag || isExperiment;
         evalXResult.TrackReason := isExperiment;
         evalXResult.Variation :=
           if 0 <=? EvaluationDetail.VariationIndex detail
           then Some (EvaluationDetail.VariationIndex detail) else None;
         evalXResult.Reason :=
           if withReasons || isExperiment
           then Some (EvaluationDetail.Reason detail) else None;
         evalXResult.DebugEventsUntilDate :=
           if negb (FeatureFlag.DebugEventsUntilDate flag =? 0)
           then Some (FeatureFlag.DebugEventsUntilDate flag) else None |}.

(** [for _, item := range items { ... response[flag.Key] = result }] *)
Fixpoint evaluateItems {R} (store : DataStore.t) (user : User.t)
    (valueOnly withReasons : bool) (kind : sdkKind)
    (items : list KeyedItemDescriptor.t) (response : gmap string EvalEntry)
  : Go R (gmap string EvalEntry) :=
  match items with
  | [] => ret response
  | item :: rest =>
      match ItemDescriptor.Item (KeyedItemDescriptor.Item item) with
      | Some (ItemFlag flag) =>
          if sdkKind_eqb kind jsClientSdk && negb (FeatureFlag.ClientSide flag)
          then evaluateItems store user valueOnly withReasons kind rest response
          else
            detail <- Evaluate store flag user ;;
            evaluateItems store user valueOnly withReasons kind rest
              (<[FeatureFlag.Key flag :=
                   evalResult valueOnly withReasons flag detail]> response)
      | _ => evaluateItems store user valueOnly withReasons kind rest response
      end
  end.

Definition evaluateAllShared (clientCtx : clientContext) (req : Request.t)
    (valueOnly : bool) (kind : sdkKind) : Go unit unit :=
  let client := EnvContext.GetClient (env clientCtx) in
  let store := EnvContext.GetStore (env clientCtx) in
  r <- getClientSideUserProperties (env clientCtx) kind req ;;
  let user := fst r in
  (if negb (snd r) then return_ tt else ret tt) ;;
  let withReasons := String.eqb (get (Request.Query req) "withReasons") "true" in
  Header_Set "Content-Type" "application/json" ;;
  (if negb (LDClient.Initialized client) then
     if DataStore.IsInitialized store then
       Warn "Called before client initialization; using last known values from feature store"
     else
       WriteHeader StatusServiceUnavailable ;;
       Warn "Called before client initialization. Feature store not available" ;;
       Write (Lib.ErrorJsonMsg lib "Service not initialized") ;;
       return_ tt
   else ret tt) ;;
  (if String.eqb (User.GetKey user) "" then
     WriteHeader StatusBadRequest ;;
     Write (Lib.ErrorJsonMsg lib "User must have a 'key' attribute") ;;
     return_ tt
   else ret tt) ;;
  Debugf "Application requested client-side flags (%s) for user: %s"
    [Lib.sdkKind_String lib kind; User.GetKey user] ;;
  match DataStore.GetAll store Features with
  | Error err =>
      Warnf "Unable to fetch flags from feature store. Returning nil map. Error: %s"
        [err] ;;
      WriteHeader StatusInternalServerError ;;
      Write (Lib.ErrorJsonMsg lib
               ("Error fetching flags from feature store: " +:+ err)) ;;
      return_ tt
  | Ok items =>
      response <- evaluateItems store user valueOnly withReasons kind items ∅ ;;
      let result :=
        match Lib.json_Marshal lib (EResponse response) with
        | Ok bytes => bytes
        | Error _ => ""
        end in
      WriteHeader StatusOK ;;
      Write result
  end.

Definition evaluateAllFeatureFlags (kind : sdkKind) (clientCtx : clientContext)
    (req : Request.t) : Go unit unit :=
  evaluateAllShared clientCtx req false kind.

Definition evaluateAllFeatureFlagsValueOnly (kind : sdkKind)
    (clientCtx : clientContext) (req : Request.t) : Go unit unit :=
  evaluateAllShared clientCtx req true kind.

End Handlers.

(** ** The handlers of endpoints.go (the v5 relay) *)

Module V5.
(** [ld.FeatureStore.Get]: a nil item when the key is unknown or deleted. *)
Record FeatureStore : Type := MkFeatureStore
  { Get : DataKind -> string -> result (option Item) }.

Section Handlers.
Context (lib : Lib.t).
Local Open Scope go_scope.

Definition pollFlagOrSegment (featureStore : FeatureStore) (kind : DataKind)
    (req : Request.t) : Go unit unit :=
  let key := get (Request.Vars req) "key" in
  match Get featureStore kind key with
  | Error err =>
      Errorf "Error reading feature store: %s" [err] ;;
      WriteHeader 500 ;;
      return_ tt
  | Ok None => WriteHeader 404
  | Ok (Some item) =>
      match Lib.json_Marshal lib (EItem item) with
      | Error err =>
          Errorf "Error marshaling JSON: %s" [err] ;;
          WriteHeader 500
      | Ok bytes =>
          Header_Set "Content-Type" "application/json" ;;
          WriteHeader 200 ;;
          Write bytes
      end
  end.
End Handlers.
End V5.

(** ** The in-memory data store *)

Module InMemoryStore.
(** Modelled from the spec: [sharedtest.NewInMemoryStore] is not in src/.
    Section 3: a mapping [(kind, key) -> (version, item-or-tombstone)];
    [Init] replaces the contents; an upsert whose version is not strictly
    greater than the stored one (a stored tombstone included) is dropped. *)
Record t : Type := Build
  { flags : gmap string ItemDescriptor.t;
    segments : gmap string ItemDescriptor.t;
    initialized : bool }.

Definition New : t := Build ∅ ∅ false.

Definition items (kind : DataKind) (s : t) : gmap string ItemDescriptor.t :=
  match kind with Features => flags s | Segments => segments s end.

Definition set_items (kind : DataKind) (m : gmap string ItemDescriptor.t) (s : t) : t :=
  match kind with
  | Features => Build m (segments s) (initialized s)
  | Segments => Build (flags s) m (initialized s)
  end.

(** [[]ldstoretypes.Collection]; Go's [nil] is the empty list. *)
Definition Collections : Type := list (DataKind * list KeyedItemDescriptor.t).

Definition collection (kind : DataKind) (allData : Collections)
  : gmap string ItemDescriptor.t :=
  fold_left
    (fun m c =>
       match fst c, kind with
       | Features, Features | Segments, Segments =>
           fold_left
             (fun m' item =>
                <[KeyedItemDescriptor.Key item := KeyedItemDescriptor.Item item]> m')
             (snd c) m
       | _, _ => m
       end)
    allData ∅.

Definition Init (allData : Collections) (s : t) : t :=
  Build (collection Features allData) (collection Segments allData) true.

Definition Get (kind : DataKind) (key : string) (s : t) : ItemDescriptor.t :=
  default ItemDescriptor.NotFound (items kind s !! key).

Definition GetAll (kind : DataKind) (s : t) : list KeyedItemDescriptor.t :=
  (fun kv => KeyedItemDescriptor.Build (fst kv) (snd kv)) <$> map_to_list (items kind s).

(** Returns whether the write was applied, and the store after it. *)
Definition Upsert (kind : DataKind) (key : string) (item : ItemDescriptor.t) (s : t)
  : bool * t :=
  match items kind s !! key with
  | Some old =>
      if ItemDescriptor.Version item <=? ItemDescriptor.Version old
      then (false, s)
      else (true, set_items kind (<[key := item]> (items kind s)) s)
  | None => (true, set_items kind (<[key := item]> (items kind s)) s)
  end.

(** The store as the handlers see it. *)
Definition DataStore (s : t) : DataStore.t :=
  {| DataStore.GetAll := fun kind => Ok (GetAll kind s);
     DataStore.Get := fun kind key => Ok (Get kind key s);
     DataStore.IsInitialized := initialized s |}.
End InMemoryStore.

(** ** The relay feature store *)

(** The events of the three channels, as [TestRelayFeatureStore] names
    them. *)
Inductive Event : Type :=
| allPutEvent (flags segments : gmap string Item)
| flagsPutEvent (flags : gmap string Item)
| upsertEvent (Path : string) (D : Item)
| deleteEvent (Path : string) (Version : Z)
| pingEvent.

Module SSERelayFeatureStore.
(** [testPublisher]: [Publish] appends the event to [events]. *)
Definition testPublisher : Type := list Event.
Definition Publish (event : Event) (p : testPublisher) : testPublisher := p ++ [event].

Record t : Type := Build
  { store : InMemoryStore.t;
    allPublisher : testPublisher;
    flagsPublisher : testPublisher;
    pingPublisher : testPublisher }.

Definition NewSSERelayFeatureStore (baseStore : InMemoryStore.t) : t :=
  Build baseStore [] [] [].

(** The items of a kind that are not tombstones. *)
Definition live (kind : DataKind) (s : InMemoryStore.t) : gmap string Item :=
  omap ItemDescriptor.Item (InMemoryStore.items kind s).

Definition allPath (kind : DataKind) (key : string) : string :=
  match kind with
  | Features => "/flags/" +:+ key
  | Segments => "/segments/" +:+ key
  end.

Definition flagsPath (key : string) : string := "/" +:+ key.

(** One event on [all], the same with the short path on [flags] when the
    kind is flags, and a ping. *)
Definition publishAll (kind : DataKind) (key : string) (mk : string -> Event) (relay : t) : t :=
  Build (store relay)
    (Publish (mk (allPath kind key)) (allPublisher relay))
    (match kind with
     | Features => Publish (mk (flagsPath key)) (flagsPublisher relay)
     | Segments => flagsPublisher relay
     end)
    (Publish pingEvent (pingPublisher relay)).

(** Modelled from the spec: [SSERelayFeatureStore.Init] is not in src/.
    Section 4.3: delegate, then a [put] with both maps on [all], a [put]
    with the flags on [flags], and a [ping]. *)
Definition Init (allData : InMemoryStore.Collections) (relay : t) : t :=
  let store' := InMemoryStore.Init allData (store relay) in
  Build store'
    (Publish (allPutEvent (live Features store') (live Segments store'))
             (allPublisher relay))
    (Publish (flagsPutEvent (live Features store')) (flagsPublisher relay))
    (Publish pingEvent (pingPublisher relay)).

(** Modelled from the spec: [SSERelayFeatureStore.Upsert] is not in src/.
    Section 4.3 gives the delegation and the [patch] and [delete] events of
    an applied write.  For a write the backing store did not apply the model
    follows [TestRelayFeatureStore] (src/relay_endpoints.go, "updating flag
    with older version just sends newer version" and "updating deleted flag
    with older version does nothing"): the store reads the key back and
    publishes what it holds when that is a live item, and publishes nothing
    when it is a tombstone. *)
Definition Upsert (kind : DataKind) (key : string) (item : ItemDescriptor.t) (relay : t)
  : bool * t :=
  let '(updated, store') := InMemoryStore.Upsert kind key item (store relay) in
  let relay' :=
    Build store' (allPublisher relay) (flagsPublisher relay) (pingPublisher relay) in
  let newItem := InMemoryStore.Get kind key store' in
  match ItemDescriptor.Item newItem with
  | Some stored =>
      (updated, publishAll kind key (fun path => upsertEvent path stored) relay')
  | None =>
      if updated then
        (updated,
         publishAll kind key
           (fun path => deleteEvent path (ItemDescriptor.Version newItem)) relay')
      else (updated, relay')
  end.

(** [sharedtest.UpsertFlag(store, flag)] *)
Definition UpsertFlag (flag : FeatureFlag.t) (relay : t) : bool * t :=
  Upsert Features (FeatureFlag.Key flag)
    (ItemDescriptor.Build (FeatureFlag.Version flag) (Some (ItemFlag flag))) relay.
End SSERelayFeatureStore.

(** ** The environment registry and the Credential Index *)

#[global] Instance Credential_eq_dec : EqDecision Credential.
Proof. solve_decision. Defined.

#[global] Instance Credential_countable : Countable Credential.
Proof.
  refine (inj_countable'
            (fun c => match c with
                      | SDKKey k => inl k
                      | MobileKey k => inr (inl k)
                      | EnvironmentID k => inr (inr k)
                      end)
            (fun x => match x with
                      | inl k => SDKKey k
                      | inr (inl k) => MobileKey k
                      | inr (inr k) => EnvironmentID k
                      end) _).
  intros []; reflexivity.
Defined.

Module EnvIdentifiers.
(** [relayenv.EnvIdentifiers] *)
Record t : Type := Build
  { EnvKey : string; EnvName : string; ProjKey : string; ProjName : string;
    FilterKey : string }.
(** Modelled from the spec: [GetDisplayName] is not in src/; the display
    name is the project's and the environment's names. *)
Definition GetDisplayName (i : t) : string := ProjName i +:+ " " +:+ EnvName i.
End EnvIdentifiers.

Module EnvState.
(** Modelled from the spec: the environment's own bookkeeping (section 3):
    identifiers, TTL, secure mode, the active credentials, the deprecated
    ones, and the data set its update sink was last given. *)
Record t : Type := Build
  { Identifiers : EnvIdentifiers.t;
    TTL : Z;
    SecureMode : bool;
    credentials : list Credential;
    deprecated : list Credential;
    data : option InMemoryStore.Collections;
    valid : bool }.

Definition GetCredentials (e : t) : list Credential := credentials e.

Definition SetIdentifiers (i : EnvIdentifiers.t) (e : t) : t :=
  Build i (TTL e) (SecureMode e) (credentials e) (deprecated e) (data e) (valid e).
Definition SetTTL (ttl : Z) (e : t) : t :=
  Build (Identifiers e) ttl (SecureMode e) (credentials e) (deprecated e) (data e) (valid e).
Definition SetSecureMode (secure : bool) (e : t) : t :=
  Build (Identifiers e) (TTL e) secure (credentials e) (deprecated e) (data e) (valid e).

Definition without (c : Credential) (l : list Credential) : list Credential :=
  List.filter (fun c' => negb (bool_decide (c' = c))) l.

Definition set_credentials (active old : list Credential) (e : t) : t :=
  Build (Identifiers e) (TTL e) (SecureMode e) active old (data e) (valid e).

(** Modelled from the spec: section 4.2, [AddCredential] makes the
    credential an active one of the environment. *)
Definition AddCredential (c : Credential) (e : t) : t :=
  if bool_decide (c ∈ credentials e) then e
  else set_credentials (credentials e ++ [c]) (deprecated e) e.

(** Modelled from the spec: section 4.2, [RemoveCredential] forgets the
    credential, active or deprecated. *)
Definition RemoveCredential (c : Credential) (e : t) : t :=
  set_credentials (without c (credentials e)) (without c (deprecated e)) e.

(** Modelled from the spec: sections 3 and 4.2, [DeprecateCredential]
    moves an active credential to the deprecated ones; it is still the
    environment's until it is removed. *)
Definition DeprecateCredential (c : Credential) (e : t) : t :=
  if bool_decide (c ∈ credentials e)
  then set_credentials (without c (credentials e)) (deprecated e ++ [c]) e
  else e.

(** [updates.Init(data)] followed or not by [UpdateStatus(Valid)]. *)
Definition Init (d : InMemoryStore.Collections) (e : t) : t :=
  Build (Identifiers e) (TTL e) (SecureMode e) (credentials e) (deprecated e)
        (Some d) (valid e).
Definition UpdateStatusValid (e : t) : t :=
  Build (Identifiers e) (TTL e) (SecureMode e) (credentials e) (deprecated e)
        (data e) true.
End EnvState.

Module EnvironmentParams.
(** [envfactory.EnvironmentParams]; an absent key is the empty string. *)
Record t : Type := Build
  { EnvID : string;
    Identifiers : EnvIdentifiers.t;
    SDKKey : string;
    MobileKey : string;
    ExpiringSDKKey : string;
    TTL : Z;
    SecureMode : bool }.
End EnvironmentParams.

Module ArchiveEnvironment.
(** [filedata.ArchiveEnvironment]; [SDKData = None] is Go's [nil]. *)
Record t : Type := Build
  { Params : EnvironmentParams.t;
    SDKData : option InMemoryStore.Collections }.
End ArchiveEnvironment.

Module Relay.
(** Modelled from the spec: the [Relay] struct is not in src/.  It holds the
    environments (an environment is addressed by its ID, which stands for
    the Go pointer to it), the Credential Index of section 4.1, and its
    loggers' output.  The filter key of [sdkauth.NewScoped] is left out: the
    index of the spec is keyed by the credential alone. *)
Record t : Type := Build
  { environments : gmap string EnvState.t;
    envsByCredential : gmap Credential string;
    loggers : list Effect }.

Definition New : t := Build ∅ ∅ [].

(** Modelled from the spec: section 4.1, [lookup(credential)], through the
    index and then the registry. *)
Definition getEnvironment (c : Credential) (r : t) : option (string * EnvState.t) :=
  match envsByCredential r !! c with
  | Some id =>
      match environments r !! id with
      | Some e => Some (id, e)
      | None => None
      end
  | None => None
  end.

(** Modelled from the spec: section 4.1, [add(credential, environment)];
    an old binding of the credential is replaced. *)
Definition addedEnvironmentCredential (id : string) (c : Credential) (r : t) : t :=
  Build (environments r) (<[c := id]> (envsByCredential r)) (loggers r).

(** Modelled from the spec: section 4.1, [remove(credential)]. *)
Definition removingEnvironmentCredential (c : Credential) (r : t) : t :=
  Build (environments r) (delete c (envsByCredential r)) (loggers r).

(** A method call through the pointer to an environment. *)
Definition onEnv (id : string) (f : EnvState.t -> EnvState.t) (r : t) : t :=
  Build (alter f id (environments r)) (envsByCredential r) (loggers r).

Definition Errorf (format : string) (args : list string) (r : t) : t :=
  Build (environments r) (envsByCredential r)
        (loggers r ++ [Logged LError format args]).

(** The credentials of an environment's configuration. *)
Definition configured (p : EnvironmentParams.t) : list Credential :=
  (if String.eqb (EnvironmentParams.SDKKey p) "" then []
   else [SDKKey (EnvironmentParams.SDKKey p)])
    ++ (if String.eqb (EnvironmentParams.MobileKey p) "" then []
        else [MobileKey (EnvironmentParams.MobileKey p)])
    ++ (if String.eqb (EnvironmentParams.EnvID p) "" then []
        else [EnvironmentID (EnvironmentParams.EnvID p)]).

(** Modelled from the spec: [Relay.addEnvironment] is not in src/.  Section
    4.6, "New environment: construct via 4.2 and register": unless the
    construction fails with [err], the environment is stored and every
    credential of its configuration is bound to it. *)
Definition addEnvironment (p : EnvironmentParams.t) (err : option string) (r : t)
  : result string * t :=
  match err with
  | Some e => (Error e, r)
  | None =>
      let id := EnvironmentParams.EnvID p in
      let e := EnvState.Build (EnvironmentParams.Identifiers p)
                 (EnvironmentParams.TTL p) (EnvironmentParams.SecureMode p)
                 (configured p) [] None false in
      (Ok id,
       Build (<[id := e]> (environments r))
             (fold_right (fun c m => <[c := id]> m) (envsByCredential r) (configured p))
             (loggers r))
  end.
End Relay.

(** ** The authentication middleware *)

Section Middleware.
(** How the relay presents a registered environment to the handlers. *)
Context (contextOf : string -> EnvState.t -> EnvContext.t).
Local Open Scope go_scope.

(** Modelled from the spec: section 4.5, the middleware "reads
    [Authorization] (server/mobile) or URL-embedded environment ID (JS)". *)
Definition getSDKCredential (kind : sdkKind) (req : Request.t) : Credential :=
  match kind with
  | serverSdk => SDKKey (get (Request.Header req) "Authorization")
  | mobileSdk => MobileKey (get (Request.Header req) "Authorization")
  | jsClientSdk => EnvironmentID (get (Request.Vars req) "envId")
  end.

(** Modelled from the spec: the middleware that resolves
    [credential -> environment] is not in src/.  Section 4.5: "Unknown
    credential -> 401 (server/mobile) or 404 (environment ID)"; a known one
    reaches the handler with its environment. *)
Definition selectEnvironment (kind : sdkKind) (r : Relay.t)
    (next : clientContext -> Request.t -> Go unit unit) (req : Request.t)
  : Go unit unit :=
  let c := getSDKCredential kind req in
  match Relay.getEnvironment c r with
  | Some (id, e) => next (MkClientContext (contextOf id e) c) req
  | None =>
      match kind with
      | jsClientSdk => WriteHeader StatusNotFound
      | _ => WriteHeader StatusUnauthorized
      end
  end.
End Middleware.

(** ** The file-data actions (relayFileDataActions) *)

Definition logMsgOfflineEnvTimeoutError : string :=
  "Unable to initialize offline environment %q: timed out waiting for client creation".
Definition logMsgInternalErrorUpdatedEnvNotFound : string :=
  "Unexpected error in file data processing: environment ID %s not found when updating".
Definition logMsgInternalErrorNoUpdatesForEnv : string :=
  "Unexpected error in file data processing: environment ID %s not found in envUpdates".
(** Modelled from the spec: this constant is declared outside src/. *)
Definition logMsgAutoConfEnvInitError : string :=
  "Unable to initialize auto-configured environment %q: %s".

Module relayFileDataActions.
(** [subsystems.DataSourceUpdateSink]: the sink the SDK client of an
    environment handed to its data source, named by that environment. *)
Definition DataSourceUpdateSink : Type := string.

Record t : Type := Build
  { r : Relay.t; envUpdates : gmap string DataSourceUpdateSink }.

(** [stubDataSourceToCaptureUpdates]: the data source put in place of the
    SDK's.  It reports itself initialized at once and closes without error;
    its [Start] sends [dataSourceUpdates] on [updatesCh], which
    [AddEnvironment] either receives ([Captured]) or stops waiting for. *)
Record stubDataSourceToCaptureUpdates : Type := MkStub
  { dataSourceUpdates : DataSourceUpdateSink }.
Definition stub_IsInitialized (s : stubDataSourceToCaptureUpdates) : bool := true.
Definition stub_Close (s : stubDataSourceToCaptureUpdates) : option string := None.

(** What [select] saw first: the sink sent by
    [stubDataSourceToCaptureUpdates.Start] on [updatesCh], or the two
    seconds of [time.After]. *)
Inductive selected : Type := Captured | TimedOut.

Definition AddEnvironment (ae : ArchiveEnvironment.t)
    (constructionErr : option string) (sel : selected) (a : t) : t :=
  let p := ArchiveEnvironment.Params ae in
  let name := EnvIdentifiers.GetDisplayName (EnvironmentParams.Identifiers p) in
  match Relay.addEnvironment p constructionErr (r a) with
  | (Error err, r0) =>
      Build (Relay.Errorf logMsgAutoConfEnvInitError [name; err] r0) (envUpdates a)
  | (Ok env, r0) =>
      let expiring := EnvironmentParams.ExpiringSDKKey p in
      let r1 :=
        if negb (String.eqb expiring "") then
          match Relay.getEnvironment (SDKKey expiring) r0 with
          | None =>
              Relay.addedEnvironmentCredential env (SDKKey expiring)
                (Relay.onEnv env (EnvState.DeprecateCredential (SDKKey expiring))
                   (Relay.onEnv env (EnvState.AddCredential (SDKKey expiring)) r0))
          | Some _ => r0
          end
        else r0 in
      match sel with
      | Captured =>
          let updates : DataSourceUpdateSink := env in
          Build
            (Relay.onEnv updates EnvState.UpdateStatusValid
               (Relay.onEnv updates
                  (EnvState.Init (default [] (ArchiveEnvironment.SDKData ae))) r1))
            (<[EnvironmentParams.EnvID p := updates]> (envUpdates a))
      | TimedOut =>
          Build (Relay.Errorf logMsgOfflineEnvTimeoutError [name] r1) (envUpdates a)
      end
  end.

(** The loop over [env.GetCredentials()]: the last SDK key and the last
    mobile key, the empty string when there is none. *)
Definition oldKeys (creds : list Credential) : string * string :=
  fold_left
    (fun old c =>
       match c with
       | SDKKey k => (k, snd old)
       | MobileKey k => (fst old, k)
       | EnvironmentID _ => old
       end)
    creds ("", "").

Definition UpdateEnvironment (ae : ArchiveEnvironment.t) (a : t) : t :=
  let p := ArchiveEnvironment.Params ae in
  match Relay.getEnvironment (EnvironmentID (EnvironmentParams.EnvID p)) (r a) with
  | None =>
      Build (Relay.Errorf logMsgInternalErrorUpdatedEnvNotFound
               [EnvironmentParams.EnvID p] (r a))
            (envUpdates a)
  | Some (env, _) =>
      match envUpdates a !! EnvironmentParams.EnvID p with
      | None =>
          Build (Relay.Errorf logMsgInternalErrorNoUpdatesForEnv
                   [EnvironmentParams.EnvID p] (r a))
                (envUpdates a)
      | Some updates =>
          let r1 :=
            Relay.onEnv env (EnvState.SetSecureMode (EnvironmentParams.SecureMode p))
              (Relay.onEnv env (EnvState.SetTTL (EnvironmentParams.TTL p))
                 (Relay.onEnv env
                    (EnvState.SetIdentifiers (EnvironmentParams.Identifiers p)) (r a))) in
          let creds :=
            match Relay.environments r1 !! env with
            | Some e => EnvState.GetCredentials e
            | None => []
            end in
          let oldSDKKey := fst (oldKeys creds) in
          let oldMobileKey := snd (oldKeys creds) in
          let newSDKKey := EnvironmentParams.SDKKey p in
          let newMobileKey := EnvironmentParams.MobileKey p in
          let r2 :=
            if negb (String.eqb newSDKKey oldSDKKey) then
              let r' :=
                Relay.addedEnvironmentCredential env (SDKKey newSDKKey)
                  (Relay.onEnv env (EnvState.AddCredential (SDKKey newSDKKey)) r1) in
              if String.eqb (EnvironmentParams.ExpiringSDKKey p) oldSDKKey then
                Relay.onEnv env (EnvState.DeprecateCredential (SDKKey oldSDKKey)) r'
              else
                Relay.onEnv env (EnvState.RemoveCredential (SDKKey oldSDKKey))
                  (Relay.removingEnvironmentCredential (SDKKey oldSDKKey) r')
            else r1 in
          let r3 :=
            if negb (String.eqb newMobileKey oldMobileKey) then
              Relay.onEnv env (EnvState.RemoveCredential (MobileKey oldMobileKey))
                (Relay.removingEnvironmentCredential (MobileKey oldMobileKey)
                   (Relay.addedEnvironmentCredential env (MobileKey newMobileKey)
                      (Relay.onEnv env
                         (EnvState.AddCredential (MobileKey newMobileKey)) r2)))
            else r2 in
          let r4 :=
            match ArchiveEnvironment.SDKData ae with
            | Some d => Relay.onEnv updates (EnvState.Init d) r3
            | None => r3
            end in
          Build r4 (envUpdates a)
      end
  end.
End relayFileDataActions.

(** ** Statements of the properties *)

(** The request carries a user that decodes to [user]: a [REPORT] with a JSON
    body under [Content-Type: application/json], or a user in the path. *)
Definition decodes (lib : Lib.t) (req : Request.t) (user : User.t) : Prop :=
  (Request.Method req = "REPORT"
   /\ get (Request.Header req) "Content-Type" = "application/json"
   /\ Lib.json_Unmarshal lib (Request.Body req) = (user, None))
  \/ (Request.Method req <> "REPORT"
      /\ Lib.UserV2FromBase64 lib (get (Request.Vars req) "user") = (user, None)).

(** [clientCtx] with another environment setting for secure mode. *)
Definition withSecureMode (secure : bool) (clientCtx : clientContext) : clientContext :=
  MkClientContext
    (EnvContext.Build secure
       (EnvContext.GetClient (env clientCtx)) (EnvContext.GetStore (env clientCtx))
       (EnvContext.GetTTL (env clientCtx)) (EnvContext.GetStreamHandler (env clientCtx)))
    (credential clientCtx).

(** Go's [<=] on strings, and on pairs by their key. *)
Definition string_le (a b : string) : Prop := string_lt b a = false.
Definition pair_le (x y : string * Z) : Prop := string_le (fst x) (fst y).

(** The key and the version of an item: what [pollAllFlagsHandler] writes to
    the hash for it. *)
Definition keyAndVersion (item : KeyedItemDescriptor.t) : string * Z :=
  (KeyedItemDescriptor.Key item,
   ItemDescriptor.Version (KeyedItemDescriptor.Item item)).

(** The Etag as a function of the keys and versions alone: the pairs in key
    order, each written as [key:version], hashed. *)
Fixpoint insert_pair (x : string * Z) (l : list (string * Z)) : list (string * Z) :=
  match l with
  | [] => [x]
  | y :: l' =>
      if string_lt (fst y) (fst x) then y :: insert_pair x l' else x :: y :: l'
  end.

Definition sort_pairs (l : list (string * Z)) : list (string * Z) :=
  fold_right insert_pair [] l.

Definition etag_of_versions (versions : list (string * Z)) : string :=
  let written :=
    flat_map (fun kv => Digest.of_string (fst kv +:+ ":" +:+ Itoa (snd kv)))
             (sort_pairs versions) in
  GoString.prefix 15 (Digest.hex (SHA1.sum written)).

(** The entry that the loop of [evaluateAllShared] stores for [flag]. *)
Definition evalEntry (lib : Lib.t) (store : DataStore.t) (user : User.t)
    (valueOnly withReasons : bool) (flag : FeatureFlag.t) : EvalEntry :=
  evalResult lib valueOnly withReasons flag (Lib.Evaluate lib store flag user).

(** The headers of a cacheable 200 response. *)
Definition cacheableHeaders (lib : Lib.t) (clientContext : EnvContext.t)
    (etag : string) (h : gmap string string) : gmap string string :=
  let base := <["Etag" := etag]> (<["Content-Type" := "application/json"]> h) in
  if 0 <? EnvContext.GetTTL clientContext then
    <["Expires" := Lib.TimeFormat lib (Lib.time_Now lib + EnvContext.GetTTL clientContext)]>
      (<["Vary" := "Authorization"]> base)
  else base.

(** The flags the loop of [evaluateAllShared] evaluates, in the order of
    [items]: the items that hold a flag, without the flags a JS client may not
    see. *)
Definition includedFlags (kind : sdkKind) (items : list KeyedItemDescriptor.t)
  : list FeatureFlag.t :=
  flat_map
    (fun item =>
       match ItemDescriptor.Item (KeyedItemDescriptor.Item item) with
       | Some (ItemFlag flag) =>
           if sdkKind_eqb kind jsClientSdk && negb (FeatureFlag.ClientSide flag)
           then [] else [flag]
       | _ => []
       end)
    items.

(** The 400 that the secure-mode check writes on a response with headers [h]
    and body [b]. *)
Definition secureModeRejection (lib : Lib.t) (h : gmap string string) (b : string)
  : ResponseWriter.t :=
  ResponseWriter.Build (<["Content-Type" := "application/json"]> h)
    (Some StatusBadRequest)
    (b +:+ Lib.ErrorJsonMsg lib
       "Environment is in secure mode, and user hash does not match.").

(** ** Stand-ins for the other packages

    What the tests of the relay put in place of the SDK and of the request
    decoding, to run the handlers on concrete requests. *)

Module Fake.
Definition quote : string := String "034"%char EmptyString.

(** Takes the path segment for the user's key; an empty segment does not
    decode. *)
Definition UserV2FromBase64 (segment : string) : User.t * option string :=
  if String.eqb segment "" then (User.zero, Some "illegal base64 data")
  else (User.Build segment VNull, None).

Definition ErrorJsonMsg (msg : string) : string :=
  "{" +:+ quote +:+ "message" +:+ quote +:+ ":" +:+ quote +:+ msg +:+ quote +:+ "}".

(** Every flag evaluates to variation 0, whose value is the flag's body. *)
Definition Evaluate (store : DataStore.t) (flag : FeatureFlag.t) (user : User.t)
  : EvaluationDetail.t :=
  EvaluationDetail.Build (FeatureFlag.Body flag) 0 ReasonFallthrough.

Definition lib : Lib.t :=
  {| Lib.sdkKind_String := fun k =>
       match k with serverSdk => "server" | mobileSdk => "mobile" | jsClientSdk => "js" end;
     Lib.UserV2FromBase64 := UserV2FromBase64;
     Lib.json_Unmarshal := UserV2FromBase64;
     Lib.json_Marshal := fun _ => Ok "{}";
     Lib.ErrorJsonMsg := ErrorJsonMsg;
     Lib.Evaluate := Evaluate;
     Lib.IsExperimentationEnabled := fun _ _ => false;
     Lib.time_Now := 0;
     Lib.TimeFormat := Itoa |}.

(** A stream handler that answers 200 and nothing else. *)
Definition streamHandler (p : StreamProvider) (c : Credential) (req : Request.t)
    (s : HState) : HState :=
  MkHState (ResponseWriter.Build (ResponseWriter.Header (w s)) (Some StatusOK)
              (ResponseWriter.Body (w s)))
           (trace s).

Definition environment (secure : bool) (sdkKey : string) (store : DataStore.t)
    (ttl : Z) : EnvContext.t :=
  EnvContext.Build secure (LDClient.New sdkKey true) store ttl streamHandler.

Definition request (method : string) (header query vars : list (string * string))
    (body : string) : Request.t :=
  Request.Build method (list_to_map header) (list_to_map query) (list_to_map vars) body.
End Fake.

(** ** Scenarios

    The concrete environment of the specification's scenarios: one client-side
    flag [f] at version 7 whose value is [true], the user [{"key":"me"}]. *)

Module Scenario.
Definition flag_f : FeatureFlag.t := FeatureFlag.Build "f" 7 true false 0 (VBool true).

Definition store : InMemoryStore.t :=
  snd (InMemoryStore.Upsert Features "f"
         (ItemDescriptor.Build 7 (Some (ItemFlag flag_f)))
         (InMemoryStore.Init [] InMemoryStore.New)).

Definition environment (secure : bool) : EnvContext.t :=
  Fake.environment secure "sdk-key" (InMemoryStore.DataStore store) 0.

Definition jsContext (secure : bool) : clientContext :=
  MkClientContext (environment secure) (EnvironmentID "env-id").

Definition me : User.t := User.Build "me" VNull.

(** HMAC-SHA256("sdk-key", "me") in hex. *)
Definition hashOfMe : string :=
  "47a029edb5cbc23f860d7d2c6a87e720bd5da4d8affb0bffaf3d55292984d351".

(** [GET /eval/env-id/<me>?...] and [GET /sdk/evalx/env-id/users/<me>?...] *)
Definition withUser (query : list (string * string)) : Request.t :=
  Fake.request "GET" [] query [("envId", "env-id"); ("user", "me")] "".

Definition fresh : HState := MkHState ResponseWriter.new [].

Definition requested : Effect :=
  Logged LDebug "Application requested client-side ping stream" [].
End Scenario.

Module ScenarioEval.
(** The object the specification expects for the flag [f]:
    [{"value":true,"variation":0,"version":7,"trackEvents":false,"trackReason":false}]. *)
Definition expected : evalXResult.t :=
  {| evalXResult.Value := VBool true;
     evalXResult.Variation := Some 0;
     evalXResult.Version := 7;
     evalXResult.TrackEvents := false;
     evalXResult.TrackReason := false;
     evalXResult.DebugEventsUntilDate := None;
     evalXResult.Reason := None |}.

Definition items : list KeyedItemDescriptor.t :=
  InMemoryStore.GetAll Features Scenario.store.
End ScenarioEval.

Module ScenarioPoll.
(** A store read that lists [data], in that order. *)
Definition storeListing (data : list KeyedItemDescriptor.t) : DataStore.t :=
  {| DataStore.GetAll := fun _ => Ok data;
     DataStore.Get := fun _ key =>
       Ok (default ItemDescriptor.NotFound
             (KeyedItemDescriptor.Item
                <$> List.find (fun item => String.eqb (KeyedItemDescriptor.Key item) key)
                              data));
     DataStore.IsInitialized := true |}.

Definition flag (key : string) (version : Z) (body : Value) : KeyedItemDescriptor.t :=
  KeyedItemDescriptor.Build key
    (ItemDescriptor.Build version
       (Some (ItemFlag (FeatureFlag.Build key version false false 0 body)))).

(** The flags [{a: version 1, b: version 2}], read in one order ... *)
Definition data1 : list KeyedItemDescriptor.t :=
  [flag "a" 1 (VBool true); flag "b" 2 (VString "blue")].

(** ... and in the other, with other values for the flags. *)
Definition data2 : list KeyedItemDescriptor.t :=
  [flag "b" 2 (VString "green"); flag "a" 1 (VBool false)].

Definition context (data : list KeyedItemDescriptor.t) : clientContext :=
  MkClientContext (Fake.environment false "sdk-key" (storeListing data) 0)
                  (SDKKey "sdk-key").

(** [GET /sdk/flags] *)
Definition poll (header : list (string * string)) : Request.t :=
  Fake.request "GET" header [] [] "".

(** The first 15 hex digits of SHA-1("a:1b:2"), after [relay-]. *)
Definition etag : string := "relay-09ede7c0e8da4a3".
End ScenarioPoll.

Module ScenarioStore.
(** [ldbuilders.NewFlagBuilder(key).Version(version).Build()] *)
Definition NewFlag (key : string) (version : Z) : FeatureFlag.t :=
  FeatureFlag.Build key version false false 0 VNull.

Definition descriptor (flag : FeatureFlag.t) : ItemDescriptor.t :=
  ItemDescriptor.Build (FeatureFlag.Version flag) (Some (ItemFlag flag)).

(** [baseStore := sharedtest.NewInMemoryStore(); baseStore.Init(nil)] *)
Definition emptyStore : InMemoryStore.t := InMemoryStore.Init [] InMemoryStore.New.

Definition originalFlag : FeatureFlag.t := NewFlag "my-flag" 2.
Definition staleFlag : FeatureFlag.t := NewFlag "my-flag" 1.

(** The base store of "updating flag with older version just sends newer
    version": it holds [my-flag] at version 2. *)
Definition storeWithFlag : InMemoryStore.t :=
  snd (InMemoryStore.Upsert Features "my-flag" (descriptor originalFlag) emptyStore).

(** The base store of "updating deleted flag with older version does
    nothing": it holds the tombstone of [my-flag] at version 2. *)
Definition storeWithTombstone : InMemoryStore.t :=
  snd (InMemoryStore.Upsert Features "my-flag" (ItemDescriptor.Build 2 None) emptyStore).
End ScenarioStore.

Module ScenarioRelay.
Definition identifiers : EnvIdentifiers.t :=
  EnvIdentifiers.Build "production" "Production" "default" "Default" "".

(** An environment with the SDK key [sdk-test], the mobile key [mob-test]
    and the ID [env-id]. *)
Definition params : EnvironmentParams.t :=
  EnvironmentParams.Build "env-id" identifiers "sdk-test" "mob-test" "" 0 false.

Definition relay : Relay.t := snd (Relay.addEnvironment params None Relay.New).

(** The handlers see an environment through the SDK client of its first
    credential and an empty store. *)
Definition contextOf (id : string) (e : EnvState.t) : EnvContext.t :=
  Fake.environment (EnvState.SecureMode e) "sdk-test"
    (InMemoryStore.DataStore ScenarioStore.emptyStore) (EnvState.TTL e).

(** [GET /all] under [Authorization: key], [GET /mping] likewise, and
    [GET /ping/<envId>]. *)
Definition authorized (key : string) : Request.t :=
  Fake.request "GET" [("Authorization", key)] [] [] "".
Definition forEnvironment (envId : string) : Request.t :=
  Fake.request "GET" [] [] [("envId", envId)] "".
End ScenarioRelay.

Module ScenarioFileData.
(** The file-data actions after the archive's environment [env-id] was added
    and its update sink captured. *)
Definition added : relayFileDataActions.t :=
  relayFileDataActions.AddEnvironment
    (ArchiveEnvironment.Build ScenarioRelay.params None) None
    relayFileDataActions.Captured
    (relayFileDataActions.Build Relay.New ∅).

(** An update that announces the SDK key [sdk-new], and [expiring] as the
    expiring key (none when empty). *)
Definition rotation (expiring : string) : ArchiveEnvironment.t :=
  ArchiveEnvironment.Build
    (EnvironmentParams.Build "env-id" ScenarioRelay.identifiers "sdk-new" "mob-test"
       expiring 0 false)
    None.

(** A new environment [env-new] whose archive announces the expiring key
    [sdk-old]. *)
Definition newcomer : ArchiveEnvironment.t :=
  ArchiveEnvironment.Build
    (EnvironmentParams.Build "env-new" ScenarioRelay.identifiers "sdk-new" "mob-new"
       "sdk-old" 0 false)
    (Some []).
End ScenarioFileData.

(** ** Requests, as the statements on validation describe them *)

(** The request carries a user where its method says, and the decoder
    answers [userDecodeErr] for it. *)
Definition failsToDecode (lib : Lib.t) (req : Request.t) (user : User.t)
    (userDecodeErr : string) : Prop :=
  (Request.Method req = "REPORT"
   /\ get (Request.Header req) "Content-Type" = "application/json"
   /\ Lib.json_Unmarshal lib (Request.Body req) = (user, Some userDecodeErr))
  \/ (Request.Method req <> "REPORT"
      /\ Lib.UserV2FromBase64 lib (get (Request.Vars req) "user")
         = (user, Some userDecodeErr)).

(** What [getClientSideUserProperties] computes as [valid] where it checks
    the hash, and [true] where it does not check. *)
Definition hashAccepted (clientCtx : EnvContext.t) (kind : sdkKind)
    (req : Request.t) (user : User.t) : bool :=
  if EnvContext.IsSecureMode clientCtx && sdkKind_eqb kind jsClientSdk then
    let hash := get (Request.Query req) "h" in
    if negb (String.eqb hash "")
    then String.eqb hash (LDClient.SecureModeHash (EnvContext.GetClient clientCtx) user)
    else false
  else true.

(** The legacy schema's entry for an entry of either schema: the bare
    value. *)
Definition valueOf (e : EvalEntry) : EvalEntry :=
  match e with
  | ValueOnly v => ValueOnly v
  | EvalX r => ValueOnly (evalXResult.Value r)
  end.

Module ScenarioService.
(** A decoder of [REPORT] bodies that takes the body for the user's key, so
    that an empty body is a user without key. *)
Definition lib : Lib.t :=
  {| Lib.sdkKind_String := Lib.sdkKind_String Fake.lib;
     Lib.UserV2FromBase64 := Fake.UserV2FromBase64;
     Lib.json_Unmarshal := fun body => (User.Build body VNull, None);
     Lib.json_Marshal := Lib.json_Marshal Fake.lib;
     Lib.ErrorJsonMsg := Fake.ErrorJsonMsg;
     Lib.Evaluate := Fake.Evaluate;
     Lib.IsExperimentationEnabled := fun _ _ => false;
     Lib.time_Now := 0;
     Lib.TimeFormat := Itoa |}.

(** A store whose reads fail. *)
Definition failingStore (initialized : bool) : DataStore.t :=
  {| DataStore.GetAll := fun _ => Error "connection refused";
     DataStore.Get := fun _ _ => Error "connection refused";
     DataStore.IsInitialized := initialized |}.

(** A mobile client's context on an environment whose SDK client and store
    are as given. *)
Definition context (clientInitialized : bool) (store : DataStore.t) : clientContext :=
  MkClientContext
    (EnvContext.Build false (LDClient.New "sdk-key" clientInitialized) store 0
       Fake.streamHandler)
    (MobileKey "mob-key").

(** [REPORT /msdk/evalx/user] with the user in the body. *)
Definition report (body : string) : Request.t :=
  Fake.request "REPORT" [("Content-Type", "application/json")] [] [] body.
End ScenarioService.

(** ** Etags, as the statements on polling describe them *)

(** A digit of [hex.EncodeToString]: [0-9a-f]. *)
Definition lowerhex (c : ascii) : bool :=
  let n := nat_of_ascii c in
  ((48 <=? n) && (n <=? 57) || (97 <=? n) && (n <=? 102))%nat.

Module ScenarioMarshal.
(** An encoder that fails on every entity. *)
Definition lib : Lib.t :=
  {| Lib.sdkKind_String := Lib.sdkKind_String Fake.lib;
     Lib.UserV2FromBase64 := Fake.UserV2FromBase64;
     Lib.json_Unmarshal := Fake.UserV2FromBase64;
     Lib.json_Marshal := fun _ => Error "json: unsupported value";
     Lib.ErrorJsonMsg := Fake.ErrorJsonMsg;
     Lib.Evaluate := Fake.Evaluate;
     Lib.IsExperimentationEnabled := fun _ _ => false;
     Lib.time_Now := 0;
     Lib.TimeFormat := Itoa |}.
End ScenarioMarshal.

(** ** Credentials, as the statements on updates describe them *)

Definition isSDKKey (c : Credential) : bool :=
  match c with SDKKey _ => true | _ => false end.
Definition isMobileKey (c : Credential) : bool :=
  match c with MobileKey _ => true | _ => false end.

(** At most one SDK key and at most one mobile key among [creds]: what the
    loop over [env.GetCredentials()] in [UpdateEnvironment] relies on when it
    keeps one key of each kind as the old one. *)
Definition oneKeyEach (creds : list Credential) : bool :=
  (List.length (List.filter isSDKKey creds) <=? 1)%nat
  && (List.length (List.filter isMobileKey creds) <=? 1)%nat.

Module ScenarioUpdate.
(** The environment [env-id] as [ScenarioFileData.added] holds it. *)
Definition registered : EnvState.t :=
  EnvState.Build ScenarioRelay.identifiers 0 false
    [SDKKey "sdk-test"; MobileKey "mob-test"; EnvironmentID "env-id"] [] (Some []) true.

(** An update of [env-id] that announces the mobile key [mob-new], the SDK
    key [sdk-new] with [sdk-test] expiring, other settings and new data. *)
Definition renewal : ArchiveEnvironment.t :=
  ArchiveEnvironment.Build
    (EnvironmentParams.Build "env-id"
       (EnvIdentifiers.Build "staging" "Staging" "default" "Default" "")
       "sdk-new" "mob-new" "sdk-test" 300 true)
    (Some []).
End ScenarioUpdate.

(** ** Event proxying (relay_endpoints.go, endpoints.go) *)

Module events.
(** [events.EventDispatcher]: the handlers of the event endpoints it knows.
    [Endpoint] stands for [events.Endpoint], which is declared outside
    src/. *)
Record EventDispatcher (Endpoint : Type) : Type := MkEventDispatcher
  { GetHandler : Endpoint -> option (Request.t -> HState -> HState) }.
Arguments MkEventDispatcher {Endpoint} GetHandler.
Arguments GetHandler {Endpoint} e endpoint.
End events.

Section Events.
Context (lib : Lib.t) {Endpoint : Type} (Endpoint_String : Endpoint -> string).
Local Open Scope go_scope.

(** [dispatcher] is what [clientCtx.env.GetEventDispatcher()] gives, nil when
    the environment does not proxy events; [Endpoint_String] is what [%s]
    prints of the endpoint.  The global loggers write to the same trace as
    the environment's. *)
Definition bulkEventHandler (endpoint : Endpoint)
    (dispatcher : option (events.EventDispatcher Endpoint)) (req : Request.t)
  : Go unit unit :=
  match dispatcher with
  | None =>
      WriteHeader StatusServiceUnavailable ;;
      Write (Lib.ErrorJsonMsg lib "Event proxy is not enabled for this environment") ;;
      return_ tt
  | Some dispatcher =>
      match events.GetHandler dispatcher endpoint with
      | None =>
          WriteHeader StatusServiceUnavailable ;;
          Write (Lib.ErrorJsonMsg lib "Internal error in event proxy") ;;
          Errorf "Tried to proxy events for unsupported endpoint '%s'"
            [Endpoint_String endpoint] ;;
          return_ tt
      | Some handler => fun s => (Next tt, handler req s)
      end
  end.
End Events.

(** ** The evaluator's view of the store (basicDataProvider) *)

Module basicDataProvider.
Record t : Type := Build { store : DataStore.t }.

Definition GetFeatureFlag (p : t) (key : string) : option FeatureFlag.t :=
  match DataStore.Get (store p) Features key with
  | Ok data =>
      match ItemDescriptor.Item data with
      | Some (ItemFlag f) => Some f
      | _ => None
      end
  | Error _ => None
  end.

Definition GetSegment (p : t) (key : string) : option Segment.t :=
  match DataStore.Get (store p) Segments key with
  | Ok data =>
      match ItemDescriptor.Item data with
      | Some (ItemSegment s) => Some s
      | _ => None
      end
  | Error _ => None
  end.
End basicDataProvider.

(** ** Starting the HTTP server (internal/application/server.go) *)

Definition newline : string := String "010"%char EmptyString.

Module application.
(** [*http.Server]: its address, its handler and, when it has a
    [TLSConfig], the [MinVersion] of it. *)
Record Server (Handler : Type) : Type := MkServer
  { Addr : string; Handler_ : Handler; TLSConfig : option Z }.
Arguments MkServer {Handler} Addr Handler_ TLSConfig.
Arguments Addr {Handler} s.
Arguments Handler_ {Handler} s.
Arguments TLSConfig {Handler} s.

(** The call the goroutine serves with. *)
Inductive Serving : Type :=
| ListenAndServe
| ListenAndServeTLS (certFile keyFile : string).

(** What is outside src/: the name that [config.NewOptTLSVersion(v).String()]
    gives a TLS version, and what the call of [net/http] returns when it
    returns at all ([None]: the server keeps serving). *)
Record Net (Handler : Type) : Type := MkNet
  { TLSVersion_String : Z -> string;
    serve : Server Handler -> Serving -> option string }.
Arguments MkNet {Handler} TLSVersion_String serve.
Arguments TLSVersion_String {Handler} n v.
Arguments serve {Handler} n srv how.

(** What [StartHTTPServer] returns and what its goroutine does: the server,
    the lines logged, the call it serves with, and the errors sent on the
    error channel. *)
Record Started (Handler : Type) : Type := MkStarted
  { srv : Server Handler;
    logged : list Effect;
    serving : Serving;
    errCh : list string }.
Arguments MkStarted {Handler} srv logged serving errCh.
Arguments srv {Handler} s.
Arguments logged {Handler} s.
Arguments serving {Handler} s.
Arguments errCh {Handler} s.

Definition StartHTTPServer {Handler} (net : Net Handler) (port : Z) (handler : Handler)
    (tlsEnabled : bool) (tlsCertFile tlsKeyFile : string) (tlsMinVersion : Z)
  : Started Handler :=
  let srv0 := MkServer (":" +:+ Itoa port) handler None in
  let srv :=
    if tlsEnabled && negb (tlsMinVersion =? 0)
    then MkServer (Addr srv0) (Handler_ srv0) (Some tlsMinVersion)
    else srv0 in
  let starting :=
    Logged LInfo ("Starting server listening on port %d" +:+ newline) [Itoa port] in
  let how :=
    if tlsEnabled then ListenAndServeTLS tlsCertFile tlsKeyFile else ListenAndServe in
  let lines :=
    if tlsEnabled then
      let message := "TLS enabled for server" in
      let message :=
        if negb (tlsMinVersion =? 0)
        then message +:+ " (minimum TLS version: "
                     +:+ TLSVersion_String net tlsMinVersion +:+ ")"
        else message in
      [starting; Logged LInfo message []]
    else [starting] in
  MkStarted srv lines how
    (match serve net srv how with
     | Some err => [err]
     | None => []
     end).
End application.

(** ** The command (main.go) *)

Module relayMain.
(** [application.Options], as [main] reads them. *)
Record Options : Type := MkOptions
  { ConfigFile : string; UseEnvironment : bool; DescribeConfigSource : string }.

(** [config.Config.Main], as [main] reads it; [TLSMinVersion] is what
    [c.Main.TLSMinVersion.Get()] gives, zero when unset. *)
Record MainConfig : Type := MkMainConfig
  { ExitAlways : bool;
    Port : option Z;
    TLSEnabled : bool;
    TLSCert : string;
    TLSKey : string;
    TLSMinVersion : Z }.

(** How a run of [main] ends: [os.Exit(code)], or serving until the process
    is stopped. *)
Inductive Ending : Type :=
| Exit (code : Z)
| Serving.

Section Main.
Context {Config Relay Handler : Type}.

(** The packages [main] calls, which src/ does not hold. *)
Record World : Type := MkWorld
  { zero : Config;
    Main : Config -> MainConfig;
    ReadOptions : result Options;
    DescribeRelayVersion : string;
    LoadConfigFile : Config -> string -> result Config;
    LoadConfigFromEnvironment : Config -> result Config;
    NewRelayEnterprise : Config -> result Relay;
    GetHandler : Relay -> Handler;
    DefaultPort : Z;
    net : application.Net Handler }.

Definition starting (world : World) (opts : Options) : Effect :=
  Logged LInfo
    ("Starting LaunchDarkly Relay Proxy Enterprise version %s with %s" +:+ newline)
    [DescribeRelayVersion world; DescribeConfigSource opts].

Definition main (world : World) : list Effect * Ending :=
  match ReadOptions world with
  | Error err => ([Logged LError "Error: %s" [err]], Exit 1)
  | Ok opts =>
      let log := [starting world opts] in
      match
        (if negb (String.eqb (ConfigFile opts) "")
         then LoadConfigFile world (zero world) (ConfigFile opts)
         else Ok (zero world))
      with
      | Error err =>
          (log ++ [Logged LError "Error loading config file: %s" [err]], Exit 1)
      | Ok c =>
          match
            (if UseEnvironment opts then LoadConfigFromEnvironment world c else Ok c)
          with
          | Error err =>
              (log ++ [Logged LError "Configuration error: %s" [err]], Exit 1)
          | Ok c =>
              match NewRelayEnterprise world c with
              | Error err =>
                  (log ++ [Logged LError "Unable to create relay: %s" [err]], Exit 1)
              | Ok r =>
                  if ExitAlways (Main world c) then (log, Exit 0)
                  else
                    let port := default (DefaultPort world) (Port (Main world c)) in
                    let started :=
                      application.StartHTTPServer (net world) port (GetHandler world r)
                        (TLSEnabled (Main world c)) (TLSCert (Main world c))
                        (TLSKey (Main world c)) (TLSMinVersion (Main world c)) in
                    match application.errCh started with
                    | err :: _ =>
                        (log ++ application.logged started
                             ++ [Logged LError
                                   "Error starting HTTP listener on port: %d  %s"
                                   [Itoa port; err]],
                         Exit 1)
                    | [] => (log ++ application.logged started, Serving)
                    end
              end
          end
      end
  end.
End Main.
End relayMain.

(** A line logged at the error level. *)
Definition isErrorLine (e : Effect) : bool :=
  match e with
  | Logged LError _ _ => true
  | _ => false
  end.

Module ScenarioServer.
(** A network on which the port is taken, and the TLS versions by name. *)
Definition net : application.Net unit :=
  application.MkNet
    (fun v => if v =? 771 then "1.2" else "unknown")
    (fun _ _ => Some "listen tcp :8030: bind: address already in use").

(** An event dispatcher that knows no endpoint. *)
Definition dispatcher : events.EventDispatcher string :=
  events.MkEventDispatcher (fun _ => None).
End ScenarioServer.

Module ScenarioMain.
(** A run of [relay -config relay.conf]: the file asks for TLS 1.2 at least
    on the default port, which is taken. *)
Definition world (exitAlways : bool) : @relayMain.World relayMain.MainConfig unit unit :=
  {| relayMain.zero := relayMain.MkMainConfig false None false "" "" 0;
     relayMain.Main := fun c => c;
     relayMain.ReadOptions := Ok (relayMain.MkOptions "relay.conf" false "relay.conf");
     relayMain.DescribeRelayVersion := "6.0.0";
     relayMain.LoadConfigFile := fun _ _ =>
       Ok (relayMain.MkMainConfig exitAlways None true "cert.pem" "key.pem" 771);
     relayMain.LoadConfigFromEnvironment := fun c => Ok c;
     relayMain.NewRelayEnterprise := fun _ => Ok tt;
     relayMain.GetHandler := fun _ => tt;
     relayMain.DefaultPort := 8030;
     relayMain.net := ScenarioServer.net |}.
End ScenarioMain.

(** Whether a run ended with [os.Exit(code)]. *)
Definition exitsWith (code : Z) (ending : relayMain.Ending) : bool :=
  match ending with
  | relayMain.Exit c => c =? code
  | relayMain.Serving => false
  end.

(** ** Hashing: the standards' test vectors *)

Example sha1_abc :
  Digest.hex (SHA1.sum (Digest.of_string "abc"))
  = "a9993e364706816aba3e25717850c26c9cd0d89d".
Proof. vm_compute. reflexivity. Qed.

Example sha1_two_blocks :
  Digest.hex
    (SHA1.sum (Digest.of_string
                 "abcdbcdecdefdefgefghfghighijhijkijkljklmklmnlmnomnopnopq"))
  = "84983e441c3bd26ebaae4aa1f95129e5e54670f1".
Proof. vm_compute. reflexivity. Qed.

Example sha256_abc :
  Digest.hex (SHA256.sum (Digest.of_string "abc"))
  = "ba7816bf8f01cfea414140de5dae2223b00361a396177a9cb410ff61f20015ad".
Proof. vm_compute. reflexivity. Qed.

Example sha256_two_blocks :
  Digest.hex
    (SHA256.sum (Digest.of_string
                   "abcdbcdecdefdefgefghfghighijhijkijkljklmklmnlmnomnopnopq"))
  = "248d6a61d20638b8e5c026930c3e6039a33ce45964ff2167f6ecedd419db06c1".
Proof. vm_compute. reflexivity. Qed.

(** RFC 4231, test case 2. *)
Example hmac_sha256_rfc4231 :
  Digest.hex (HMAC.sha256 (Digest.of_string "Jefe")
                          (Digest.of_string "what do ya want for nothing?"))
  = "5bdcc146bf60754e6a042426089575c75a003f089d2739839dec58b964ec3843".
Proof. vm_compute. reflexivity. Qed.

Example secure_mode_hash_of_me :
  LDClient.SecureModeHash (LDClient.New "sdk-key" true) Scenario.me = Scenario.hashOfMe.
Proof. vm_compute. reflexivity. Qed.

Example Itoa_examples : Itoa 0 = "0" /\ Itoa 7 = "7" /\ Itoa (-12) = "-12".
Proof. repeat split. Qed.

(** ** The relay feature store *)

(** The cases of [TestRelayFeatureStore]. *)

Example test_init :
  let relay :=
    SSERelayFeatureStore.Init []
      (SSERelayFeatureStore.NewSSERelayFeatureStore InMemoryStore.New) in
  SSERelayFeatureStore.allPublisher relay = [allPutEvent ∅ ∅]
  /\ SSERelayFeatureStore.flagsPublisher relay = [flagsPutEvent ∅]
  /\ SSERelayFeatureStore.pingPublisher relay = [pingEvent].
Proof. vm_compute. repeat split. Qed.

Example test_delete_flag :
  let relay :=
    snd (SSERelayFeatureStore.Upsert Features "my-flag" (ItemDescriptor.Build 1 None)
           (SSERelayFeatureStore.NewSSERelayFeatureStore ScenarioStore.emptyStore)) in
  SSERelayFeatureStore.allPublisher relay = [deleteEvent "/flags/my-flag" 1]
  /\ SSERelayFeatureStore.flagsPublisher relay = [deleteEvent "/my-flag" 1]
  /\ SSERelayFeatureStore.pingPublisher relay = [pingEvent].
Proof. vm_compute. repeat split. Qed.

Example test_create_flag :
  let newFlag := ScenarioStore.NewFlag "my-new-flag" 1 in
  let relay :=
    snd (SSERelayFeatureStore.UpsertFlag newFlag
           (SSERelayFeatureStore.NewSSERelayFeatureStore ScenarioStore.emptyStore)) in
  SSERelayFeatureStore.allPublisher relay
  = [upsertEvent "/flags/my-new-flag" (ItemFlag newFlag)]
  /\ SSERelayFeatureStore.flagsPublisher relay
     = [upsertEvent "/my-new-flag" (ItemFlag newFlag)]
  /\ SSERelayFeatureStore.pingPublisher relay = [pingEvent].
Proof. vm_compute. repeat split. Qed.

Example test_update_flag :
  let baseStore :=
    snd (InMemoryStore.Upsert Features "my-flag"
           (ScenarioStore.descriptor (ScenarioStore.NewFlag "my-flag" 1))
           ScenarioStore.emptyStore) in
  let updatedFlag := ScenarioStore.NewFlag "my-flag" 2 in
  let relay :=
    snd (SSERelayFeatureStore.UpsertFlag updatedFlag
           (SSERelayFeatureStore.NewSSERelayFeatureStore baseStore)) in
  SSERelayFeatureStore.allPublisher relay
  = [upsertEvent "/flags/my-flag" (ItemFlag updatedFlag)]
  /\ SSERelayFeatureStore.flagsPublisher relay
     = [upsertEvent "/my-flag" (ItemFlag updatedFlag)]
  /\ SSERelayFeatureStore.pingPublisher relay = [pingEvent].
Proof. vm_compute. repeat split. Qed.

Example test_older_version_of_deleted_flag :
  let relay :=
    snd (SSERelayFeatureStore.UpsertFlag ScenarioStore.staleFlag
           (SSERelayFeatureStore.NewSSERelayFeatureStore ScenarioStore.storeWithTombstone)) in
  SSERelayFeatureStore.allPublisher relay = []
  /\ SSERelayFeatureStore.flagsPublisher relay = []
  /\ SSERelayFeatureStore.pingPublisher relay = [].
Proof. vm_compute. repeat split. Qed.

(** The backing store does not apply a write exactly when it holds the key at
    a version that is not smaller. *)
Lemma InMemoryStore_Upsert_stale (kind : DataKind) (key : string)
    (item : ItemDescriptor.t) (s : InMemoryStore.t) :
  fst (InMemoryStore.Upsert kind key item s) = false
  <-> exists old, InMemoryStore.items kind s !! key = Some old
                  /\ ItemDescriptor.Version item <= ItemDescriptor.Version old.
Proof.
  unfold InMemoryStore.Upsert.
  destruct (InMemoryStore.items kind s !! key) as [old|].
  - destruct (Z.leb_spec (ItemDescriptor.Version item) (ItemDescriptor.Version old)).
    + split; [intros _; exists old; split; [reflexivity | assumption] | reflexivity].
    + split; [discriminate|]. intros (o & Ho & Hle). injection Ho as <-. lia.
  - split; [discriminate|]. intros (o & Ho & _). discriminate.
Qed.

Lemma InMemoryStore_Upsert_not_applied (kind : DataKind) (key : string)
    (item : ItemDescriptor.t) (s : InMemoryStore.t) :
  fst (InMemoryStore.Upsert kind key item s) = false ->
  snd (InMemoryStore.Upsert kind key item s) = s.
Proof.
  unfold InMemoryStore.Upsert.
  destruct (InMemoryStore.items kind s !! key) as [old|]; [|discriminate].
  destruct (ItemDescriptor.Version item <=? ItemDescriptor.Version old);
    [reflexivity | discriminate].
Qed.

(** C1, as the code has it: "updating flag with older version just sends
    newer version" of [TestRelayFeatureStore].  The stale write is made to a
    store that holds the flag at version 2; the backing store reports it not
    applied, and the relay store publishes the stored flag on [all] and
    [flags], and a ping. *)
Lemma stale_upsert_publishes :
  fst (InMemoryStore.Upsert Features "my-flag"
         (ScenarioStore.descriptor ScenarioStore.staleFlag) ScenarioStore.storeWithFlag)
  = false
  /\ SSERelayFeatureStore.allPublisher
       (snd (SSERelayFeatureStore.UpsertFlag ScenarioStore.staleFlag
               (SSERelayFeatureStore.NewSSERelayFeatureStore ScenarioStore.storeWithFlag)))
     = [upsertEvent "/flags/my-flag" (ItemFlag ScenarioStore.originalFlag)]
  /\ SSERelayFeatureStore.flagsPublisher
       (snd (SSERelayFeatureStore.UpsertFlag ScenarioStore.staleFlag
               (SSERelayFeatureStore.NewSSERelayFeatureStore ScenarioStore.storeWithFlag)))
     = [upsertEvent "/my-flag" (ItemFlag ScenarioStore.originalFlag)]
  /\ SSERelayFeatureStore.pingPublisher
       (snd (SSERelayFeatureStore.UpsertFlag ScenarioStore.staleFlag
               (SSERelayFeatureStore.NewSSERelayFeatureStore ScenarioStore.storeWithFlag)))
     = [pingEvent].
Proof. vm_compute. repeat split. Qed.

(** C1, amended: an upsert that the backing store reports as not applied
    leaves the store as it is and is reported as not applied; it publishes
    nothing on [all], [flags] and [ping] when the store holds a tombstone for
    the key; when the store holds a live item, that stored item is published
    as a patch on [all], on [flags] too for a flag, and a ping is published. *)
Theorem stale_upsert_events (kind : DataKind) (key : string) (item : ItemDescriptor.t)
    (relay : SSERelayFeatureStore.t) :
  fst (InMemoryStore.Upsert kind key item (SSERelayFeatureStore.store relay)) = false ->
  let relay' := snd (SSERelayFeatureStore.Upsert kind key item relay) in
  fst (SSERelayFeatureStore.Upsert kind key item relay) = false
  /\ SSERelayFeatureStore.store relay' = SSERelayFeatureStore.store relay
  /\ match ItemDescriptor.Item
             (InMemoryStore.Get kind key (SSERelayFeatureStore.store relay)) with
     | None =>
         SSERelayFeatureStore.allPublisher relay' = SSERelayFeatureStore.allPublisher relay
         /\ SSERelayFeatureStore.flagsPublisher relay'
            = SSERelayFeatureStore.flagsPublisher relay
         /\ SSERelayFeatureStore.pingPublisher relay'
            = SSERelayFeatureStore.pingPublisher relay
     | Some stored =>
         SSERelayFeatureStore.allPublisher relay'
         = SSERelayFeatureStore.allPublisher relay
             ++ [upsertEvent (SSERelayFeatureStore.allPath kind key) stored]
         /\ SSERelayFeatureStore.flagsPublisher relay'
            = match kind with
              | Features =>
                  SSERelayFeatureStore.flagsPublisher relay
                    ++ [upsertEvent (SSERelayFeatureStore.flagsPath key) stored]
              | Segments => SSERelayFeatureStore.flagsPublisher relay
              end
         /\ SSERelayFeatureStore.pingPublisher relay'
            = SSERelayFeatureStore.pingPublisher relay ++ [pingEvent]
     end.
Proof.
  intros Hstale relay'. subst relay'.
  pose proof (InMemoryStore_Upsert_not_applied kind key item _ Hstale) as Hsame.
  unfold SSERelayFeatureStore.Upsert.
  destruct (InMemoryStore.Upsert kind key item (SSERelayFeatureStore.store relay))
    as [updated store'] eqn:E.
  cbn [fst snd] in Hstale, Hsame. subst updated store'.
  destruct (ItemDescriptor.Item
              (InMemoryStore.Get kind key (SSERelayFeatureStore.store relay)))
    as [stored|].
  - cbn. destruct kind; repeat split.
  - cbn. repeat split.
Qed.

Lemma stale_upsert_events_witness :
  SSERelayFeatureStore.allPublisher
    (snd (SSERelayFeatureStore.UpsertFlag ScenarioStore.staleFlag
            (SSERelayFeatureStore.NewSSERelayFeatureStore
               ScenarioStore.storeWithTombstone)))
  = []
  /\ SSERelayFeatureStore.pingPublisher
       (snd (SSERelayFeatureStore.UpsertFlag ScenarioStore.staleFlag
               (SSERelayFeatureStore.NewSSERelayFeatureStore ScenarioStore.storeWithFlag)))
     = [pingEvent].
Proof.
  split.
  - destruct (stale_upsert_events Features "my-flag"
                (ScenarioStore.descriptor ScenarioStore.staleFlag)
                (SSERelayFeatureStore.NewSSERelayFeatureStore
                   ScenarioStore.storeWithTombstone) eq_refl)
      as (_ & _ & Hall & _).
    exact Hall.
  - destruct (stale_upsert_events Features "my-flag"
                (ScenarioStore.descriptor ScenarioStore.staleFlag)
                (SSERelayFeatureStore.NewSSERelayFeatureStore ScenarioStore.storeWithFlag)
                eq_refl)
      as (_ & _ & _ & _ & Hping).
    exact Hping.
Defined.

(** ** Secure mode *)

Lemma hex_length (bs : list Z) :
  String.length (Digest.hex bs) = (2 * List.length bs)%nat.
Proof. induction bs as [|b bs IH]; simpl; [reflexivity | rewrite IH; lia]. Qed.

Lemma SHA256_sum_length (msg : list Z) : List.length (SHA256.sum msg) = 32%nat.
Proof.
  unfold SHA256.sum.
  destruct (fold_left SHA256.compress (Digest.blocks msg) SHA256.init).
  reflexivity.
Qed.

(** The secure-mode hash is 64 hex digits: it is never the empty string that
    [Query().Get] gives for an absent parameter. *)
Lemma SecureModeHash_length (sdkKey : string) (initialized : bool) (user : User.t) :
  String.length (LDClient.SecureModeHash (LDClient.New sdkKey initialized) user) = 64%nat.
Proof.
  cbn [LDClient.SecureModeHash LDClient.New]. rewrite hex_length.
  unfold HMAC.sha256. rewrite SHA256_sum_length. reflexivity.
Qed.

Lemma SecureModeHash_nonempty (sdkKey : string) (initialized : bool) (user : User.t) :
  LDClient.SecureModeHash (LDClient.New sdkKey initialized) user <> "".
Proof.
  intros H. pose proof (SecureModeHash_length sdkKey initialized user) as L.
  rewrite H in L. discriminate L.
Qed.

Lemma getClientSideUserProperties_decoded {R} (lib : Lib.t) (clientCtx : EnvContext.t)
    (kind : sdkKind) (req : Request.t) (user : User.t)
    (h : gmap string string) (b : string) (tr : list Effect) :
  decodes lib req user ->
  let s := MkHState (ResponseWriter.Build h None b) tr in
  let hash := get (Request.Query req) "h" in
  @getClientSideUserProperties lib R clientCtx kind req s
  = if EnvContext.IsSecureMode clientCtx && sdkKind_eqb kind jsClientSdk
    then
      if negb (String.eqb hash "")
         && String.eqb hash (LDClient.SecureModeHash (EnvContext.GetClient clientCtx) user)
      then (Next (user, true), s)
      else (Next (user, false), MkHState (secureModeRejection lib h b) tr)
    else (Next (user, true), s).
Proof.
  intros Hdec s hash. unfold getClientSideUserProperties, call, bind, ret, return_.
  fold hash.
  destruct Hdec as [(Hm & Hct & Hu) | (Hm & Hu)].
  - rewrite Hm, Hct, Hu. cbn.
    destruct (EnvContext.IsSecureMode clientCtx && sdkKind_eqb kind jsClientSdk);
      [|reflexivity].
    destruct (String.eqb hash ""); cbn; [reflexivity|].
    destruct (String.eqb hash _); reflexivity.
  - apply String.eqb_neq in Hm. rewrite Hm, Hu. cbn.
    destruct (EnvContext.IsSecureMode clientCtx && sdkKind_eqb kind jsClientSdk);
      [|reflexivity].
    destruct (String.eqb hash ""); cbn; [reflexivity|].
    destruct (String.eqb hash _); reflexivity.
Qed.

(** C2: on an environment in secure mode, a JS-client request whose user
    decodes passes the check exactly when its query parameter [h] is the
    lowercase hex of HMAC-SHA256(sdkKey, user.key).  When [h] is absent or
    different, the streaming handler and the evaluation handler both answer
    400 with [Content-Type: application/json] and the JSON error message, the
    stream handler is not given the connection and no flag is evaluated.  When
    [h] matches, the stream handler is given the connection and the evaluation
    handler does what it does on an environment without secure mode. *)
Theorem secure_mode_hash (lib : Lib.t) (clientCtx : clientContext) (req : Request.t)
    (user : User.t) (sdkKey : string) (initialized valueOnly : bool)
    (provider : StreamProvider)
    (h : gmap string string) (b : string) (tr : list Effect) :
  EnvContext.IsSecureMode (env clientCtx) = true ->
  EnvContext.GetClient (env clientCtx) = LDClient.New sdkKey initialized ->
  decodes lib req user ->
  let s := MkHState (ResponseWriter.Build h None b) tr in
  let hash :=
    Digest.hex (HMAC.sha256 (Digest.of_string sdkKey)
                            (Digest.of_string (User.GetKey user))) in
  let requested := Logged LDebug "Application requested client-side ping stream" [] in
  (fst (getClientSideUserProperties (R := unit) lib (env clientCtx) jsClientSdk req s)
   = Next (user, true)
   <-> get (Request.Query req) "h" = hash)
  /\ (get (Request.Query req) "h" <> hash ->
      ServeHTTP (pingStreamHandlerWithUser lib jsClientSdk provider clientCtx req) s
      = MkHState (secureModeRejection lib h b) (tr ++ [requested])
      /\ ServeHTTP (evaluateAllShared lib clientCtx req valueOnly jsClientSdk) s
         = MkHState (secureModeRejection lib h b) tr)
  /\ (get (Request.Query req) "h" = hash ->
      ServeHTTP (pingStreamHandlerWithUser lib jsClientSdk provider clientCtx req) s
      = EnvContext.GetStreamHandler (env clientCtx) provider (credential clientCtx) req
          (MkHState (ResponseWriter.Build h None b)
                    (tr ++ [requested] ++ [ServedStream provider (credential clientCtx)]))
      /\ ServeHTTP (evaluateAllShared lib clientCtx req valueOnly jsClientSdk) s
         = ServeHTTP (evaluateAllShared lib (withSecureMode false clientCtx) req
                        valueOnly jsClientSdk) s).
Proof.
  intros Hsec Hclient Hdec s hash requested.
  assert (Hne : hash <> "").
  { apply (SecureModeHash_nonempty sdkKey initialized user). }
  assert (Hcheck : forall R tr',
             @getClientSideUserProperties lib R (env clientCtx) jsClientSdk req
               (MkHState (ResponseWriter.Build h None b) tr')
             = if String.eqb (get (Request.Query req) "h") hash
               then (Next (user, true), MkHState (ResponseWriter.Build h None b) tr')
               else (Next (user, false), MkHState (secureModeRejection lib h b) tr')).
  { intros R tr'.
    rewrite (getClientSideUserProperties_decoded lib (env clientCtx) jsClientSdk req
               user h b tr' Hdec).
    rewrite Hsec, Hclient. cbn [andb sdkKind_eqb].
    change (LDClient.SecureModeHash (LDClient.New sdkKey initialized) user) with hash.
    destruct (String.eqb_spec (get (Request.Query req) "h") hash) as [E|E].
    - rewrite E. apply String.eqb_neq in Hne. rewrite Hne. reflexivity.
    - rewrite andb_false_r. reflexivity. }
  assert (Hplain : forall R,
             @getClientSideUserProperties lib R (env (withSecureMode false clientCtx))
               jsClientSdk req s
             = (Next (user, true), s)).
  { intros R.
    apply (getClientSideUserProperties_decoded lib (env (withSecureMode false clientCtx))
             jsClientSdk req user h b tr Hdec). }
  split; [|split].
  - unfold s. rewrite Hcheck.
    destruct (String.eqb_spec (get (Request.Query req) "h") hash) as [E|E]; cbn.
    + split; [intros _; exact E | reflexivity].
    + split; [intros H; inversion H | intros H; contradiction].
  - intros E. apply String.eqb_neq in E. split.
    + unfold ServeHTTP, pingStreamHandlerWithUser, Debug, effect, bind. cbn.
      rewrite Hcheck, E. reflexivity.
    + unfold ServeHTTP, evaluateAllShared, bind. unfold s.
      rewrite Hcheck, E. reflexivity.
  - intros E. split.
    + unfold ServeHTTP, pingStreamHandlerWithUser, Debug, effect, bind. cbn.
      rewrite Hcheck, E, String.eqb_refl. cbn.
      unfold serveStream, effect, bind. cbn. rewrite <- app_assoc. reflexivity.
    + unfold ServeHTTP, evaluateAllShared, bind.
      rewrite Hplain. unfold s. rewrite Hcheck, E, String.eqb_refl. reflexivity.
Qed.

Lemma secure_mode_hash_witness :
  ServeHTTP (pingStreamHandlerWithUser Fake.lib jsClientSdk PingStream
               (Scenario.jsContext true)
               (Scenario.withUser [("h", Scenario.hashOfMe)])) Scenario.fresh
  = MkHState (ResponseWriter.Build ∅ (Some StatusOK) "")
             [Scenario.requested; ServedStream PingStream (EnvironmentID "env-id")]
  /\ ServeHTTP (pingStreamHandlerWithUser Fake.lib jsClientSdk PingStream
                  (Scenario.jsContext true)
                  (Scenario.withUser [("h", "incorrect")])) Scenario.fresh
     = MkHState (secureModeRejection Fake.lib ∅ "") [Scenario.requested]
  /\ ServeHTTP (evaluateAllShared Fake.lib (Scenario.jsContext true)
                  (Scenario.withUser []) false jsClientSdk) Scenario.fresh
     = MkHState (secureModeRejection Fake.lib ∅ "") [].
Proof.
  assert (Hdec : forall q, decodes Fake.lib (Scenario.withUser q) Scenario.me).
  { intros q. right. split; [discriminate | reflexivity]. }
  split; [|split].
  - destruct (secure_mode_hash Fake.lib (Scenario.jsContext true)
                (Scenario.withUser [("h", Scenario.hashOfMe)]) Scenario.me
                "sdk-key" true false PingStream ∅ "" []
                eq_refl eq_refl (Hdec _)) as (_ & _ & Hacc).
    destruct Hacc as [Hstream _]; [vm_compute; reflexivity|].
    exact Hstream.
  - destruct (secure_mode_hash Fake.lib (Scenario.jsContext true)
                (Scenario.withUser [("h", "incorrect")]) Scenario.me
                "sdk-key" true false PingStream ∅ "" []
                eq_refl eq_refl (Hdec _)) as (_ & Hrej & _).
    destruct Hrej as [Hstream _]; [vm_compute; discriminate|].
    exact Hstream.
  - destruct (secure_mode_hash Fake.lib (Scenario.jsContext true)
                (Scenario.withUser []) Scenario.me
                "sdk-key" true false PingStream ∅ "" []
                eq_refl eq_refl (Hdec _)) as (_ & Hrej & _).
    destruct Hrej as [_ Heval]; [vm_compute; discriminate|].
    exact Heval.
Defined.

(** The check is made where the request carries a user: the ping stream of
    [/ping/{envId}] has none and is served without [h]. *)
Example ping_without_user :
  ServeHTTP (pingStreamHandler PingStream (Scenario.jsContext true)
               (Fake.request "GET" [] [] [("envId", "env-id")] ""))
    Scenario.fresh
  = MkHState (ResponseWriter.Build ∅ (Some StatusOK) "")
             [Scenario.requested; ServedStream PingStream (EnvironmentID "env-id")].
Proof. reflexivity. Qed.

(** A [REPORT] whose body is not declared as JSON is answered 415 before the
    user is decoded. *)
Example report_with_text_plain :
  ServeHTTP (pingStreamHandlerWithUser Fake.lib jsClientSdk PingStream
               (Scenario.jsContext false)
               (Fake.request "REPORT" [("Content-Type", "text/plain")] []
                  [("envId", "env-id")] "me"))
    Scenario.fresh
  = MkHState (ResponseWriter.Build ∅ (Some StatusUnsupportedMediaType)
                "Content-Type must be application/json.")
             [Scenario.requested].
Proof. vm_compute. reflexivity. Qed.

(** ** Client-side evaluation *)

(** The loop evaluates the included flags in order and stores each result
    under the flag's key. *)
Lemma evaluateItems_run {R} (lib : Lib.t) (store : DataStore.t) (user : User.t)
    (valueOnly withReasons : bool) (kind : sdkKind)
    (items : list KeyedItemDescriptor.t)
    (response : gmap string EvalEntry) (s : HState) :
  @evaluateItems lib R store user valueOnly withReasons kind items response s
  = (Next (fold_left
             (fun m flag =>
                <[FeatureFlag.Key flag :=
                    evalEntry lib store user valueOnly withReasons flag]> m)
             (includedFlags kind items) response),
     MkHState (w s)
       (trace s ++ List.map (fun flag => Evaluated (FeatureFlag.Key flag) (User.GetKey user))
                            (includedFlags kind items))).
Proof.
  revert response s. induction items as [|item rest IH]; intros response s.
  - cbn. rewrite app_nil_r. destruct s; reflexivity.
  - cbn [evaluateItems includedFlags flat_map].
    destruct (ItemDescriptor.Item (KeyedItemDescriptor.Item item)) as [[flag|seg]|].
    + destruct (sdkKind_eqb kind jsClientSdk && negb (FeatureFlag.ClientSide flag)).
      * rewrite IH. reflexivity.
      * unfold bind, Evaluate, effect, ret. cbn. rewrite IH. cbn.
        rewrite <- app_assoc. reflexivity.
    + rewrite IH. reflexivity.
    + rewrite IH. reflexivity.
Qed.

Lemma fold_insert_lookup (entry : FeatureFlag.t -> EvalEntry)
    (flags : list FeatureFlag.t) (response : gmap string EvalEntry)
    (k : string) (e : EvalEntry) :
  fold_left (fun m flag => <[FeatureFlag.Key flag := entry flag]> m) flags response !! k
  = Some e ->
  response !! k = Some e
  \/ exists flag, In flag flags /\ FeatureFlag.Key flag = k /\ e = entry flag.
Proof.
  revert response. induction flags as [|flag rest IH]; intros response H.
  - left. exact H.
  - cbn in H. apply IH in H. destruct H as [H | (f & Hin & Hk & He)].
    + destruct (decide (FeatureFlag.Key flag = k)) as [E|E].
      * subst k. rewrite lookup_insert_eq in H. injection H as <-.
        right. exists flag. split; [left; reflexivity | split; reflexivity].
      * rewrite lookup_insert_ne in H by exact E. left. exact H.
    + right. exists f. split; [right; exact Hin | split; assumption].
Qed.

Lemma includedFlags_In (kind : sdkKind) (items : list KeyedItemDescriptor.t)
    (flag : FeatureFlag.t) :
  In flag (includedFlags kind items) ->
  (exists item,
      In item items
      /\ ItemDescriptor.Item (KeyedItemDescriptor.Item item) = Some (ItemFlag flag))
  /\ (kind = jsClientSdk -> FeatureFlag.ClientSide flag = true).
Proof.
  unfold includedFlags. rewrite in_flat_map. intros (item & Hin & Hflag).
  destruct (ItemDescriptor.Item (KeyedItemDescriptor.Item item)) as [[f|seg]|] eqn:E;
    try contradiction.
  destruct (sdkKind_eqb kind jsClientSdk && negb (FeatureFlag.ClientSide f)) eqn:Hc;
    [contradiction|].
  destruct Hflag as [<-|[]]. split.
  - exists item. split; assumption.
  - intros ->. cbn in Hc. destruct (FeatureFlag.ClientSide f); [reflexivity | discriminate].
Qed.

(** C3: every entry of the response that the new-schema handler builds
    ([valueOnly = false]) belongs to a flag of the store that the handler
    evaluated; the object emitted for it has [value], [version], [trackEvents]
    equal to (the flag's trackEvents or the evaluation is an experiment) and
    [trackReason] equal to (the evaluation is an experiment); it has
    [variation] exactly when the variation index is not negative, [reason]
    exactly when reasons were asked for or the evaluation is an experiment,
    and [debugEventsUntilDate] exactly when the flag's is not zero. *)
Theorem evalx_entry (lib : Lib.t) (store : DataStore.t) (user : User.t)
    (withReasons : bool) (kind : sdkKind) (items : list KeyedItemDescriptor.t)
    (s : HState) (response : gmap string EvalEntry) (k : string) (e : EvalEntry) :
  fst (evaluateItems (R := unit) lib store user false withReasons kind items ∅ s)
  = Next response ->
  response !! k = Some e ->
  exists (item : KeyedItemDescriptor.t) (flag : FeatureFlag.t) (r : evalXResult.t),
    In item items
    /\ ItemDescriptor.Item (KeyedItemDescriptor.Item item) = Some (ItemFlag flag)
    /\ FeatureFlag.Key flag = k
    /\ (kind = jsClientSdk -> FeatureFlag.ClientSide flag = true)
    /\ e = EvalX r
    /\ let detail := Lib.Evaluate lib store flag user in
       let isExperiment :=
         Lib.IsExperimentationEnabled lib flag (EvaluationDetail.Reason detail) in
       let index := EvaluationDetail.VariationIndex detail in
       let debugUntil := FeatureFlag.DebugEventsUntilDate flag in
       evalXResult.member "value" r = Some (evalXResult.FValue (EvaluationDetail.Value detail))
       /\ evalXResult.member "version" r = Some (evalXResult.FInt (FeatureFlag.Version flag))
       /\ evalXResult.member "trackEvents" r
          = Some (evalXResult.FBool (FeatureFlag.TrackEvents flag || isExperiment))
       /\ evalXResult.member "trackReason" r = Some (evalXResult.FBool isExperiment)
       /\ evalXResult.member "variation" r
          = (if 0 <=? index then Some (evalXResult.FInt index) else None)
       /\ evalXResult.member "reason" r
          = (if withReasons || isExperiment
             then Some (evalXResult.FReason (EvaluationDetail.Reason detail)) else None)
       /\ evalXResult.member "debugEventsUntilDate" r
          = (if debugUntil =? 0 then None else Some (evalXResult.FInt debugUntil)).
Proof.
  intros Hrun Hk. rewrite evaluateItems_run in Hrun. cbn [fst] in Hrun.
  assert (Hresponse :
            response
            = fold_left
                (fun m flag =>
                   <[FeatureFlag.Key flag :=
                       evalEntry lib store user false withReasons flag]> m)
                (includedFlags kind items) ∅).
  { injection Hrun as <-. reflexivity. }
  rewrite Hresponse in Hk. clear Hrun Hresponse.
  apply fold_insert_lookup in Hk. destruct Hk as [Hk | (flag & Hin & Hkey & He)].
  { rewrite lookup_empty in Hk. discriminate. }
  apply includedFlags_In in Hin. destruct Hin as ((item & Hitem & Hflag) & Hjs).
  subst e. unfold evalEntry, evalResult.
  eexists item, flag, _.
  split; [exact Hitem|]. split; [exact Hflag|]. split; [exact Hkey|].
  split; [exact Hjs|]. split; [reflexivity|]. cbn zeta.
  unfold evalXResult.member, evalXResult.members. cbn [evalXResult.Value
    evalXResult.Variation evalXResult.Version evalXResult.TrackEvents
    evalXResult.TrackReason evalXResult.DebugEventsUntilDate evalXResult.Reason].
  destruct (0 <=? EvaluationDetail.VariationIndex (Lib.Evaluate lib store flag user));
    destruct (withReasons
              || Lib.IsExperimentationEnabled lib flag
                   (EvaluationDetail.Reason (Lib.Evaluate lib store flag user)));
    destruct (FeatureFlag.DebugEventsUntilDate flag =? 0);
    cbn; repeat split; reflexivity.
Qed.

Lemma evalx_entry_witness :
  fst (evaluateItems (R := unit) Fake.lib (InMemoryStore.DataStore Scenario.store)
         Scenario.me false false jsClientSdk ScenarioEval.items ∅ Scenario.fresh)
  = Next {[ "f" := EvalX ScenarioEval.expected ]}
  /\ evalXResult.members ScenarioEval.expected
     = [("value", evalXResult.FValue (VBool true));
        ("variation", evalXResult.FInt 0);
        ("version", evalXResult.FInt 7);
        ("trackEvents", evalXResult.FBool false);
        ("trackReason", evalXResult.FBool false)]
  /\ exists r : evalXResult.t,
      EvalX ScenarioEval.expected = EvalX r
      /\ evalXResult.member "trackEvents" r = Some (evalXResult.FBool false)
      /\ evalXResult.member "variation" r = Some (evalXResult.FInt 0)
      /\ evalXResult.member "reason" r = None
      /\ evalXResult.member "debugEventsUntilDate" r = None.
Proof.
  assert (Hrun :
            fst (evaluateItems (R := unit) Fake.lib (InMemoryStore.DataStore Scenario.store)
                   Scenario.me false false jsClientSdk ScenarioEval.items ∅ Scenario.fresh)
            = Next {[ "f" := EvalX ScenarioEval.expected ]}).
  { vm_compute. reflexivity. }
  split; [exact Hrun|]. split; [reflexivity|].
  destruct (evalx_entry Fake.lib (InMemoryStore.DataStore Scenario.store) Scenario.me
              false jsClientSdk ScenarioEval.items Scenario.fresh
              {[ "f" := EvalX ScenarioEval.expected ]} "f" (EvalX ScenarioEval.expected)
              Hrun (lookup_singleton_eq _ _))
    as (item & flag & r & Hitem & Hflag & Hkey & Hjs & He & Hm).
  exists r. split; [exact He|].
  destruct Hitem as [<-|[]]. cbn in Hflag. injection Hflag as <-.
  destruct Hm as (_ & _ & Htrack & _ & Hvar & Hreason & Hdebug).
  repeat split; assumption.
Defined.

(** What the handler answers once the request has passed validation. *)
Lemma evaluateAllShared_ok (lib : Lib.t) (clientCtx : clientContext) (req : Request.t)
    (valueOnly : bool) (kind : sdkKind) (user : User.t)
    (items : list KeyedItemDescriptor.t)
    (h : gmap string string) (b : string) (tr : list Effect) :
  decodes lib req user ->
  EnvContext.IsSecureMode (env clientCtx) && sdkKind_eqb kind jsClientSdk = false ->
  LDClient.Initialized (EnvContext.GetClient (env clientCtx)) = true ->
  User.GetKey user <> "" ->
  DataStore.GetAll (EnvContext.GetStore (env clientCtx)) Features = Ok items ->
  let withReasons := String.eqb (get (Request.Query req) "withReasons") "true" in
  let store := EnvContext.GetStore (env clientCtx) in
  let response :=
    fold_left
      (fun m flag =>
         <[FeatureFlag.Key flag := evalEntry lib store user valueOnly withReasons flag]> m)
      (includedFlags kind items) ∅ in
  ServeHTTP (evaluateAllShared lib clientCtx req valueOnly kind)
    (MkHState (ResponseWriter.Build h None b) tr)
  = MkHState
      (ResponseWriter.Build (<["Content-Type" := "application/json"]> h) (Some StatusOK)
         (b +:+ match Lib.json_Marshal lib (EResponse response) with
                | Ok bytes => bytes
                | Error _ => ""
                end))
      (tr ++ [Logged LDebug "Application requested client-side flags (%s) for user: %s"
                [Lib.sdkKind_String lib kind; User.GetKey user]]
          ++ List.map (fun flag => Evaluated (FeatureFlag.Key flag) (User.GetKey user))
               (includedFlags kind items)).
Proof.
  intros Hdec Hsec Hinit Hkey Hall withReasons store response.
  unfold ServeHTTP, evaluateAllShared, bind.
  rewrite (getClientSideUserProperties_decoded lib (env clientCtx) kind req user h b tr Hdec).
  rewrite Hsec. cbn [fst snd negb ret return_].
  unfold Header_Set. cbn [w ResponseWriter.Code ResponseWriter.Header ResponseWriter.Body trace].
  rewrite Hinit. cbn [negb ret].
  apply String.eqb_neq in Hkey. rewrite Hkey.
  unfold Debugf, effect. cbn [w trace ret].
  fold store. unfold store at 1. rewrite Hall.
  rewrite evaluateItems_run. cbn -[includedFlags evalResult].
  rewrite <- app_assoc. reflexivity.
Qed.

(** The specification's scenario: [GET /sdk/evalx/env-id/users/<me>] on the
    store that holds the flag [f] answers 200 and evaluates [f]. *)
Example evalx_scenario :
  ServeHTTP (evaluateAllFeatureFlags Fake.lib jsClientSdk (Scenario.jsContext false)
               (Scenario.withUser [])) Scenario.fresh
  = MkHState
      (ResponseWriter.Build {[ "Content-Type" := "application/json" ]} (Some StatusOK) "{}")
      [Logged LDebug "Application requested client-side flags (%s) for user: %s" ["js"; "me"];
       Evaluated "f" "me"].
Proof. vm_compute. reflexivity. Qed.

(** ** Unknown credentials *)

Lemma getEnvironment_unbound (c : Credential) (r : Relay.t) :
  Relay.envsByCredential r !! c = None -> Relay.getEnvironment c r = None.
Proof. unfold Relay.getEnvironment. intros ->. reflexivity. Qed.

(** C4: a request whose credential the Credential Index binds to no
    environment is answered 401 when the credential is a server SDK key or a
    mobile key and 404 when it is an environment ID of the URL; the handler
    behind the middleware is not run, so nothing is logged, evaluated or
    streamed and no environment is read or changed: the answer is the same
    whatever the handler and the environments are. *)
Theorem unknown_credential_rejected
    (contextOf : string -> EnvState.t -> EnvContext.t) (kind : sdkKind) (r : Relay.t)
    (next : clientContext -> Request.t -> Go unit unit) (req : Request.t)
    (h : gmap string string) (b : string) (tr : list Effect) :
  Relay.envsByCredential r !! getSDKCredential kind req = None ->
  ServeHTTP (selectEnvironment contextOf kind r next req)
    (MkHState (ResponseWriter.Build h None b) tr)
  = MkHState
      (ResponseWriter.Build h
         (Some match kind with
               | serverSdk | mobileSdk => StatusUnauthorized
               | jsClientSdk => StatusNotFound
               end)
         b)
      tr.
Proof.
  intros Hunbound. unfold ServeHTTP, selectEnvironment.
  rewrite (getEnvironment_unbound _ _ Hunbound). destruct kind; reflexivity.
Qed.

Lemma unknown_credential_rejected_witness :
  ResponseWriter.Code
    (w (ServeHTTP (selectEnvironment ScenarioRelay.contextOf serverSdk ScenarioRelay.relay
                     (streamHandler AllStream "Application requested server-side /all stream")
                     (ScenarioRelay.authorized "sdk-undefined"))
          Scenario.fresh))
  = Some 401
  /\ ResponseWriter.Code
       (w (ServeHTTP (selectEnvironment ScenarioRelay.contextOf mobileSdk ScenarioRelay.relay
                        (pingStreamHandler PingStream)
                        (ScenarioRelay.authorized "mob-undefined"))
             Scenario.fresh))
     = Some 401
  /\ ResponseWriter.Code
       (w (ServeHTTP (selectEnvironment ScenarioRelay.contextOf jsClientSdk
                        ScenarioRelay.relay (pingStreamHandler PingStream)
                        (ScenarioRelay.forEnvironment "env-undefined"))
             Scenario.fresh))
     = Some 404.
Proof.
  unfold Scenario.fresh, ResponseWriter.new. split; [|split].
  - rewrite (unknown_credential_rejected ScenarioRelay.contextOf serverSdk
               ScenarioRelay.relay _ (ScenarioRelay.authorized "sdk-undefined")
               ∅ "" [] eq_refl).
    reflexivity.
  - rewrite (unknown_credential_rejected ScenarioRelay.contextOf mobileSdk
               ScenarioRelay.relay _ (ScenarioRelay.authorized "mob-undefined")
               ∅ "" [] eq_refl).
    reflexivity.
  - rewrite (unknown_credential_rejected ScenarioRelay.contextOf jsClientSdk
               ScenarioRelay.relay _ (ScenarioRelay.forEnvironment "env-undefined")
               ∅ "" [] eq_refl).
    reflexivity.
Defined.

(** The known credentials of the same kinds reach the handler. *)
Example known_credentials_served :
  ServeHTTP (selectEnvironment ScenarioRelay.contextOf serverSdk ScenarioRelay.relay
               (streamHandler AllStream "Application requested server-side /all stream")
               (ScenarioRelay.authorized "sdk-test"))
    Scenario.fresh
  = MkHState (ResponseWriter.Build ∅ (Some StatusOK) "")
             [Logged LDebug "Application requested server-side /all stream" [];
              ServedStream AllStream (SDKKey "sdk-test")]
  /\ ResponseWriter.Code
       (w (ServeHTTP (selectEnvironment ScenarioRelay.contextOf jsClientSdk
                        ScenarioRelay.relay (pingStreamHandler PingStream)
                        (ScenarioRelay.forEnvironment "env-id"))
             Scenario.fresh))
     = Some StatusOK.
Proof. vm_compute. split; reflexivity. Qed.

(** ** Updating an environment's credentials *)

Lemma elem_of_without (c c' : Credential) (l : list Credential) :
  c' ∈ EnvState.without c l <-> c' ∈ l /\ c' <> c.
Proof.
  unfold EnvState.without. rewrite !list_elem_of_In, filter_In.
  destruct (bool_decide_reflect (c' = c)); cbn; intuition congruence.
Qed.

Lemma credentials_AddCredential (c c' : Credential) (e : EnvState.t) :
  c' ∈ EnvState.credentials (EnvState.AddCredential c e)
  <-> c' = c \/ c' ∈ EnvState.credentials e.
Proof.
  unfold EnvState.AddCredential.
  destruct (bool_decide_reflect (c ∈ EnvState.credentials e)) as [Hin|Hin]; cbn.
  - split; [auto | intros [->|H]; assumption].
  - rewrite elem_of_app, list_elem_of_singleton. tauto.
Qed.

Lemma deprecated_AddCredential (c : Credential) (e : EnvState.t) :
  EnvState.deprecated (EnvState.AddCredential c e) = EnvState.deprecated e.
Proof.
  unfold EnvState.AddCredential.
  destruct (bool_decide (c ∈ EnvState.credentials e)); reflexivity.
Qed.

Lemma credentials_DeprecateCredential (c c' : Credential) (e : EnvState.t) :
  c' ∈ EnvState.credentials (EnvState.DeprecateCredential c e)
  <-> c' ∈ EnvState.credentials e /\ c' <> c.
Proof.
  unfold EnvState.DeprecateCredential.
  destruct (bool_decide_reflect (c ∈ EnvState.credentials e)) as [Hin|Hin]; cbn.
  - apply elem_of_without.
  - split; [|tauto]. intros H. split; [exact H|]. intros ->. contradiction.
Qed.

Lemma deprecated_DeprecateCredential (c c' : Credential) (e : EnvState.t) :
  c' ∈ EnvState.deprecated (EnvState.DeprecateCredential c e)
  <-> c' ∈ EnvState.deprecated e \/ (c' = c /\ c ∈ EnvState.credentials e).
Proof.
  unfold EnvState.DeprecateCredential.
  destruct (bool_decide_reflect (c ∈ EnvState.credentials e)) as [Hin|Hin]; cbn.
  - rewrite elem_of_app, list_elem_of_singleton. tauto.
  - tauto.
Qed.

Lemma credentials_RemoveCredential (c c' : Credential) (e : EnvState.t) :
  c' ∈ EnvState.credentials (EnvState.RemoveCredential c e)
  <-> c' ∈ EnvState.credentials e /\ c' <> c.
Proof. apply elem_of_without. Qed.

Lemma deprecated_RemoveCredential (c c' : Credential) (e : EnvState.t) :
  c' ∈ EnvState.deprecated (EnvState.RemoveCredential c e)
  <-> c' ∈ EnvState.deprecated e /\ c' <> c.
Proof. apply elem_of_without. Qed.

(** The old SDK key that [UpdateEnvironment] finds is one of the
    environment's credentials, unless the environment has no SDK key. *)
Lemma oldKeys_SDKKey (creds : list Credential) :
  SDKKey (fst (relayFileDataActions.oldKeys creds)) ∈ creds
  \/ (fst (relayFileDataActions.oldKeys creds) = ""
      /\ forall k, SDKKey k ∉ creds).
Proof.
  unfold relayFileDataActions.oldKeys.
  assert (H : forall init,
             SDKKey (fst (fold_left
                            (fun old c =>
                               match c with
                               | SDKKey k => (k, snd old)
                               | MobileKey k => (fst old, k)
                               | EnvironmentID _ => old
                               end) creds init)) ∈ creds
             \/ (fst (fold_left
                        (fun old c =>
                           match c with
                           | SDKKey k => (k, snd old)
                           | MobileKey k => (fst old, k)
                           | EnvironmentID _ => old
                           end) creds init) = fst init
                 /\ forall k, SDKKey k ∉ creds)).
  { induction creds as [|c creds IH]; intros init; cbn [fold_left].
    - right. split; [reflexivity|]. intros k H. inversion H.
    - destruct (IH match c with
                   | SDKKey k => (k, snd init)
                   | MobileKey k => (fst init, k)
                   | EnvironmentID _ => init
                   end) as [Hin | [Heq Hnone]].
      + left. right. exact Hin.
      + destruct c as [k|k|k]; cbn [fst] in Heq.
        * left. rewrite Heq. left.
        * right. split; [exact Heq|]. intros k' H.
          inversion H; subst. exact (Hnone k' ltac:(assumption)).
        * right. split; [exact Heq|]. intros k' H.
          inversion H; subst. exact (Hnone k' ltac:(assumption)). }
  exact (H ("", "")).
Qed.

Lemma environments_onEnv (id id' : string) (f : EnvState.t -> EnvState.t) (r : Relay.t) :
  Relay.environments (Relay.onEnv id f r) !! id'
  = if decide (id = id') then f <$> Relay.environments r !! id'
    else Relay.environments r !! id'.
Proof.
  cbn. destruct (decide (id = id')) as [->|Hne].
  - apply lookup_alter_eq.
  - apply lookup_alter_ne. exact Hne.
Qed.

Lemma getEnvironment_Some (c : Credential) (r : Relay.t) (id : string) (e : EnvState.t) :
  Relay.getEnvironment c r = Some (id, e)
  <-> Relay.envsByCredential r !! c = Some id /\ Relay.environments r !! id = Some e.
Proof.
  unfold Relay.getEnvironment.
  destruct (Relay.envsByCredential r !! c) as [id'|]; [|split; [discriminate | intros [H _]; discriminate]].
  destruct (Relay.environments r !! id') as [e'|] eqn:E.
  - split.
    + intros H. injection H as <- <-. split; [reflexivity | exact E].
    + intros [H1 H2]. injection H1 as <-. rewrite E in H2. injection H2 as <-. reflexivity.
  - split; [discriminate|]. intros [H1 H2]. injection H1 as <-. congruence.
Qed.

Lemma index_onEnv (id : string) (f : EnvState.t -> EnvState.t) (r : Relay.t) :
  Relay.envsByCredential (Relay.onEnv id f r) = Relay.envsByCredential r.
Proof. reflexivity. Qed.

Lemma environments_onEnv_eq (id : string) (f : EnvState.t -> EnvState.t) (r : Relay.t) :
  Relay.environments (Relay.onEnv id f r) !! id = f <$> Relay.environments r !! id.
Proof. apply lookup_alter_eq. Qed.

Lemma environments_onEnv_ne (id id' : string) (f : EnvState.t -> EnvState.t) (r : Relay.t) :
  id <> id' ->
  Relay.environments (Relay.onEnv id f r) !! id' = Relay.environments r !! id'.
Proof. intros H. apply lookup_alter_ne. exact H. Qed.

Lemma environments_added (id : string) (c : Credential) (r : Relay.t) :
  Relay.environments (Relay.addedEnvironmentCredential id c r) = Relay.environments r.
Proof. reflexivity. Qed.

Lemma environments_removing (c : Credential) (r : Relay.t) :
  Relay.environments (Relay.removingEnvironmentCredential c r) = Relay.environments r.
Proof. reflexivity. Qed.

(** Reads an environment back through the calls made on the relay. *)
Ltac env_lookup :=
  repeat first
    [ rewrite environments_onEnv_eq
    | rewrite environments_onEnv_ne by assumption
    | rewrite environments_added
    | rewrite environments_removing ].

(** Looks a credential up in the index after the calls made on the relay. *)
Ltac index_lookup :=
  cbn [Relay.envsByCredential Relay.onEnv Relay.addedEnvironmentCredential
       Relay.removingEnvironmentCredential];
  repeat first
    [ rewrite lookup_insert_eq
    | rewrite lookup_delete_eq
    | rewrite lookup_insert_ne by congruence
    | rewrite lookup_delete_ne by congruence ].

(** Membership in the credentials of an environment after the calls made on
    it. *)
Ltac credentials_of :=
  cbn [EnvState.credentials EnvState.deprecated EnvState.Init];
  repeat first
    [ rewrite credentials_RemoveCredential
    | rewrite credentials_AddCredential
    | rewrite credentials_DeprecateCredential
    | rewrite deprecated_RemoveCredential
    | rewrite deprecated_DeprecateCredential
    | rewrite deprecated_AddCredential ];
  cbn [EnvState.credentials EnvState.deprecated EnvState.SetSecureMode
       EnvState.SetTTL EnvState.SetIdentifiers].

(** C5: when an update of a registered environment announces an SDK key
    other than the one the environment holds, the new key becomes a credential
    of the environment and the Credential Index binds it to the environment.
    If the key held before is the announced expiring key, it is deprecated: no
    longer an active credential, kept as a deprecated one, and still bound in
    the index, so it keeps resolving to the environment.  Otherwise it is
    removed: it is no credential of the environment any more and the index no
    longer binds it. *)
Theorem UpdateEnvironment_sdk_key (ae : ArchiveEnvironment.t)
    (a : relayFileDataActions.t) (env : string) (e : EnvState.t) (updates : string) :
  let p := ArchiveEnvironment.Params ae in
  let old := fst (relayFileDataActions.oldKeys (EnvState.GetCredentials e)) in
  let new := EnvironmentParams.SDKKey p in
  Relay.getEnvironment (EnvironmentID (EnvironmentParams.EnvID p))
    (relayFileDataActions.r a) = Some (env, e) ->
  relayFileDataActions.envUpdates a !! EnvironmentParams.EnvID p = Some updates ->
  new <> old ->
  let r0 := relayFileDataActions.r a in
  let r' := relayFileDataActions.r (relayFileDataActions.UpdateEnvironment ae a) in
  exists e',
    Relay.environments r' !! env = Some e'
    /\ (SDKKey new ∈ EnvState.credentials e')
    /\ Relay.envsByCredential r' !! SDKKey new = Some env
    /\ (EnvironmentParams.ExpiringSDKKey p = old ->
        (SDKKey old ∉ EnvState.credentials e')
        /\ ((SDKKey old ∈ EnvState.credentials e) -> (SDKKey old ∈ EnvState.deprecated e'))
        /\ Relay.envsByCredential r' !! SDKKey old
           = Relay.envsByCredential r0 !! SDKKey old
        /\ (Relay.envsByCredential r0 !! SDKKey old = Some env ->
            Relay.getEnvironment (SDKKey old) r' = Some (env, e')))
    /\ (EnvironmentParams.ExpiringSDKKey p <> old ->
        (SDKKey old ∉ EnvState.credentials e')
        /\ (SDKKey old ∉ EnvState.deprecated e')
        /\ Relay.envsByCredential r' !! SDKKey old = None
        /\ Relay.getEnvironment (SDKKey old) r' = None).
Proof.
  intros p old new Hget Hupd Hne r0 r'.
  pose proof Hget as Hget'. apply getEnvironment_Some in Hget' as [Hidx Henv].
  assert (Hr1 :
            Relay.environments
              (Relay.onEnv env (EnvState.SetSecureMode (EnvironmentParams.SecureMode p))
                 (Relay.onEnv env (EnvState.SetTTL (EnvironmentParams.TTL p))
                    (Relay.onEnv env
                       (EnvState.SetIdentifiers (EnvironmentParams.Identifiers p))
                       (relayFileDataActions.r a))))
            !! env
            = Some (EnvState.SetSecureMode (EnvironmentParams.SecureMode p)
                      (EnvState.SetTTL (EnvironmentParams.TTL p)
                         (EnvState.SetIdentifiers (EnvironmentParams.Identifiers p) e)))).
  { rewrite !environments_onEnv, !decide_True by reflexivity.
    rewrite Henv. reflexivity. }
  subst r'. unfold relayFileDataActions.UpdateEnvironment. fold p.
  rewrite Hget, Hupd. cbv zeta. rewrite Hr1.
  cbn [EnvState.GetCredentials EnvState.credentials EnvState.SetSecureMode
       EnvState.SetTTL EnvState.SetIdentifiers relayFileDataActions.r].
  change (EnvState.credentials e) with (EnvState.GetCredentials e). fold old new.
  pose proof Hne as Hne'. apply String.eqb_neq in Hne'. rewrite Hne'. cbn [negb].
  assert (Hnew_old : SDKKey new <> SDKKey old) by congruence.
  assert (Hold_new : SDKKey old <> SDKKey new) by congruence.
  destruct (decide (updates = env)) as [->|Hu];
    destruct (ArchiveEnvironment.SDKData ae) as [d|];
    destruct (negb (String.eqb (EnvironmentParams.MobileKey p)
                      (snd (relayFileDataActions.oldKeys (EnvState.GetCredentials e)))));
    destruct (String.eqb_spec (EnvironmentParams.ExpiringSDKKey p) old) as [Hexp|Hexp].
  all: eexists; (split; [env_lookup; rewrite Henv; reflexivity|]).
  all: split; [credentials_of; intuition (congruence || discriminate)|].
  all: split; [index_lookup; reflexivity|].
  all: split; intros Hexp'; try contradiction.
  all: (split; [credentials_of; intuition (congruence || discriminate)|]).
  all: unfold EnvState.GetCredentials in *; subst r0.
  all: first
         [ split;
           [ intros Hin; credentials_of; intuition (congruence || discriminate)
           | split;
             [ index_lookup; reflexivity
             | intros Hbound; apply getEnvironment_Some; split;
               [ index_lookup; exact Hbound
               | env_lookup; rewrite Henv; reflexivity ] ] ]
         | split;
           [ credentials_of; intuition (congruence || discriminate)
           | split;
             [ index_lookup; reflexivity
             | apply getEnvironment_unbound; index_lookup; reflexivity ] ] ].
Qed.

Lemma UpdateEnvironment_sdk_key_witness :
  let deprecating :=
    relayFileDataActions.r
      (relayFileDataActions.UpdateEnvironment (ScenarioFileData.rotation "sdk-test")
         ScenarioFileData.added) in
  let removing :=
    relayFileDataActions.r
      (relayFileDataActions.UpdateEnvironment (ScenarioFileData.rotation "")
         ScenarioFileData.added) in
  fst <$> Relay.getEnvironment (SDKKey "sdk-new") deprecating = Some "env-id"
  /\ fst <$> Relay.getEnvironment (SDKKey "sdk-test") deprecating = Some "env-id"
  /\ Relay.envsByCredential removing !! SDKKey "sdk-new" = Some "env-id"
  /\ Relay.getEnvironment (SDKKey "sdk-test") removing = None.
Proof.
  assert (Hget : Relay.getEnvironment (EnvironmentID "env-id")
                   (relayFileDataActions.r ScenarioFileData.added) <> None).
  { vm_compute. discriminate. }
  destruct (Relay.getEnvironment (EnvironmentID "env-id")
              (relayFileDataActions.r ScenarioFileData.added))
    as [[env e]|] eqn:E; [clear Hget | contradiction].
  assert (Henv : env = "env-id" /\ EnvState.GetCredentials e
                                   = [SDKKey "sdk-test"; MobileKey "mob-test";
                                      EnvironmentID "env-id"]).
  { vm_compute in E. injection E as <- <-. split; reflexivity. }
  destruct Henv as [-> Hcreds].
  assert (Hne : "sdk-new" <> fst (relayFileDataActions.oldKeys (EnvState.GetCredentials e))).
  { rewrite Hcreds. discriminate. }
  split; [|split; [|split]].
  - destruct (UpdateEnvironment_sdk_key (ScenarioFileData.rotation "sdk-test")
                ScenarioFileData.added "env-id" e "env-id" E eq_refl Hne)
      as (e' & He' & _ & Hidx & _).
    cbv zeta.
    pose proof (proj2 (getEnvironment_Some _ _ _ _) (conj Hidx He')) as Hresolves.
    exact (f_equal (fmap fst) Hresolves).
  - destruct (UpdateEnvironment_sdk_key (ScenarioFileData.rotation "sdk-test")
                ScenarioFileData.added "env-id" e "env-id" E eq_refl Hne)
      as (e' & He' & _ & _ & Hdep & _).
    destruct Hdep as (_ & _ & _ & Hresolves); [rewrite Hcreds; reflexivity|].
    cbv zeta. rewrite Hcreds in Hresolves.
    exact (f_equal (fmap fst) (Hresolves eq_refl)).
  - destruct (UpdateEnvironment_sdk_key (ScenarioFileData.rotation "")
                ScenarioFileData.added "env-id" e "env-id" E eq_refl Hne)
      as (e' & _ & _ & Hidx & _).
    exact Hidx.
  - destruct (UpdateEnvironment_sdk_key (ScenarioFileData.rotation "")
                ScenarioFileData.added "env-id" e "env-id" E eq_refl Hne)
      as (e' & _ & _ & _ & _ & Hrem).
    destruct Hrem as (_ & _ & _ & Hgone); [rewrite Hcreds; discriminate|].
    rewrite Hcreds in Hgone. exact Hgone.
Defined.

(** ** The Etag of the flag set *)

(** *** The order of Go strings *)

Lemma string_lt_iff (a b : string) : string_lt a b = true <-> String_as_OT.lt a b.
Proof.
  unfold string_lt, String_as_OT.lt.
  destruct (String_as_OT.compare a b); split; intros H; congruence.
Qed.

Lemma string_le_iff (a b : string) : string_le a b <-> ~ String_as_OT.lt b a.
Proof.
  unfold string_le. rewrite <- string_lt_iff.
  destruct (string_lt b a); split; intros H; congruence.
Qed.

Lemma string_trichotomy (a b : string) :
  a = b \/ String_as_OT.lt a b \/ String_as_OT.lt b a.
Proof.
  destruct (String_as_OT.compare_spec a b) as [H|H|H]; auto.
Qed.

Lemma string_le_trans (a b c : string) : string_le a b -> string_le b c -> string_le a c.
Proof.
  rewrite !string_le_iff. intros Hab Hbc Hca.
  destruct (string_trichotomy a b) as [->|[H|H]]; [auto| |auto].
  apply Hbc. exact (StrictOrder_Transitive c a b Hca H).
Qed.

Lemma string_le_antisym (a b : string) : string_le a b -> string_le b a -> a = b.
Proof.
  rewrite !string_le_iff. intros Hab Hba.
  destruct (string_trichotomy a b) as [H|[H|H]]; [exact H | contradiction..].
Qed.

Lemma string_le_total (a b : string) : string_lt a b = true -> string_le a b.
Proof.
  rewrite string_lt_iff, string_le_iff. intros Hab Hba.
  exact (StrictOrder_Irreflexive a (StrictOrder_Transitive a b a Hab Hba)).
Qed.

(** *** Sorting pairs by key *)

Lemma insert_pair_perm (x : string * Z) (l : list (string * Z)) :
  Permutation (insert_pair x l) (x :: l).
Proof.
  induction l as [|y l IH]; cbn; [reflexivity|].
  destruct (string_lt (fst y) (fst x)); [|reflexivity].
  rewrite IH. apply perm_swap.
Qed.

Lemma sort_pairs_perm (l : list (string * Z)) : Permutation (sort_pairs l) l.
Proof.
  induction l as [|x l IH]; cbn; [reflexivity|].
  rewrite insert_pair_perm. constructor. exact IH.
Qed.

Lemma insert_pair_sorted (x : string * Z) (l : list (string * Z)) :
  Sorted pair_le l -> Sorted pair_le (insert_pair x l).
Proof.
  induction l as [|y l IH]; intros Hs; cbn.
  - repeat constructor.
  - destruct (string_lt (fst y) (fst x)) eqn:E.
    + inversion Hs as [|? ? Hl Hhd]; subst. constructor; [apply IH; exact Hl|].
      destruct l as [|z l]; cbn.
      * constructor. apply string_le_total. exact E.
      * destruct (string_lt (fst z) (fst x)).
        -- constructor. inversion Hhd; assumption.
        -- constructor. apply string_le_total. exact E.
    + constructor; [exact Hs|]. constructor. exact E.
Qed.

Lemma sort_pairs_sorted (l : list (string * Z)) : StronglySorted pair_le (sort_pairs l).
Proof.
  apply Sorted_StronglySorted.
  - intros x y z. apply string_le_trans.
  - induction l as [|x l IH]; cbn; [constructor | apply insert_pair_sorted, IH].
Qed.

(** Two reads with the same keys and versions sort to the same list, whatever
    the order the store gave them in. *)
Lemma sort_pairs_unique (l1 l2 : list (string * Z)) :
  NoDup (List.map fst l1) -> Permutation l1 l2 -> sort_pairs l1 = sort_pairs l2.
Proof.
  intros Hnd Hperm.
  apply (StronglySorted_unique_strong pair_le);
    [| apply sort_pairs_sorted | apply sort_pairs_sorted
     | rewrite !sort_pairs_perm; exact Hperm].
  intros x1 x2 H1 H2 H12 H21.
  rewrite sort_pairs_perm in H1. rewrite sort_pairs_perm, <- Hperm in H2.
  pose proof (string_le_antisym _ _ H12 H21) as Hfst.
  apply list_elem_of_In in H1, H2.
  clear -Hnd H1 H2 Hfst. induction l1 as [|y l IH]; [destruct H1|].
  cbn in Hnd. inversion Hnd as [|? ? Hnotin Hnd']; subst.
  destruct H1 as [->|H1], H2 as [->|H2].
  - reflexivity.
  - exfalso. apply Hnotin. apply list_elem_of_In. rewrite Hfst. apply in_map. exact H2.
  - exfalso. apply Hnotin. apply list_elem_of_In. rewrite <- Hfst. apply in_map. exact H1.
  - apply IH; assumption.
Qed.

(** *** The handler's Etag *)

Lemma sort_by_key_pairs (data : list KeyedItemDescriptor.t) :
  List.map keyAndVersion (sort_by_key data) = sort_pairs (List.map keyAndVersion data).
Proof.
  unfold sort_by_key, sort_pairs.
  induction data as [|x data IH]; cbn [fold_right List.map]; [reflexivity|].
  rewrite <- IH. generalize (fold_right insert_by_key [] data) as l. clear IH.
  induction l as [|y l IHl]; cbn; [reflexivity|].
  destruct (string_lt (KeyedItemDescriptor.Key y) (KeyedItemDescriptor.Key x));
    cbn; [rewrite IHl|]; reflexivity.
Qed.

(** The Etag reads nothing of an item but its key and its version. *)
Lemma flags_etag_of_versions (data : list KeyedItemDescriptor.t) :
  flags_etag data = etag_of_versions (List.map keyAndVersion data).
Proof.
  unfold flags_etag, etag_of_versions. rewrite <- sort_by_key_pairs.
  do 3 f_equal. induction (sort_by_key data) as [|x l IH]; cbn; [reflexivity|].
  rewrite IH. reflexivity.
Qed.

Lemma flags_etag_unchanged (data1 data2 : list KeyedItemDescriptor.t) :
  NoDup (List.map KeyedItemDescriptor.Key data1) ->
  Permutation (List.map keyAndVersion data1) (List.map keyAndVersion data2) ->
  flags_etag data1 = flags_etag data2.
Proof.
  intros Hnd Hperm. rewrite !flags_etag_of_versions. unfold etag_of_versions.
  rewrite (sort_pairs_unique _ (List.map keyAndVersion data2));
    [reflexivity | | exact Hperm].
  rewrite List.map_map. exact Hnd.
Qed.

(** *** The cacheable responses *)

Lemma relay_etag_nonempty (etagValue : string) : "relay-" +:+ etagValue <> "".
Proof. discriminate. Qed.

(** What [writeCacheableJSONResponse] does to a response not yet started. *)
Lemma writeCacheableJSONResponse_run {R} (lib : Lib.t) (req : Request.t)
    (clientContext : EnvContext.t) (entity : Entity) (etagValue : string)
    (h : gmap string string) (b : string) (tr : list Effect) :
  let etag := "relay-" +:+ etagValue in
  @writeCacheableJSONResponse lib R req clientContext entity etagValue
    (MkHState (ResponseWriter.Build h None b) tr)
  = (Next tt,
     if String.eqb (get (Request.Header req) "If-None-Match") etag then
       MkHState (ResponseWriter.Build h (Some StatusNotModified) b) tr
     else
       match Lib.json_Marshal lib entity with
       | Error err =>
           MkHState (ResponseWriter.Build h (Some StatusInternalServerError) b)
                    (tr ++ [Logged LError "Error marshaling JSON: %s" [err]])
       | Ok bytes =>
           MkHState
             (ResponseWriter.Build (cacheableHeaders lib clientContext etag h)
                (Some StatusOK) (b +:+ bytes))
             tr
       end).
Proof.
  cbn zeta. unfold writeCacheableJSONResponse, call, bind.
  destruct (String.eqb_spec (get (Request.Header req) "If-None-Match")
              ("relay-" +:+ etagValue)) as [E|E].
  - rewrite E. reflexivity.
  - destruct (negb (String.eqb (get (Request.Header req) "If-None-Match") ""));
      cbn [ret];
      (destruct (Lib.json_Marshal lib entity) as [bytes|err]; [|reflexivity]);
      unfold cacheableHeaders;
      destruct (0 <? EnvContext.GetTTL clientContext); reflexivity.
Qed.

Lemma pollAllFlagsHandler_run (lib : Lib.t) (clientCtx : clientContext) (req : Request.t)
    (data : list KeyedItemDescriptor.t)
    (h : gmap string string) (b : string) (tr : list Effect) :
  DataStore.GetAll (EnvContext.GetStore (env clientCtx)) Features = Ok data ->
  let etag := "relay-" +:+ flags_etag data in
  ServeHTTP (pollAllFlagsHandler lib clientCtx req)
    (MkHState (ResponseWriter.Build h None b) tr)
  = if String.eqb (get (Request.Header req) "If-None-Match") etag then
      MkHState (ResponseWriter.Build h (Some StatusNotModified) b) tr
    else
      match Lib.json_Marshal lib (EItems (itemsCollectionToMap data)) with
      | Error err =>
          MkHState (ResponseWriter.Build h (Some StatusInternalServerError) b)
                   (tr ++ [Logged LError "Error marshaling JSON: %s" [err]])
      | Ok bytes =>
          MkHState
            (ResponseWriter.Build (cacheableHeaders lib (env clientCtx) etag h)
               (Some StatusOK) (b +:+ bytes))
            tr
      end.
Proof.
  intros Hall etag. unfold ServeHTTP, pollAllFlagsHandler. rewrite Hall.
  rewrite writeCacheableJSONResponse_run. reflexivity.
Qed.

Lemma cacheableHeaders_Etag (lib : Lib.t) (clientContext : EnvContext.t)
    (etag : string) (h : gmap string string) :
  cacheableHeaders lib clientContext etag h !! "Etag" = Some etag.
Proof.
  unfold cacheableHeaders. destruct (0 <? EnvContext.GetTTL clientContext).
  - rewrite lookup_insert_ne by discriminate.
    rewrite lookup_insert_ne by discriminate. apply lookup_insert_eq.
  - apply lookup_insert_eq.
Qed.

(** The claim as stated fails on its own pair of requests: the first GET of
    [/sdk/flags] is answered 200 with the Etag, and the second, sent with that
    Etag in [If-None-Match] while the store is unchanged, is answered 304
    before any header is set, so it carries no Etag at all. *)
Lemma not_modified_carries_no_etag :
  let first :=
    ServeHTTP (pollAllFlagsHandler Fake.lib (ScenarioPoll.context ScenarioPoll.data1)
                 (ScenarioPoll.poll []))
      Scenario.fresh in
  let second :=
    ServeHTTP (pollAllFlagsHandler Fake.lib (ScenarioPoll.context ScenarioPoll.data1)
                 (ScenarioPoll.poll [("If-None-Match", ScenarioPoll.etag)]))
      Scenario.fresh in
  ResponseWriter.Code (w first) = Some StatusOK
  /\ ResponseWriter.Header (w first) !! "Etag" = Some ScenarioPoll.etag
  /\ ResponseWriter.Code (w second) = Some StatusNotModified
  /\ ResponseWriter.Header (w second) !! "Etag" = None
  /\ ResponseWriter.Header (w first) !! "Etag"
     <> ResponseWriter.Header (w second) !! "Etag".
Proof.
  cbv zeta.
  assert (H1 : ServeHTTP (pollAllFlagsHandler Fake.lib
                            (ScenarioPoll.context ScenarioPoll.data1)
                            (ScenarioPoll.poll []))
                 Scenario.fresh
               = MkHState
                   (ResponseWriter.Build
                      (<["Etag" := ScenarioPoll.etag]>
                         (<["Content-Type" := "application/json"]> ∅))
                      (Some StatusOK) "{}")
                   []).
  { vm_compute. reflexivity. }
  assert (H2 : ServeHTTP (pollAllFlagsHandler Fake.lib
                            (ScenarioPoll.context ScenarioPoll.data1)
                            (ScenarioPoll.poll [("If-None-Match", ScenarioPoll.etag)]))
                 Scenario.fresh
               = MkHState (ResponseWriter.Build ∅ (Some StatusNotModified) "") []).
  { vm_compute. reflexivity. }
  rewrite H1, H2. cbn [w ResponseWriter.Code ResponseWriter.Header].
  rewrite lookup_insert_eq, lookup_empty.
  repeat split. discriminate.
Qed.

(** C6, amended: two GETs of [/sdk/flags] between which the flag keys and
    versions of the store did not change (the store may list them in another
    order; the keys of one read are pairwise different, being the keys of a
    store) have the same Etag, [relay-] and the hash of the keys and versions.
    A request that is answered in full (its [If-None-Match] is not that Etag
    and the data set marshals) gets a 200 that carries the Etag; a request
    whose [If-None-Match] is that Etag gets 304 with no header set, so without
    the Etag, and no body written. *)
Theorem pollAllFlags_cacheable (lib : Lib.t) (clientCtx1 clientCtx2 : clientContext)
    (req1 req2 : Request.t) (data1 data2 : list KeyedItemDescriptor.t)
    (h1 h2 : gmap string string) (b1 b2 : string) (tr1 tr2 : list Effect) :
  DataStore.GetAll (EnvContext.GetStore (env clientCtx1)) Features = Ok data1 ->
  DataStore.GetAll (EnvContext.GetStore (env clientCtx2)) Features = Ok data2 ->
  NoDup (List.map KeyedItemDescriptor.Key data1) ->
  Permutation (List.map keyAndVersion data1) (List.map keyAndVersion data2) ->
  let etag := "relay-" +:+ flags_etag data1 in
  let first :=
    ServeHTTP (pollAllFlagsHandler lib clientCtx1 req1)
      (MkHState (ResponseWriter.Build h1 None b1) tr1) in
  let second :=
    ServeHTTP (pollAllFlagsHandler lib clientCtx2 req2)
      (MkHState (ResponseWriter.Build h2 None b2) tr2) in
  (forall bytes,
      get (Request.Header req1) "If-None-Match" <> etag ->
      Lib.json_Marshal lib (EItems (itemsCollectionToMap data1)) = Ok bytes ->
      ResponseWriter.Code (w first) = Some StatusOK
      /\ ResponseWriter.Header (w first) !! "Etag" = Some etag
      /\ ResponseWriter.Body (w first) = b1 +:+ bytes)
  /\ (forall bytes,
         get (Request.Header req2) "If-None-Match" <> etag ->
         Lib.json_Marshal lib (EItems (itemsCollectionToMap data2)) = Ok bytes ->
         ResponseWriter.Code (w second) = Some StatusOK
         /\ ResponseWriter.Header (w second) !! "Etag" = Some etag
         /\ ResponseWriter.Body (w second) = b2 +:+ bytes)
  /\ (get (Request.Header req1) "If-None-Match" = etag ->
      first = MkHState (ResponseWriter.Build h1 (Some StatusNotModified) b1) tr1)
  /\ (get (Request.Header req2) "If-None-Match" = etag ->
      second = MkHState (ResponseWriter.Build h2 (Some StatusNotModified) b2) tr2).
Proof.
  intros Hall1 Hall2 Hnd Hperm etag first second.
  assert (Hetag : "relay-" +:+ flags_etag data2 = etag).
  { unfold etag. rewrite (flags_etag_unchanged data1 data2 Hnd Hperm). reflexivity. }
  unfold first, second.
  rewrite (pollAllFlagsHandler_run lib clientCtx1 req1 data1 h1 b1 tr1 Hall1).
  rewrite (pollAllFlagsHandler_run lib clientCtx2 req2 data2 h2 b2 tr2 Hall2).
  rewrite Hetag. fold etag.
  repeat split.
  - apply String.eqb_neq in H. rewrite H, H0. reflexivity.
  - apply String.eqb_neq in H. rewrite H, H0. apply cacheableHeaders_Etag.
  - apply String.eqb_neq in H. rewrite H, H0. reflexivity.
  - apply String.eqb_neq in H. rewrite H, H0. reflexivity.
  - apply String.eqb_neq in H. rewrite H, H0. apply cacheableHeaders_Etag.
  - apply String.eqb_neq in H. rewrite H, H0. reflexivity.
  - intros E. rewrite E, String.eqb_refl. reflexivity.
  - intros E. rewrite E, String.eqb_refl. reflexivity.
Qed.

(** C8: the Etag of [/sdk/flags] is a function of the keys and versions of the
    data set alone.  Two data sets with the same keys and versions (the keys
    pairwise different, being the keys of a store), in any order and whatever
    else their items hold, have the same Etag; so a GET whose [If-None-Match]
    is the Etag of the one is answered 304 on the other. *)
Theorem flags_etag_keys_and_versions (data1 data2 : list KeyedItemDescriptor.t) :
  NoDup (List.map KeyedItemDescriptor.Key data1) ->
  Permutation (List.map keyAndVersion data1) (List.map keyAndVersion data2) ->
  flags_etag data1 = etag_of_versions (List.map keyAndVersion data1)
  /\ flags_etag data1 = flags_etag data2
  /\ forall (lib : Lib.t) (clientCtx : clientContext) (req : Request.t)
            (h : gmap string string) (b : string) (tr : list Effect),
      DataStore.GetAll (EnvContext.GetStore (env clientCtx)) Features = Ok data2 ->
      get (Request.Header req) "If-None-Match" = "relay-" +:+ flags_etag data1 ->
      ServeHTTP (pollAllFlagsHandler lib clientCtx req)
        (MkHState (ResponseWriter.Build h None b) tr)
      = MkHState (ResponseWriter.Build h (Some StatusNotModified) b) tr.
Proof.
  intros Hnd Hperm. split; [apply flags_etag_of_versions|].
  pose proof (flags_etag_unchanged data1 data2 Hnd Hperm) as Hsame.
  split; [exact Hsame|].
  intros lib clientCtx req h b tr Hall Hmatch.
  rewrite (pollAllFlagsHandler_run lib clientCtx req data2 h b tr Hall).
  rewrite Hmatch, Hsame, String.eqb_refl. reflexivity.
Qed.

Example flags_etag_data1 : "relay-" +:+ flags_etag ScenarioPoll.data1 = ScenarioPoll.etag.
Proof. vm_compute. reflexivity. Qed.

Lemma ScenarioPoll_same_versions :
  NoDup (List.map KeyedItemDescriptor.Key ScenarioPoll.data1)
  /\ Permutation (List.map keyAndVersion ScenarioPoll.data1)
                 (List.map keyAndVersion ScenarioPoll.data2).
Proof.
  split.
  - apply NoDup_ListNoDup. repeat constructor; cbn; intuition discriminate.
  - apply perm_swap.
Qed.

Lemma pollAllFlags_cacheable_witness :
  ResponseWriter.Header
    (w (ServeHTTP (pollAllFlagsHandler Fake.lib (ScenarioPoll.context ScenarioPoll.data1)
                     (ScenarioPoll.poll []))
          Scenario.fresh))
  !! "Etag" = Some ScenarioPoll.etag
  /\ ServeHTTP (pollAllFlagsHandler Fake.lib (ScenarioPoll.context ScenarioPoll.data2)
                  (ScenarioPoll.poll [("If-None-Match", ScenarioPoll.etag)]))
       Scenario.fresh
     = MkHState (ResponseWriter.Build ∅ (Some StatusNotModified) "") [].
Proof.
  destruct ScenarioPoll_same_versions as [Hnd Hperm].
  destruct (pollAllFlags_cacheable Fake.lib
              (ScenarioPoll.context ScenarioPoll.data1)
              (ScenarioPoll.context ScenarioPoll.data2)
              (ScenarioPoll.poll [])
              (ScenarioPoll.poll [("If-None-Match", ScenarioPoll.etag)])
              ScenarioPoll.data1 ScenarioPoll.data2 ∅ ∅ "" "" [] []
              eq_refl eq_refl Hnd Hperm)
    as (Hfirst & _ & _ & Hsecond).
  split.
  - destruct (Hfirst "{}") as (_ & Hetag & _);
      [vm_compute; discriminate | reflexivity |].
    rewrite flags_etag_data1 in Hetag. exact Hetag.
  - apply Hsecond. vm_compute. reflexivity.
Defined.

Lemma flags_etag_keys_and_versions_witness :
  flags_etag ScenarioPoll.data1 = flags_etag ScenarioPoll.data2
  /\ List.map KeyedItemDescriptor.Item ScenarioPoll.data1
     <> List.map KeyedItemDescriptor.Item (rev ScenarioPoll.data2)
  /\ ServeHTTP (pollAllFlagsHandler Fake.lib (ScenarioPoll.context ScenarioPoll.data2)
                  (ScenarioPoll.poll
                     [("If-None-Match", "relay-" +:+ flags_etag ScenarioPoll.data1)]))
       Scenario.fresh
     = MkHState (ResponseWriter.Build ∅ (Some StatusNotModified) "") [].
Proof.
  destruct ScenarioPoll_same_versions as [Hnd Hperm].
  destruct (flags_etag_keys_and_versions ScenarioPoll.data1 ScenarioPoll.data2 Hnd Hperm)
    as (_ & Hsame & Hnotmodified).
  split; [exact Hsame|]. split; [discriminate|].
  apply Hnotmodified; [reflexivity|]. vm_compute. reflexivity.
Defined.

(** ** Adding an environment whose update sink is not captured *)






(** When the sink is captured, it is recorded and the environment is given
    the archive's data. *)
Example AddEnvironment_captured :
  relayFileDataActions.envUpdates
    (relayFileDataActions.AddEnvironment ScenarioFileData.newcomer None
       relayFileDataActions.Captured (relayFileDataActions.Build Relay.New ∅))
  !! "env-new" = Some "env-new"
  /\ (EnvState.data
        <$> Relay.environments
              (relayFileDataActions.r
                 (relayFileDataActions.AddEnvironment ScenarioFileData.newcomer None
                    relayFileDataActions.Captured
                    (relayFileDataActions.Build Relay.New ∅)))
            !! "env-new")
     = Some (Some []).
Proof. vm_compute. split; reflexivity. Qed.

(** A later update of the environment that timed out finds it registered and
    without an update sink, and logs that. *)
Example update_after_timeout :
  Relay.loggers
    (relayFileDataActions.r
       (relayFileDataActions.UpdateEnvironment ScenarioFileData.newcomer
          (relayFileDataActions.AddEnvironment ScenarioFileData.newcomer None
             relayFileDataActions.TimedOut (relayFileDataActions.Build Relay.New ∅))))
  = [Logged LError logMsgOfflineEnvTimeoutError ["Default Production"];
     Logged LError logMsgInternalErrorNoUpdatesForEnv ["env-new"]].
Proof. vm_compute. reflexivity. Qed.

(** ** Polling one flag or segment *)

Lemma InMemoryStore_Get_missing (kind : DataKind) (key : string) (m : InMemoryStore.t) :
  InMemoryStore.items kind m !! key = None
  \/ (exists v, InMemoryStore.items kind m !! key = Some (ItemDescriptor.Build v None)) ->
  ItemDescriptor.Item (InMemoryStore.Get kind key m) = None.
Proof.
  unfold InMemoryStore.Get. intros [H | [v H]]; rewrite H; reflexivity.
Qed.

(** C9: a GET of one flag or segment whose key the store does not hold, or
    holds as a deleted item's tombstone (a descriptor whose item is nil),
    answers 404 and sets no header (so no Etag) and writes no body; a failed
    store read answers 500 instead.  The same holds for the v5 handler of
    endpoints.go, whose store gives a nil item in both cases. *)
Theorem pollFlagOrSegment_missing (lib : Lib.t) (clientContext : EnvContext.t)
    (kind : DataKind) (req : Request.t)
    (h : gmap string string) (b : string) (tr : list Effect) :
  let key := get (Request.Vars req) "key" in
  let s := MkHState (ResponseWriter.Build h None b) tr in
  let served (env : EnvContext.t) := ServeHTTP (pollFlagOrSegment lib env kind req) s in
  let with_store (store : DataStore.t) :=
    EnvContext.Build (EnvContext.IsSecureMode clientContext)
      (EnvContext.GetClient clientContext) store (EnvContext.GetTTL clientContext)
      (EnvContext.GetStreamHandler clientContext) in
  (forall item,
      DataStore.Get (EnvContext.GetStore clientContext) kind key = Ok item ->
      ItemDescriptor.Item item = None ->
      served clientContext
      = MkHState (ResponseWriter.Build h (Some StatusNotFound) b) tr)
  /\ (forall m : InMemoryStore.t,
         InMemoryStore.items kind m !! key = None
         \/ (exists v, InMemoryStore.items kind m !! key
                       = Some (ItemDescriptor.Build v None)) ->
         served (with_store (InMemoryStore.DataStore m))
         = MkHState (ResponseWriter.Build h (Some StatusNotFound) b) tr)
  /\ (forall err,
         DataStore.Get (EnvContext.GetStore clientContext) kind key = Error err ->
         served clientContext
         = MkHState (ResponseWriter.Build h (Some StatusInternalServerError) b)
                    (tr ++ [Logged LError "Error reading feature store: %s" [err]]))
  /\ (forall featureStore : V5.FeatureStore,
         (V5.Get featureStore kind key = Ok None ->
          ServeHTTP (V5.pollFlagOrSegment lib featureStore kind req) s
          = MkHState (ResponseWriter.Build h (Some StatusNotFound) b) tr)
         /\ (forall err,
                V5.Get featureStore kind key = Error err ->
                ServeHTTP (V5.pollFlagOrSegment lib featureStore kind req) s
                = MkHState (ResponseWriter.Build h (Some StatusInternalServerError) b)
                           (tr ++ [Logged LError "Error reading feature store: %s" [err]]))).
Proof.
  intros key s served with_store. repeat split.
  - intros item Hget Hnil. unfold served, ServeHTTP, pollFlagOrSegment.
    fold key. rewrite Hget, Hnil. reflexivity.
  - intros m Hm. unfold served, ServeHTTP, pollFlagOrSegment. fold key.
    cbn [with_store EnvContext.GetStore InMemoryStore.DataStore DataStore.Get].
    rewrite (InMemoryStore_Get_missing kind key m Hm). reflexivity.
  - intros err Hget. unfold served, ServeHTTP, pollFlagOrSegment.
    fold key. rewrite Hget. reflexivity.
  - intros Hget. unfold ServeHTTP, V5.pollFlagOrSegment. fold key.
    rewrite Hget. reflexivity.
  - intros err Hget. unfold ServeHTTP, V5.pollFlagOrSegment. fold key.
    rewrite Hget. reflexivity.
Qed.

(** ** obscureKey *)

Lemma bytes_of_bytes l : GoString.bytes (GoString.of_bytes l) = l.
Proof. apply list_ascii_of_string_of_list_ascii. Qed.

Lemma of_bytes_bytes s : GoString.of_bytes (GoString.bytes s) = s.
Proof. apply string_of_list_ascii_of_string. Qed.

(** Byte by byte, what [obscureKey] makes of a key longer than 8 bytes. *)
Lemma obscureKey_bytes key :
  (8 < GoString.len key)%nat ->
  GoString.bytes (obscureKey key)
  = imap (obscured (GoString.len key)) (GoString.bytes key).
Proof.
  unfold obscureKey, GoString.len. set (k := GoString.bytes key).
  intros Hlen. destruct (Nat.ltb_spec 8 (List.length k)) as [_|]; [|lia].
  rewrite bytes_of_bytes.
  unfold GoString.slice, GoString.slice_from, replace_hexdigits.
  change (@List.map ascii ascii) with (@fmap list _ ascii ascii).
  change (@firstn) with (@take). change (@skipn) with (@drop).
  change (@List.length ascii k) with (length k) in *.
  apply list_eq. intros i.
  rewrite list_lookup_imap. unfold obscured.
  destruct (Nat.ltb_spec i 4) as [Hi|Hi]; simpl.
  - rewrite lookup_app_l by (rewrite length_take, length_drop; lia).
    rewrite lookup_take_lt by lia. rewrite lookup_drop. simpl.
    destruct (k !! i); reflexivity.
  - rewrite lookup_app_r by (rewrite length_take, length_drop; lia).
    destruct (Nat.leb_spec (length k - 5) i) as [Hj|Hj].
    + rewrite lookup_app_r
        by (rewrite length_fmap, !length_take, !length_drop; lia).
      rewrite length_fmap, !length_take, !length_drop, lookup_drop.
      match goal with |- context [k !! ?e] => replace e with i by lia end.
      destruct (k !! i); reflexivity.
    + rewrite lookup_app_l
        by (rewrite length_fmap, !length_take, !length_drop; lia).
      rewrite !length_take, !length_drop.
      rewrite list_lookup_fmap, lookup_take_lt by lia.
      rewrite lookup_drop.
      match goal with |- context [k !! ?e] => replace e with i by lia end.
      destruct (k !! i); reflexivity.
Qed.

(** The class [[a-fA-F\d]] of the source is the hexadecimal digits: every
    byte is in the one exactly when it is one of the other. *)
Lemma hexdigit_hexadecimalDigit (c : ascii) : hexdigit c = hexadecimalDigit c.
Proof. destruct c as [[] [] [] [] [] [] [] []]; reflexivity. Qed.

(** C10: [obscureKey] returns a string of the same length as its input; a
    key of 8 bytes or fewer is returned unchanged; in a longer key the first 4
    and the last 5 bytes are kept and, of the bytes between them, exactly the
    hexadecimal digits ([0-9], [a-f], [A-F]) are replaced by ['*'], every
    other byte being kept. *)
Theorem obscureKey_spec (key : string) :
  GoString.len (obscureKey key) = GoString.len key
  /\ ((GoString.len key <= 8)%nat -> obscureKey key = key)
  /\ ((8 < GoString.len key)%nat ->
      forall (i : nat) (c : ascii),
        GoString.bytes key !! i = Some c ->
        GoString.bytes (obscureKey key) !! i
        = Some (if (i <? 4)%nat || (GoString.len key - 5 <=? i)%nat then c
                else if hexadecimalDigit c then "*"%char else c)).
Proof.
  split; [|split].
  - destruct (Nat.ltb_spec 8 (GoString.len key)) as [H|H].
    + unfold GoString.len at 1. rewrite obscureKey_bytes by exact H.
      apply length_imap.
    + unfold obscureKey. fold (GoString.len key).
      destruct (Nat.ltb_spec 8 (GoString.len key)); [lia | reflexivity].
  - intros H. unfold obscureKey. fold (GoString.len key).
    destruct (Nat.ltb_spec 8 (GoString.len key)); [lia | reflexivity].
  - intros H i c Hc. rewrite obscureKey_bytes by exact H.
    rewrite list_lookup_imap, Hc. cbn [fmap option_fmap option_map].
    unfold obscured. rewrite hexdigit_hexadecimalDigit. reflexivity.
Qed.

(** On the key [0123a-6789f] of 11 bytes: the length is kept; byte 3, one of
    the first four, is kept though it is a digit; byte 4, the hexadecimal
    digit [a], becomes ['*']; byte 5, [-], is kept, not being one; byte 6, of
    the last five, is kept. *)
Lemma obscureKey_spec_witness :
  GoString.len (obscureKey "0123a-6789f") = 11%nat
  /\ GoString.bytes (obscureKey "0123a-6789f") !! 3%nat = Some "3"%char
  /\ GoString.bytes (obscureKey "0123a-6789f") !! 4%nat = Some "*"%char
  /\ GoString.bytes (obscureKey "0123a-6789f") !! 5%nat = Some "-"%char
  /\ GoString.bytes (obscureKey "0123a-6789f") !! 6%nat = Some "6"%char
  /\ obscureKey "abcdef12" = "abcdef12".
Proof.
  destruct (obscureKey_spec "0123a-6789f") as (Hlen & _ & Hlong).
  destruct (obscureKey_spec "abcdef12") as (_ & Hshort & _).
  assert (H : (8 < GoString.len "0123a-6789f")%nat) by (vm_compute; lia).
  split; [exact Hlen|].
  split; [exact (Hlong H 3%nat "3"%char eq_refl)|].
  split; [exact (Hlong H 4%nat "a"%char eq_refl)|].
  split; [exact (Hlong H 5%nat "-"%char eq_refl)|].
  split; [exact (Hlong H 6%nat "6"%char eq_refl)|].
  apply Hshort. vm_compute. lia.
Defined.

Example obscureKey_sdk :
  obscureKey "sdk-12345678-abcd-ef01-2345-6789abcdef01" = "sdk-********-****-****-****-*******def01".
Proof. reflexivity. Qed.
Example obscureKey_short : obscureKey "abcdef12" = "abcdef12".
Proof. reflexivity. Qed.
Example obscureKey_nine : obscureKey "abcdef123" = "abcdef123".
Proof. reflexivity. Qed.
Example obscureKey_ten : obscureKey "0123x56789" = "0123x56789".
Proof. reflexivity. Qed.
Example obscureKey_eleven : obscureKey "0123a-6789f" = "0123*-6789f".
Proof. reflexivity. Qed.

(** ** Request validation *)

(** A request that decodes and whose hash is accepted passes validation; the
    response writer is not touched. *)
Lemma getClientSideUserProperties_accepted {R} (lib : Lib.t) (clientCtx : EnvContext.t)
    (kind : sdkKind) (req : Request.t) (user : User.t) (s : HState) :
  decodes lib req user ->
  hashAccepted clientCtx kind req user = true ->
  @getClientSideUserProperties lib R clientCtx kind req s = (Next (user, true), s).
Proof.
  intros Hdec Hacc. unfold hashAccepted in Hacc.
  unfold getClientSideUserProperties, call, bind, ret, return_.
  destruct Hdec as [(Hm & Hct & Hu) | (Hm & Hu)].
  - rewrite Hm, Hct, Hu. cbn.
    destruct (EnvContext.IsSecureMode clientCtx && sdkKind_eqb kind jsClientSdk);
      [|reflexivity].
    cbn in Hacc. destruct (String.eqb (get (Request.Query req) "h") "");
      cbn in Hacc |- *; [discriminate|].
    rewrite Hacc. reflexivity.
  - apply String.eqb_neq in Hm. rewrite Hm, Hu. cbn.
    destruct (EnvContext.IsSecureMode clientCtx && sdkKind_eqb kind jsClientSdk);
      [|reflexivity].
    cbn in Hacc. destruct (String.eqb (get (Request.Query req) "h") "");
      cbn in Hacc |- *; [discriminate|].
    rewrite Hacc. reflexivity.
Qed.

Lemma getClientSideUserProperties_unsupported {R} (lib : Lib.t) (clientCtx : EnvContext.t)
    (kind : sdkKind) (req : Request.t)
    (h : gmap string string) (b : string) (tr : list Effect) :
  Request.Method req = "REPORT" ->
  get (Request.Header req) "Content-Type" <> "application/json" ->
  @getClientSideUserProperties lib R clientCtx kind req
    (MkHState (ResponseWriter.Build h None b) tr)
  = (Next (User.zero, false),
     MkHState (ResponseWriter.Build h (Some StatusUnsupportedMediaType)
                 (b +:+ "Content-Type must be application/json."))
              tr).
Proof.
  intros Hm Hct. apply String.eqb_neq in Hct.
  unfold getClientSideUserProperties, call, bind, ret, return_.
  rewrite Hm, Hct. reflexivity.
Qed.

Lemma getClientSideUserProperties_undecodable {R} (lib : Lib.t) (clientCtx : EnvContext.t)
    (kind : sdkKind) (req : Request.t) (user : User.t) (userDecodeErr : string)
    (h : gmap string string) (b : string) (tr : list Effect) :
  failsToDecode lib req user userDecodeErr ->
  @getClientSideUserProperties lib R clientCtx kind req
    (MkHState (ResponseWriter.Build h None b) tr)
  = (Next (user, false),
     MkHState (ResponseWriter.Build (<["Content-Type" := "application/json"]> h)
                 (Some StatusBadRequest) (b +:+ Lib.ErrorJsonMsg lib userDecodeErr))
              tr).
Proof.
  intros Hdec. unfold getClientSideUserProperties, call, bind, ret, return_.
  destruct Hdec as [(Hm & Hct & Hu) | (Hm & Hu)].
  - rewrite Hm, Hct, Hu. reflexivity.
  - apply String.eqb_neq in Hm. rewrite Hm, Hu. reflexivity.
Qed.

Lemma getClientSideUserProperties_secure_mode {R} (lib : Lib.t) (clientCtx : clientContext)
    (kind : sdkKind) (req : Request.t) (secure : bool) (s : HState) :
  kind <> jsClientSdk ->
  @getClientSideUserProperties lib R (env (withSecureMode secure clientCtx)) kind req s
  = @getClientSideUserProperties lib R (env clientCtx) kind req s.
Proof.
  intros Hkind. unfold getClientSideUserProperties.
  assert (sdkKind_eqb kind jsClientSdk = false) as ->
    by (destruct kind; [reflexivity | reflexivity | contradiction]).
  rewrite !andb_false_r. reflexivity.
Qed.

(** X1: secure mode binds the JS client only.  For the mobile and the server
    kind, the streaming handler that takes a user and the evaluation handler
    do on every request and every response writer exactly what they do when
    the environment's secure-mode setting is the other one: the parameter [h]
    is not read. *)
Theorem secure_mode_js_only (lib : Lib.t) (kind : sdkKind) (provider : StreamProvider)
    (clientCtx : clientContext) (req : Request.t) (valueOnly secure : bool)
    (s : HState) :
  kind <> jsClientSdk ->
  ServeHTTP (pingStreamHandlerWithUser lib kind provider
               (withSecureMode secure clientCtx) req) s
  = ServeHTTP (pingStreamHandlerWithUser lib kind provider clientCtx req) s
  /\ ServeHTTP (evaluateAllShared lib (withSecureMode secure clientCtx) req valueOnly kind) s
     = ServeHTTP (evaluateAllShared lib clientCtx req valueOnly kind) s.
Proof.
  intros Hkind. split.
  - unfold ServeHTTP, pingStreamHandlerWithUser, bind.
    destruct (Debug _ s) as [[[]|[]] s1]; [|reflexivity].
    rewrite (getClientSideUserProperties_secure_mode lib clientCtx kind req secure s1 Hkind).
    reflexivity.
  - unfold ServeHTTP, evaluateAllShared, bind.
    rewrite (getClientSideUserProperties_secure_mode lib clientCtx kind req secure s Hkind).
    reflexivity.
Qed.

Lemma secure_mode_js_only_witness :
  ServeHTTP (pingStreamHandlerWithUser Fake.lib mobileSdk PingStream
               (withSecureMode true (Scenario.jsContext false)) (Scenario.withUser []))
    Scenario.fresh
  = ServeHTTP (pingStreamHandlerWithUser Fake.lib mobileSdk PingStream
                 (Scenario.jsContext false) (Scenario.withUser []))
      Scenario.fresh
  /\ ServeHTTP (evaluateAllShared Fake.lib (withSecureMode true (Scenario.jsContext false))
                  (Scenario.withUser []) false mobileSdk)
       Scenario.fresh
     = ServeHTTP (evaluateAllShared Fake.lib (Scenario.jsContext false)
                    (Scenario.withUser []) false mobileSdk)
         Scenario.fresh.
Proof.
  apply (secure_mode_js_only Fake.lib mobileSdk PingStream (Scenario.jsContext false)
           (Scenario.withUser []) false true Scenario.fresh).
  discriminate.
Defined.

(** X2: a [REPORT] request whose [Content-Type] is not [application/json] is
    answered 415 with the plain text [Content-Type must be application/json.]
    by the streaming handler and by the evaluation handler, whatever its body,
    its hash and the environment: no header is set, the stream handler is not
    given the connection and no flag is evaluated. *)
Theorem report_requires_json (lib : Lib.t) (kind : sdkKind) (provider : StreamProvider)
    (clientCtx : clientContext) (req : Request.t) (valueOnly : bool)
    (h : gmap string string) (b : string) (tr : list Effect) :
  Request.Method req = "REPORT" ->
  get (Request.Header req) "Content-Type" <> "application/json" ->
  let s := MkHState (ResponseWriter.Build h None b) tr in
  let answer :=
    ResponseWriter.Build h (Some StatusUnsupportedMediaType)
      (b +:+ "Content-Type must be application/json.") in
  ServeHTTP (evaluateAllShared lib clientCtx req valueOnly kind) s = MkHState answer tr
  /\ ServeHTTP (pingStreamHandlerWithUser lib kind provider clientCtx req) s
     = MkHState answer
         (tr ++ [Logged LDebug "Application requested client-side ping stream" []]).
Proof.
  intros Hm Hct s answer. split.
  - unfold ServeHTTP, evaluateAllShared, bind. unfold s.
    rewrite (getClientSideUserProperties_unsupported lib (env clientCtx) kind req h b tr Hm Hct).
    reflexivity.
  - unfold ServeHTTP, pingStreamHandlerWithUser, bind, Debug, effect. unfold s.
    cbn [w trace].
    rewrite (getClientSideUserProperties_unsupported lib (env clientCtx) kind req h b _ Hm Hct).
    reflexivity.
Qed.

Lemma report_requires_json_witness :
  let req := Fake.request "REPORT" [("Content-Type", "text/plain")]
               [("h", Scenario.hashOfMe)] [("envId", "env-id")] "me" in
  let answer :=
    ResponseWriter.Build ∅ (Some StatusUnsupportedMediaType)
      ("" +:+ "Content-Type must be application/json.") in
  ServeHTTP (evaluateAllShared Fake.lib (Scenario.jsContext true) req false jsClientSdk)
    Scenario.fresh
  = MkHState answer []
  /\ ServeHTTP (pingStreamHandlerWithUser Fake.lib jsClientSdk PingStream
                  (Scenario.jsContext true) req)
       Scenario.fresh
     = MkHState answer
         ([] ++ [Logged LDebug "Application requested client-side ping stream" []]).
Proof.
  apply (report_requires_json Fake.lib jsClientSdk PingStream (Scenario.jsContext true)
           (Fake.request "REPORT" [("Content-Type", "text/plain")]
              [("h", Scenario.hashOfMe)] [("envId", "env-id")] "me")
           false ∅ "" []).
  - reflexivity.
  - vm_compute. discriminate.
Defined.

(** X3: a request whose user does not decode is answered 400 with
    [Content-Type: application/json] and the decoder's error as the JSON
    message, by both handlers and for every SDK kind; the hash is not looked
    at, the stream handler is not given the connection and no flag is
    evaluated. *)
Theorem undecodable_user_rejected (lib : Lib.t) (kind : sdkKind)
    (provider : StreamProvider) (clientCtx : clientContext) (req : Request.t)
    (valueOnly : bool) (user : User.t) (userDecodeErr : string)
    (h : gmap string string) (b : string) (tr : list Effect) :
  failsToDecode lib req user userDecodeErr ->
  let s := MkHState (ResponseWriter.Build h None b) tr in
  let answer :=
    ResponseWriter.Build (<["Content-Type" := "application/json"]> h)
      (Some StatusBadRequest) (b +:+ Lib.ErrorJsonMsg lib userDecodeErr) in
  ServeHTTP (evaluateAllShared lib clientCtx req valueOnly kind) s = MkHState answer tr
  /\ ServeHTTP (pingStreamHandlerWithUser lib kind provider clientCtx req) s
     = MkHState answer
         (tr ++ [Logged LDebug "Application requested client-side ping stream" []]).
Proof.
  intros Hdec s answer. split.
  - unfold ServeHTTP, evaluateAllShared, bind. unfold s.
    rewrite (getClientSideUserProperties_undecodable lib (env clientCtx) kind req
               user userDecodeErr h b tr Hdec).
    reflexivity.
  - unfold ServeHTTP, pingStreamHandlerWithUser, bind, Debug, effect. unfold s.
    cbn [w trace].
    rewrite (getClientSideUserProperties_undecodable lib (env clientCtx) kind req
               user userDecodeErr h b _ Hdec).
    reflexivity.
Qed.

Lemma undecodable_user_rejected_witness :
  let req := Fake.request "GET" [] [("h", Scenario.hashOfMe)] [("envId", "env-id")] "" in
  let answer :=
    ResponseWriter.Build (<["Content-Type" := "application/json"]> ∅)
      (Some StatusBadRequest) ("" +:+ Lib.ErrorJsonMsg Fake.lib "illegal base64 data") in
  ServeHTTP (evaluateAllShared Fake.lib (Scenario.jsContext true) req true jsClientSdk)
    Scenario.fresh
  = MkHState answer []
  /\ ServeHTTP (pingStreamHandlerWithUser Fake.lib jsClientSdk PingStream
                  (Scenario.jsContext true) req)
       Scenario.fresh
     = MkHState answer
         ([] ++ [Logged LDebug "Application requested client-side ping stream" []]).
Proof.
  apply (undecodable_user_rejected Fake.lib jsClientSdk PingStream (Scenario.jsContext true)
           (Fake.request "GET" [] [("h", Scenario.hashOfMe)] [("envId", "env-id")] "")
           true User.zero "illegal base64 data" ∅ "" []).
  right. split; [discriminate | reflexivity].
Defined.

(** ** The evaluation handler after validation *)

(** X4: while neither the SDK client nor the data store is initialized, a
    request that passed validation is answered 503 with
    [Content-Type: application/json] and the message [Service not
    initialized]; a warning is logged, the store is not read and no flag is
    evaluated.  This comes before the check of the user's key. *)
Theorem evaluation_service_unavailable (lib : Lib.t) (clientCtx : clientContext)
    (req : Request.t) (valueOnly : bool) (kind : sdkKind) (user : User.t)
    (h : gmap string string) (b : string) (tr : list Effect) :
  decodes lib req user ->
  hashAccepted (env clientCtx) kind req user = true ->
  LDClient.Initialized (EnvContext.GetClient (env clientCtx)) = false ->
  DataStore.IsInitialized (EnvContext.GetStore (env clientCtx)) = false ->
  ServeHTTP (evaluateAllShared lib clientCtx req valueOnly kind)
    (MkHState (ResponseWriter.Build h None b) tr)
  = MkHState
      (ResponseWriter.Build (<["Content-Type" := "application/json"]> h)
         (Some StatusServiceUnavailable)
         (b +:+ Lib.ErrorJsonMsg lib "Service not initialized"))
      (tr ++ [Logged LWarn
                "Called before client initialization. Feature store not available" []]).
Proof.
  intros Hdec Hacc Hclient Hstore.
  unfold ServeHTTP, evaluateAllShared, bind.
  rewrite (getClientSideUserProperties_accepted lib (env clientCtx) kind req user _ Hdec Hacc).
  cbn [fst snd negb ret return_].
  unfold Header_Set. cbn [w ResponseWriter.Code ResponseWriter.Header ResponseWriter.Body trace].
  rewrite Hclient, Hstore. reflexivity.
Qed.

Lemma evaluation_service_unavailable_witness :
  ServeHTTP (evaluateAllShared ScenarioService.lib
               (ScenarioService.context false (ScenarioService.failingStore false))
               (ScenarioService.report "") false mobileSdk)
    (MkHState (ResponseWriter.Build ∅ None "") [])
  = MkHState
      (ResponseWriter.Build (<["Content-Type" := "application/json"]> ∅)
         (Some StatusServiceUnavailable)
         ("" +:+ Lib.ErrorJsonMsg ScenarioService.lib "Service not initialized"))
      ([] ++ [Logged LWarn
                "Called before client initialization. Feature store not available" []]).
Proof.
  apply (evaluation_service_unavailable ScenarioService.lib
           (ScenarioService.context false (ScenarioService.failingStore false))
           (ScenarioService.report "") false mobileSdk (User.Build "" VNull) ∅ "" []).
  - left. repeat split; reflexivity.
  - reflexivity.
  - reflexivity.
  - reflexivity.
Defined.

(** X5: a request that passed validation, for a user with a key, is served
    as soon as the SDK client or the data store is initialized: the answer is
    200 with [Content-Type: application/json] and the marshalled response,
    which holds the evaluation of the flags the SDK kind may see; these are
    evaluated once each, in the order of the store's listing.  When only the
    store is initialized, a warning is logged first. *)
Theorem evaluation_served (lib : Lib.t) (clientCtx : clientContext) (req : Request.t)
    (valueOnly : bool) (kind : sdkKind) (user : User.t)
    (items : list KeyedItemDescriptor.t)
    (h : gmap string string) (b : string) (tr : list Effect) :
  decodes lib req user ->
  hashAccepted (env clientCtx) kind req user = true ->
  LDClient.Initialized (EnvContext.GetClient (env clientCtx)) = true
  \/ DataStore.IsInitialized (EnvContext.GetStore (env clientCtx)) = true ->
  User.GetKey user <> "" ->
  DataStore.GetAll (EnvContext.GetStore (env clientCtx)) Features = Ok items ->
  let withReasons := String.eqb (get (Request.Query req) "withReasons") "true" in
  let store := EnvContext.GetStore (env clientCtx) in
  let response :=
    fold_left
      (fun m flag =>
         <[FeatureFlag.Key flag := evalEntry lib store user valueOnly withReasons flag]> m)
      (includedFlags kind items) ∅ in
  let warning :=
    if LDClient.Initialized (EnvContext.GetClient (env clientCtx)) then []
    else [Logged LWarn
            "Called before client initialization; using last known values from feature store"
            []] in
  ServeHTTP (evaluateAllShared lib clientCtx req valueOnly kind)
    (MkHState (ResponseWriter.Build h None b) tr)
  = MkHState
      (ResponseWriter.Build (<["Content-Type" := "application/json"]> h) (Some StatusOK)
         (b +:+ match Lib.json_Marshal lib (EResponse response) with
                | Ok bytes => bytes
                | Error _ => ""
                end))
      (tr ++ warning
          ++ [Logged LDebug "Application requested client-side flags (%s) for user: %s"
                [Lib.sdkKind_String lib kind; User.GetKey user]]
          ++ List.map (fun flag => Evaluated (FeatureFlag.Key flag) (User.GetKey user))
               (includedFlags kind items)).
Proof.
  intros Hdec Hacc Hinit Hkey Hall withReasons store response warning.
  unfold ServeHTTP, evaluateAllShared, bind.
  rewrite (getClientSideUserProperties_accepted lib (env clientCtx) kind req user _ Hdec Hacc).
  cbn [fst snd negb ret return_].
  unfold Header_Set. cbn [w ResponseWriter.Code ResponseWriter.Header ResponseWriter.Body trace].
  apply String.eqb_neq in Hkey. unfold warning.
  destruct (LDClient.Initialized (EnvContext.GetClient (env clientCtx))) eqn:Hclient.
  - cbn [negb ret]. rewrite Hkey.
    unfold Debugf, effect. cbn [w trace ret].
    fold store. unfold store at 1. rewrite Hall.
    rewrite evaluateItems_run. cbn -[includedFlags evalResult].
    rewrite <- app_assoc. reflexivity.
  - destruct Hinit as [Hinit | Hinit]; [discriminate|].
    cbn [negb]. rewrite Hinit. unfold Warn, effect. cbn [w trace ret].
    rewrite Hkey.
    unfold Debugf, effect. cbn [w trace ret].
    fold store. unfold store at 1. rewrite Hall.
    rewrite evaluateItems_run. cbn -[includedFlags evalResult].
    rewrite <- !app_assoc. reflexivity.
Qed.

Lemma evaluation_served_witness :
  let clientCtx :=
    ScenarioService.context false (ScenarioPoll.storeListing ScenarioPoll.data1) in
  let req := ScenarioService.report "me" in
  let user := User.Build "me" VNull in
  let withReasons := String.eqb (get (Request.Query req) "withReasons") "true" in
  let store := EnvContext.GetStore (env clientCtx) in
  let response :=
    fold_left
      (fun m flag =>
         <[FeatureFlag.Key flag :=
             evalEntry ScenarioService.lib store user true withReasons flag]> m)
      (includedFlags mobileSdk ScenarioPoll.data1) ∅ in
  let warning :=
    if LDClient.Initialized (EnvContext.GetClient (env clientCtx)) then []
    else [Logged LWarn
            "Called before client initialization; using last known values from feature store"
            []] in
  ServeHTTP (evaluateAllShared ScenarioService.lib clientCtx req true mobileSdk)
    (MkHState (ResponseWriter.Build ∅ None "") [])
  = MkHState
      (ResponseWriter.Build (<["Content-Type" := "application/json"]> ∅) (Some StatusOK)
         ("" +:+ match Lib.json_Marshal ScenarioService.lib (EResponse response) with
                 | Ok bytes => bytes
                 | Error _ => ""
                 end))
      ([] ++ warning
          ++ [Logged LDebug "Application requested client-side flags (%s) for user: %s"
                [Lib.sdkKind_String ScenarioService.lib mobileSdk; User.GetKey user]]
          ++ List.map (fun flag => Evaluated (FeatureFlag.Key flag) (User.GetKey user))
               (includedFlags mobileSdk ScenarioPoll.data1)).
Proof.
  apply (evaluation_served ScenarioService.lib
           (ScenarioService.context false (ScenarioPoll.storeListing ScenarioPoll.data1))
           (ScenarioService.report "me") true mobileSdk (User.Build "me" VNull)
           ScenarioPoll.data1 ∅ "" []).
  - left. repeat split; reflexivity.
  - reflexivity.
  - right. reflexivity.
  - discriminate.
  - reflexivity.
Defined.

(** X6: a request that passed validation for a user whose key is empty is
    answered 400 with the message [User must have a 'key' attribute], on an
    initialized client or store; the store is not read and no flag is
    evaluated. *)
Theorem evaluation_requires_user_key (lib : Lib.t) (clientCtx : clientContext)
    (req : Request.t) (valueOnly : bool) (kind : sdkKind) (user : User.t)
    (h : gmap string string) (b : string) (tr : list Effect) :
  decodes lib req user ->
  hashAccepted (env clientCtx) kind req user = true ->
  LDClient.Initialized (EnvContext.GetClient (env clientCtx)) = true
  \/ DataStore.IsInitialized (EnvContext.GetStore (env clientCtx)) = true ->
  User.GetKey user = "" ->
  let warning :=
    if LDClient.Initialized (EnvContext.GetClient (env clientCtx)) then []
    else [Logged LWarn
            "Called before client initialization; using last known values from feature store"
            []] in
  ServeHTTP (evaluateAllShared lib clientCtx req valueOnly kind)
    (MkHState (ResponseWriter.Build h None b) tr)
  = MkHState
      (ResponseWriter.Build (<["Content-Type" := "application/json"]> h)
         (Some StatusBadRequest)
         (b +:+ Lib.ErrorJsonMsg lib "User must have a 'key' attribute"))
      (tr ++ warning).
Proof.
  intros Hdec Hacc Hinit Hkey warning.
  unfold ServeHTTP, evaluateAllShared, bind.
  rewrite (getClientSideUserProperties_accepted lib (env clientCtx) kind req user _ Hdec Hacc).
  cbn [fst snd negb ret return_].
  unfold Header_Set. cbn [w ResponseWriter.Code ResponseWriter.Header ResponseWriter.Body trace].
  unfold warning.
  destruct (LDClient.Initialized (EnvContext.GetClient (env clientCtx))) eqn:Hclient.
  - cbn [negb ret]. rewrite Hkey. cbn. rewrite app_nil_r. reflexivity.
  - destruct Hinit as [Hinit | Hinit]; [discriminate|].
    cbn [negb]. rewrite Hinit. unfold Warn, effect. cbn [w trace ret].
    rewrite Hkey. reflexivity.
Qed.

Lemma evaluation_requires_user_key_witness :
  let clientCtx :=
    ScenarioService.context true (ScenarioPoll.storeListing ScenarioPoll.data1) in
  let warning :=
    if LDClient.Initialized (EnvContext.GetClient (env clientCtx)) then []
    else [Logged LWarn
            "Called before client initialization; using last known values from feature store"
            []] in
  ServeHTTP (evaluateAllShared ScenarioService.lib clientCtx (ScenarioService.report "")
               false mobileSdk)
    (MkHState (ResponseWriter.Build ∅ None "") [])
  = MkHState
      (ResponseWriter.Build (<["Content-Type" := "application/json"]> ∅)
         (Some StatusBadRequest)
         ("" +:+ Lib.ErrorJsonMsg ScenarioService.lib "User must have a 'key' attribute"))
      ([] ++ warning).
Proof.
  apply (evaluation_requires_user_key ScenarioService.lib
           (ScenarioService.context true (ScenarioPoll.storeListing ScenarioPoll.data1))
           (ScenarioService.report "") false mobileSdk (User.Build "" VNull) ∅ "" []).
  - left. repeat split; reflexivity.
  - reflexivity.
  - left. reflexivity.
  - reflexivity.
Defined.

(** X7: when the store cannot list its flags, a request that passed
    validation for a user with a key is answered 500 with the store's error in
    the JSON message, as soon as the SDK client or the data store is
    initialized; a warning with the error is logged after the debug line and
    no flag is evaluated.  When only the store is initialized, the warning on
    the client comes first. *)
Theorem evaluation_store_error (lib : Lib.t) (clientCtx : clientContext)
    (req : Request.t) (valueOnly : bool) (kind : sdkKind) (user : User.t)
    (err : string) (h : gmap string string) (b : string) (tr : list Effect) :
  decodes lib req user ->
  hashAccepted (env clientCtx) kind req user = true ->
  LDClient.Initialized (EnvContext.GetClient (env clientCtx)) = true
  \/ DataStore.IsInitialized (EnvContext.GetStore (env clientCtx)) = true ->
  User.GetKey user <> "" ->
  DataStore.GetAll (EnvContext.GetStore (env clientCtx)) Features = Error err ->
  let warning :=
    if LDClient.Initialized (EnvContext.GetClient (env clientCtx)) then []
    else [Logged LWarn
            "Called before client initialization; using last known values from feature store"
            []] in
  ServeHTTP (evaluateAllShared lib clientCtx req valueOnly kind)
    (MkHState (ResponseWriter.Build h None b) tr)
  = MkHState
      (ResponseWriter.Build (<["Content-Type" := "application/json"]> h)
         (Some StatusInternalServerError)
         (b +:+ Lib.ErrorJsonMsg lib ("Error fetching flags from feature store: " +:+ err)))
      (tr ++ warning
          ++ [Logged LDebug "Application requested client-side flags (%s) for user: %s"
                [Lib.sdkKind_String lib kind; User.GetKey user];
              Logged LWarn
                "Unable to fetch flags from feature store. Returning nil map. Error: %s"
                [err]]).
Proof.
  intros Hdec Hacc Hinit Hkey Hall warning.
  unfold ServeHTTP, evaluateAllShared, bind.
  rewrite (getClientSideUserProperties_accepted lib (env clientCtx) kind req user _ Hdec Hacc).
  cbn [fst snd negb ret return_].
  unfold Header_Set. cbn [w ResponseWriter.Code ResponseWriter.Header ResponseWriter.Body trace].
  apply String.eqb_neq in Hkey. unfold warning.
  destruct (LDClient.Initialized (EnvContext.GetClient (env clientCtx))) eqn:Hclient.
  - cbn [negb ret]. rewrite Hkey.
    unfold Debugf, effect. cbn [w trace ret].
    rewrite Hall. cbn. rewrite <- app_assoc. reflexivity.
  - destruct Hinit as [Hinit | Hinit]; [discriminate|].
    cbn [negb]. rewrite Hinit. unfold Warn, effect. cbn [w trace ret].
    rewrite Hkey.
    unfold Debugf, effect. cbn [w trace ret].
    rewrite Hall. cbn. rewrite <- !app_assoc. reflexivity.
Qed.

(** The store is initialized and fails to list its flags, the client is not
    initialized: both warnings are logged. *)
Lemma evaluation_store_error_witness :
  let clientCtx := ScenarioService.context false (ScenarioService.failingStore true) in
  let warning :=
    if LDClient.Initialized (EnvContext.GetClient (env clientCtx)) then []
    else [Logged LWarn
            "Called before client initialization; using last known values from feature store"
            []] in
  ServeHTTP (evaluateAllShared ScenarioService.lib clientCtx (ScenarioService.report "me")
               false mobileSdk)
    (MkHState (ResponseWriter.Build ∅ None "") [])
  = MkHState
      (ResponseWriter.Build (<["Content-Type" := "application/json"]> ∅)
         (Some StatusInternalServerError)
         ("" +:+ Lib.ErrorJsonMsg ScenarioService.lib
                   ("Error fetching flags from feature store: " +:+ "connection refused")))
      ([] ++ warning
          ++ [Logged LDebug "Application requested client-side flags (%s) for user: %s"
                [Lib.sdkKind_String ScenarioService.lib mobileSdk;
                 User.GetKey (User.Build "me" VNull)];
              Logged LWarn
                "Unable to fetch flags from feature store. Returning nil map. Error: %s"
                ["connection refused"]]).
Proof.
  apply (evaluation_store_error ScenarioService.lib
           (ScenarioService.context false (ScenarioService.failingStore true))
           (ScenarioService.report "me") false mobileSdk (User.Build "me" VNull)
           "connection refused" ∅ "" []).
  - left. repeat split; reflexivity.
  - reflexivity.
  - right. reflexivity.
  - discriminate.
  - reflexivity.
Defined.

(** ** The streaming handler that takes a user *)

(** X8: once the user is validated, the streaming handler that takes a user
    is the ping stream handler: on a request whose user decodes and whose hash
    is accepted it logs the same line and hands the connection to the same
    stream handler, for every SDK kind and every response writer. *)
Theorem ping_with_user_is_ping (lib : Lib.t) (kind : sdkKind) (provider : StreamProvider)
    (clientCtx : clientContext) (req : Request.t) (user : User.t) (s : HState) :
  decodes lib req user ->
  hashAccepted (env clientCtx) kind req user = true ->
  ServeHTTP (pingStreamHandlerWithUser lib kind provider clientCtx req) s
  = ServeHTTP (pingStreamHandler provider clientCtx req) s.
Proof.
  intros Hdec Hacc. unfold ServeHTTP, pingStreamHandlerWithUser, pingStreamHandler, bind.
  destruct (Debug _ s) as [[[]|[]] s1]; [|reflexivity].
  rewrite (getClientSideUserProperties_accepted lib (env clientCtx) kind req user s1
             Hdec Hacc).
  reflexivity.
Qed.

Lemma ping_with_user_is_ping_witness :
  ServeHTTP (pingStreamHandlerWithUser Fake.lib jsClientSdk PingStream
               (Scenario.jsContext true) (Scenario.withUser [("h", Scenario.hashOfMe)]))
    Scenario.fresh
  = ServeHTTP (pingStreamHandler PingStream (Scenario.jsContext true)
                 (Scenario.withUser [("h", Scenario.hashOfMe)]))
      Scenario.fresh.
Proof.
  apply (ping_with_user_is_ping Fake.lib jsClientSdk PingStream (Scenario.jsContext true)
           (Scenario.withUser [("h", Scenario.hashOfMe)]) Scenario.me Scenario.fresh).
  - right. split; [discriminate | reflexivity].
  - vm_compute. reflexivity.
Defined.

(** ** The evaluation response *)

Lemma includedFlags_intro (kind : sdkKind) (items : list KeyedItemDescriptor.t)
    (item : KeyedItemDescriptor.t) (flag : FeatureFlag.t) :
  In item items ->
  ItemDescriptor.Item (KeyedItemDescriptor.Item item) = Some (ItemFlag flag) ->
  (kind = jsClientSdk -> FeatureFlag.ClientSide flag = true) ->
  In flag (includedFlags kind items).
Proof.
  intros Hin Hflag Hside. unfold includedFlags. apply in_flat_map.
  exists item. split; [exact Hin|]. rewrite Hflag.
  destruct kind; cbn; try (left; reflexivity).
  rewrite (Hside eq_refl). left. reflexivity.
Qed.

Lemma fold_insert_is_Some (entry : FeatureFlag.t -> EvalEntry)
    (flags : list FeatureFlag.t) (response : gmap string EvalEntry) (key : string) :
  is_Some (fold_left (fun m flag => <[FeatureFlag.Key flag := entry flag]> m)
             flags response !! key)
  <-> is_Some (response !! key)
      \/ exists flag, In flag flags /\ FeatureFlag.Key flag = key.
Proof.
  revert response. induction flags as [|flag rest IH]; intros response.
  - cbn. split; [intros H; left; exact H | intros [H | (f & [] & _)]; exact H].
  - cbn [fold_left]. rewrite IH. split.
    + intros [H | (f & Hin & Hk)].
      * destruct (decide (FeatureFlag.Key flag = key)) as [E|E].
        -- right. exists flag. split; [left; reflexivity | exact E].
        -- rewrite lookup_insert_ne in H by exact E. left. exact H.
      * right. exists f. split; [right; exact Hin | exact Hk].
    + intros [H | (f & [<- | Hin] & Hk)].
      * left. destruct (decide (FeatureFlag.Key flag = key)) as [E|E].
        -- subst key. rewrite lookup_insert_eq. eexists. reflexivity.
        -- rewrite lookup_insert_ne by exact E. exact H.
      * left. subst key. rewrite lookup_insert_eq. eexists. reflexivity.
      * right. exists f. split; assumption.
Qed.

(** X9: the loop of the evaluation handler ends with a response that has an
    entry under a key exactly when the store's listing holds a flag with that
    key which the SDK kind may see: any flag for the mobile and the server
    kind, a flag marked client-side for the JS client.  Segments and the
    tombstones of deleted items give no entry, under either schema. *)
Theorem evaluateItems_keys (lib : Lib.t) (store : DataStore.t) (user : User.t)
    (valueOnly withReasons : bool) (kind : sdkKind)
    (items : list KeyedItemDescriptor.t) (s : HState) :
  exists response s',
    @evaluateItems lib unit store user valueOnly withReasons kind items ∅ s
    = (Next response, s')
    /\ forall key,
         is_Some (response !! key)
         <-> exists item flag,
               In item items
               /\ ItemDescriptor.Item (KeyedItemDescriptor.Item item) = Some (ItemFlag flag)
               /\ FeatureFlag.Key flag = key
               /\ (kind = jsClientSdk -> FeatureFlag.ClientSide flag = true).
Proof.
  eexists. eexists. split; [apply evaluateItems_run|].
  intros key.
  rewrite (fold_insert_is_Some (evalEntry lib store user valueOnly withReasons)).
  split.
  - intros [H | (flag & Hin & Hk)].
    + rewrite lookup_empty in H. destruct H as [? H]. discriminate H.
    + apply includedFlags_In in Hin. destruct Hin as ((item & Hin & Hflag) & Hside).
      exists item, flag. repeat split; assumption.
  - intros (item & flag & Hin & Hflag & Hk & Hside). right.
    exists flag. split; [|exact Hk].
    apply (includedFlags_intro kind items item flag Hin Hflag Hside).
Qed.

Lemma fold_insert_valueOf (lib : Lib.t) (store : DataStore.t) (user : User.t)
    (withReasons withReasons' : bool) (flags : list FeatureFlag.t)
    (response : gmap string EvalEntry) :
  fold_left
    (fun m flag =>
       <[FeatureFlag.Key flag := evalEntry lib store user true withReasons flag]> m)
    flags (valueOf <$> response)
  = valueOf <$>
      fold_left
        (fun m flag =>
           <[FeatureFlag.Key flag := evalEntry lib store user false withReasons' flag]> m)
        flags response.
Proof.
  revert response. induction flags as [|flag rest IH]; intros response.
  - reflexivity.
  - cbn [fold_left]. rewrite <- IH. rewrite fmap_insert. reflexivity.
Qed.

(** X10: the two schemas agree.  On the same store listing and user, the loop
    run for the legacy schema ([valueOnly]) and the loop run for the new one
    evaluate the same flags, and the legacy response is the new response with
    every entry cut down to its [value]: the same keys, and under each key the
    value that the new schema reports for it, with or without reasons. *)
Theorem schemas_agree (lib : Lib.t) (store : DataStore.t) (user : User.t)
    (withReasons withReasons' : bool) (kind : sdkKind)
    (items : list KeyedItemDescriptor.t) (s : HState) :
  exists legacy response s',
    @evaluateItems lib unit store user true withReasons kind items ∅ s
    = (Next legacy, s')
    /\ @evaluateItems lib unit store user false withReasons' kind items ∅ s
       = (Next response, s')
    /\ legacy = valueOf <$> response.
Proof.
  eexists. eexists. eexists. split; [apply evaluateItems_run|].
  split; [apply evaluateItems_run|].
  rewrite <- (fold_insert_valueOf lib store user withReasons withReasons').
  rewrite fmap_empty. reflexivity.
Qed.

(** ** Polling: Etags and caching headers *)

Lemma to_int_proper (n : Z) : Z.to_int n <> Decimal.Pos Decimal.Nil
                              /\ Z.to_int n <> Decimal.Neg Decimal.Nil.
Proof.
  destruct n as [|p|p]; cbn; split; try discriminate;
    intros H; injection H as H; exact (Unsigned.to_uint_nonnil p H).
Qed.

(** [strconv.Itoa] writes different numbers differently. *)
Lemma Itoa_inj (a b : Z) : Itoa a = Itoa b -> a = b.
Proof.
  unfold Itoa. intros H. apply DecimalZ.to_int_inj.
  apply (f_equal NilZero.int_of_string) in H.
  destruct (to_int_proper a) as [Ha1 Ha2]. destruct (to_int_proper b) as [Hb1 Hb2].
  rewrite (NilZero.isi _ Ha1 Ha2), (NilZero.isi _ Hb1 Hb2) in H.
  injection H as H. exact H.
Qed.

Lemma append_inj_r (p a b : string) : p +:+ a = p +:+ b -> a = b.
Proof.
  induction p as [|c p IH]; cbn; intros H; [exact H|].
  injection H as H. exact (IH H).
Qed.

(** X11: the Etag of one flag or segment is its version.  A client that
    revalidates with the Etag [relay-<cached>], the one the relay gives for
    version [cached] of an item, is answered 304, with no header and no body,
    exactly when the store still holds that version; when the store holds
    another version it is answered 200 with the item and the Etag of that
    version. *)
Theorem item_etag_is_its_version (lib : Lib.t) (clientContext : EnvContext.t)
    (kind : DataKind) (req : Request.t) (item : ItemDescriptor.t) (entity : Item)
    (bytes : string) (cached : Z)
    (h : gmap string string) (b : string) (tr : list Effect) :
  DataStore.Get (EnvContext.GetStore clientContext) kind (get (Request.Vars req) "key")
  = Ok item ->
  ItemDescriptor.Item item = Some entity ->
  Lib.json_Marshal lib (EItem entity) = Ok bytes ->
  get (Request.Header req) "If-None-Match" = "relay-" +:+ Itoa cached ->
  ServeHTTP (pollFlagOrSegment lib clientContext kind req)
    (MkHState (ResponseWriter.Build h None b) tr)
  = if cached =? ItemDescriptor.Version item then
      MkHState (ResponseWriter.Build h (Some StatusNotModified) b) tr
    else
      MkHState
        (ResponseWriter.Build
           (cacheableHeaders lib clientContext
              ("relay-" +:+ Itoa (ItemDescriptor.Version item)) h)
           (Some StatusOK) (b +:+ bytes))
        tr.
Proof.
  intros Hget Hitem Hmarshal Hcached.
  unfold ServeHTTP, pollFlagOrSegment. rewrite Hget, Hitem.
  rewrite writeCacheableJSONResponse_run. cbn [snd]. rewrite Hcached, Hmarshal.
  destruct (Z.eqb_spec cached (ItemDescriptor.Version item)) as [E|E].
  - rewrite E, String.eqb_refl. reflexivity.
  - destruct (String.eqb_spec ("relay-" +:+ Itoa cached)
                ("relay-" +:+ Itoa (ItemDescriptor.Version item))) as [E'|E'];
      [|reflexivity].
    apply append_inj_r, Itoa_inj in E'. contradiction.
Qed.

Lemma item_etag_is_its_version_witness :
  let clientContext := env (ScenarioPoll.context ScenarioPoll.data1) in
  let req := Fake.request "GET" [("If-None-Match", "relay-1")] [] [("key", "b")] "" in
  ServeHTTP (pollFlagOrSegment Fake.lib clientContext Features req)
    (MkHState (ResponseWriter.Build ∅ None "") [])
  = if 1 =? 2 then
      MkHState (ResponseWriter.Build ∅ (Some StatusNotModified) "") []
    else
      MkHState
        (ResponseWriter.Build
           (cacheableHeaders Fake.lib clientContext ("relay-" +:+ Itoa 2) ∅)
           (Some StatusOK) ("" +:+ "{}"))
        [].
Proof.
  apply (item_etag_is_its_version Fake.lib (env (ScenarioPoll.context ScenarioPoll.data1))
           Features
           (Fake.request "GET" [("If-None-Match", "relay-1")] [] [("key", "b")] "")
           (ItemDescriptor.Build 2
              (Some (ItemFlag (FeatureFlag.Build "b" 2 false false 0 (VString "blue")))))
           (ItemFlag (FeatureFlag.Build "b" 2 false false 0 (VString "blue")))
           "{}" 1 ∅ "" []);
    reflexivity.
Defined.

(** X12: a cacheable response that is written in full (the entity marshals
    and the request does not revalidate with the current Etag) is a 200 with
    [Content-Type: application/json] and the Etag.  It carries
    [Vary: Authorization] and an [Expires] of now plus the TTL when the
    environment's TTL is positive; with a TTL of zero or less it leaves both
    headers as they were, so a response that had none has no expiry. *)
Theorem cacheable_response_expiry (lib : Lib.t) (req : Request.t)
    (clientContext : EnvContext.t) (entity : Entity) (etagValue bytes : string)
    (h : gmap string string) (b : string) (tr : list Effect) :
  Lib.json_Marshal lib entity = Ok bytes ->
  get (Request.Header req) "If-None-Match" <> "relay-" +:+ etagValue ->
  let s' := snd (@writeCacheableJSONResponse lib unit req clientContext entity etagValue
                   (MkHState (ResponseWriter.Build h None b) tr)) in
  let headers := ResponseWriter.Header (w s') in
  let ttl := EnvContext.GetTTL clientContext in
  ResponseWriter.Code (w s') = Some StatusOK
  /\ ResponseWriter.Body (w s') = b +:+ bytes
  /\ trace s' = tr
  /\ headers !! "Content-Type" = Some "application/json"
  /\ headers !! "Etag" = Some ("relay-" +:+ etagValue)
  /\ (0 < ttl ->
      headers !! "Vary" = Some "Authorization"
      /\ headers !! "Expires" = Some (Lib.TimeFormat lib (Lib.time_Now lib + ttl)))
  /\ (ttl <= 0 ->
      headers !! "Vary" = h !! "Vary" /\ headers !! "Expires" = h !! "Expires").
Proof.
  intros Hmarshal Hcached s' headers ttl.
  unfold headers, s'. rewrite writeCacheableJSONResponse_run. cbn [snd].
  apply String.eqb_neq in Hcached. rewrite Hcached, Hmarshal.
  cbn [w trace ResponseWriter.Code ResponseWriter.Body ResponseWriter.Header].
  unfold cacheableHeaders. fold ttl.
  repeat split.
  - destruct (0 <? ttl); repeat (rewrite lookup_insert_ne by discriminate);
      apply lookup_insert_eq.
  - destruct (0 <? ttl); repeat (rewrite lookup_insert_ne by discriminate);
      apply lookup_insert_eq.
  - apply Z.ltb_lt in H. rewrite H.
    rewrite lookup_insert_ne by discriminate. apply lookup_insert_eq.
  - apply Z.ltb_lt in H. rewrite H. apply lookup_insert_eq.
  - apply Z.ltb_ge in H. rewrite H.
    repeat (rewrite lookup_insert_ne by discriminate). reflexivity.
  - apply Z.ltb_ge in H. rewrite H.
    repeat (rewrite lookup_insert_ne by discriminate). reflexivity.
Qed.

Lemma cacheable_response_expiry_witness :
  let clientContext :=
    Fake.environment false "sdk-key" (ScenarioPoll.storeListing ScenarioPoll.data1) 30 in
  let s' := snd (@writeCacheableJSONResponse Fake.lib unit (ScenarioPoll.poll [])
                   clientContext (EItems ∅) "1"
                   (MkHState (ResponseWriter.Build ∅ None "") [])) in
  let headers := ResponseWriter.Header (w s') in
  let ttl := EnvContext.GetTTL clientContext in
  ResponseWriter.Code (w s') = Some StatusOK
  /\ ResponseWriter.Body (w s') = "" +:+ "{}"
  /\ trace s' = []
  /\ headers !! "Content-Type" = Some "application/json"
  /\ headers !! "Etag" = Some ("relay-" +:+ "1")
  /\ (0 < ttl ->
      headers !! "Vary" = Some "Authorization"
      /\ headers !! "Expires"
         = Some (Lib.TimeFormat Fake.lib (Lib.time_Now Fake.lib + ttl)))
  /\ (ttl <= 0 ->
      headers !! "Vary" = (∅ : gmap string string) !! "Vary"
      /\ headers !! "Expires" = (∅ : gmap string string) !! "Expires").
Proof.
  apply (cacheable_response_expiry Fake.lib (ScenarioPoll.poll [])
           (Fake.environment false "sdk-key"
              (ScenarioPoll.storeListing ScenarioPoll.data1) 30)
           (EItems ∅) "1" "{}" ∅ "" []).
  - reflexivity.
  - vm_compute. discriminate.
Defined.

(** X13: when the entity does not marshal, a cacheable response is a 500
    that sets no header (no Etag, no Content-Type) and writes no body, and
    the error is logged; but a request that revalidates with the current Etag
    is still answered 304, since the Etag is compared before the entity is
    marshalled. *)
Theorem cacheable_response_marshal_error (lib : Lib.t) (req : Request.t)
    (clientContext : EnvContext.t) (entity : Entity) (etagValue err : string)
    (h : gmap string string) (b : string) (tr : list Effect) :
  Lib.json_Marshal lib entity = Error err ->
  let s := MkHState (ResponseWriter.Build h None b) tr in
  let cachedEtag := get (Request.Header req) "If-None-Match" in
  (cachedEtag = "relay-" +:+ etagValue ->
   snd (@writeCacheableJSONResponse lib unit req clientContext entity etagValue s)
   = MkHState (ResponseWriter.Build h (Some StatusNotModified) b) tr)
  /\ (cachedEtag <> "relay-" +:+ etagValue ->
      snd (@writeCacheableJSONResponse lib unit req clientContext entity etagValue s)
      = MkHState (ResponseWriter.Build h (Some StatusInternalServerError) b)
                 (tr ++ [Logged LError "Error marshaling JSON: %s" [err]])).
Proof.
  intros Hmarshal s cachedEtag. unfold s.
  rewrite writeCacheableJSONResponse_run. cbn [snd]. fold cachedEtag.
  rewrite Hmarshal. split; intros H.
  - rewrite H, String.eqb_refl. reflexivity.
  - apply String.eqb_neq in H. rewrite H. reflexivity.
Qed.

Lemma cacheable_response_marshal_error_witness :
  let req := ScenarioPoll.poll [("If-None-Match", "relay-1")] in
  let clientContext := env (ScenarioPoll.context ScenarioPoll.data1) in
  let s := MkHState (ResponseWriter.Build ∅ None "") [] in
  let cachedEtag := get (Request.Header req) "If-None-Match" in
  (cachedEtag = "relay-" +:+ "1" ->
   snd (@writeCacheableJSONResponse ScenarioMarshal.lib unit req clientContext
          (EItems ∅) "1" s)
   = MkHState (ResponseWriter.Build ∅ (Some StatusNotModified) "") [])
  /\ (cachedEtag <> "relay-" +:+ "1" ->
      snd (@writeCacheableJSONResponse ScenarioMarshal.lib unit req clientContext
             (EItems ∅) "1" s)
      = MkHState (ResponseWriter.Build ∅ (Some StatusInternalServerError) "")
                 ([] ++ [Logged LError "Error marshaling JSON: %s"
                           ["json: unsupported value"]])).
Proof.
  apply (cacheable_response_marshal_error ScenarioMarshal.lib
           (ScenarioPoll.poll [("If-None-Match", "relay-1")])
           (env (ScenarioPoll.context ScenarioPoll.data1))
           (EItems ∅) "1" "json: unsupported value" ∅ "" []).
  reflexivity.
Defined.

(** *** The polled data set *)

Lemma itemsCollectionToMap_fold (coll : list KeyedItemDescriptor.t)
    (ret : gmap string (option Item)) (key : string) :
  ~ In key (List.map KeyedItemDescriptor.Key coll) ->
  fold_left
    (fun ret item =>
       <[KeyedItemDescriptor.Key item :=
           ItemDescriptor.Item (KeyedItemDescriptor.Item item)]> ret)
    coll ret !! key
  = ret !! key.
Proof.
  revert ret. induction coll as [|item rest IH]; intros ret Hnot; [reflexivity|].
  cbn [fold_left]. rewrite IH.
  - apply lookup_insert_ne. intros E. apply Hnot. left. exact E.
  - intros Hin. apply Hnot. right. exact Hin.
Qed.

(** X14: the data set that [GET /sdk/flags] marshals has one entry for every
    key of the store's listing and no other.  When the keys of the listing are
    pairwise different, the entry under an item's key is that item's content;
    a deleted item (a tombstone) is listed with a nil entry, not left out. *)
Theorem itemsCollectionToMap_lookup (coll : list KeyedItemDescriptor.t) :
  List.NoDup (List.map KeyedItemDescriptor.Key coll) ->
  (forall item,
      In item coll ->
      itemsCollectionToMap coll !! KeyedItemDescriptor.Key item
      = Some (ItemDescriptor.Item (KeyedItemDescriptor.Item item)))
  /\ (forall key,
         itemsCollectionToMap coll !! key = None
         <-> ~ In key (List.map KeyedItemDescriptor.Key coll)).
Proof.
  unfold itemsCollectionToMap.
  assert (forall (ret : gmap string (option Item)),
             List.NoDup (List.map KeyedItemDescriptor.Key coll) ->
             (forall item,
                 In item coll ->
                 fold_left
                   (fun ret item =>
                      <[KeyedItemDescriptor.Key item :=
                          ItemDescriptor.Item (KeyedItemDescriptor.Item item)]> ret)
                   coll ret !! KeyedItemDescriptor.Key item
                 = Some (ItemDescriptor.Item (KeyedItemDescriptor.Item item)))) as Hin.
  { induction coll as [|x rest IH]; intros ret Hnd item Hitem; [destruct Hitem|].
    cbn [List.map] in Hnd. apply List.NoDup_cons_iff in Hnd. destruct Hnd as [Hx Hnd].
    cbn [fold_left]. destruct Hitem as [<- | Hitem].
    - rewrite itemsCollectionToMap_fold by exact Hx. apply lookup_insert_eq.
    - apply IH; assumption. }
  intros Hnd. split; [exact (Hin ∅ Hnd)|].
  intros key. split.
  - intros Hnone Hkey. apply in_map_iff in Hkey. destruct Hkey as (item & <- & Hitem).
    rewrite (Hin ∅ Hnd item Hitem) in Hnone. discriminate Hnone.
  - intros Hnot. rewrite itemsCollectionToMap_fold by exact Hnot. apply lookup_empty.
Qed.

Lemma itemsCollectionToMap_lookup_witness :
  let coll :=
    [ScenarioPoll.flag "a" 1 (VBool true);
     KeyedItemDescriptor.Build "gone" (ItemDescriptor.Build 3 None)] in
  (forall item,
      In item coll ->
      itemsCollectionToMap coll !! KeyedItemDescriptor.Key item
      = Some (ItemDescriptor.Item (KeyedItemDescriptor.Item item)))
  /\ (forall key,
         itemsCollectionToMap coll !! key = None
         <-> ~ In key (List.map KeyedItemDescriptor.Key coll)).
Proof.
  apply (itemsCollectionToMap_lookup
           [ScenarioPoll.flag "a" 1 (VBool true);
            KeyedItemDescriptor.Build "gone" (ItemDescriptor.Build 3 None)]).
  repeat constructor; cbn; intros H; repeat (destruct H as [H|H]; try discriminate H);
    exact H.
Defined.

(** *** The form of the data set's Etag *)

Lemma lowerhex_hexchar (n : Z) : 0 <= n < 16 -> lowerhex (Digest.hexchar n) = true.
Proof.
  intros [Hlo Hhi]. destruct n as [|p|p]; [reflexivity | | lia].
  do 4 (destruct p as [p|p|]; try reflexivity); lia.
Qed.

Lemma lowerhex_hex (bs : list Z) :
  List.Forall (fun b => 0 <= b < 256) bs ->
  List.Forall (fun c => lowerhex c = true) (GoString.bytes (Digest.hex bs)).
Proof.
  induction 1 as [|b rest Hb _ IH]; [constructor|].
  cbn. constructor; [|constructor; [|exact IH]].
  - apply lowerhex_hexchar. split; [apply Z.div_pos; lia|].
    apply Z.div_lt_upper_bound; lia.
  - apply lowerhex_hexchar. apply Z.mod_pos_bound. lia.
Qed.

Lemma to_bytes_range (x : Z) : List.Forall (fun b => 0 <= b < 256) (Word32.to_bytes x).
Proof.
  unfold Word32.to_bytes. repeat constructor; apply Z.mod_pos_bound; lia.
Qed.

Lemma SHA1_sum_bytes (msg : list Z) :
  List.length (SHA1.sum msg) = 20%nat
  /\ List.Forall (fun b => 0 <= b < 256) (SHA1.sum msg).
Proof.
  unfold SHA1.sum.
  destruct (fold_left SHA1.compress (Digest.blocks msg) SHA1.init).
  split; [reflexivity|].
  repeat (apply List.Forall_app; split); apply to_bytes_range.
Qed.

Lemma length_of_bytes (l : list ascii) :
  String.length (GoString.of_bytes l) = List.length l.
Proof.
  induction l as [|c l IH]; [reflexivity|].
  cbn [GoString.of_bytes string_of_list_ascii String.length List.length].
  f_equal. exact IH.
Qed.

Lemma length_bytes (s : string) : List.length (GoString.bytes s) = String.length s.
Proof.
  induction s as [|c s IH]; [reflexivity|].
  cbn [GoString.bytes list_ascii_of_string String.length List.length].
  f_equal. exact IH.
Qed.

(** X15: whatever the store lists (nothing at all included), the Etag value
    of the data set is 15 characters long and made of the digits [0-9a-f]; the
    Etag header of [GET /sdk/flags] is [relay-] followed by them. *)
Theorem flags_etag_form (data : list KeyedItemDescriptor.t) :
  String.length (flags_etag data) = 15%nat
  /\ List.Forall (fun c => lowerhex c = true) (GoString.bytes (flags_etag data)).
Proof.
  unfold flags_etag, GoString.prefix, GoString.slice.
  set (written := flat_map _ _).
  destruct (SHA1_sum_bytes written) as [Hlen Hrange].
  change (skipn 0 ?l) with l. split.
  - rewrite length_of_bytes, List.length_firstn, length_bytes, hex_length, Hlen.
    reflexivity.
  - rewrite bytes_of_bytes. apply Forall_take. apply lowerhex_hex. exact Hrange.
Qed.

(** ** Obscured keys *)

Lemma obscured_obscured (n i : nat) (c : ascii) :
  obscured n i (obscured n i c) = obscured n i c.
Proof.
  unfold obscured. destruct ((i <? 4)%nat || (n - 5 <=? i)%nat); [reflexivity|].
  destruct (hexdigit c) eqn:E; [reflexivity | rewrite E; reflexivity].
Qed.

(** X16: obscuring is idempotent: a key that was obscured once is left as it
    is by [obscureKey], so a line that obscures the same key twice shows what
    one pass shows. *)
Theorem obscureKey_idempotent (key : string) :
  obscureKey (obscureKey key) = obscureKey key.
Proof.
  destruct (Nat.ltb_spec 8 (GoString.len key)) as [H|H].
  - assert (Hlen : GoString.len (obscureKey key) = GoString.len key).
    { unfold GoString.len at 1. rewrite obscureKey_bytes by exact H. apply length_imap. }
    assert (Hb : GoString.bytes (obscureKey (obscureKey key))
                 = GoString.bytes (obscureKey key)).
    { rewrite (obscureKey_bytes (obscureKey key)) by (rewrite Hlen; exact H).
      rewrite Hlen. rewrite (obscureKey_bytes key) by exact H.
      apply list_eq. intros i. rewrite !list_lookup_imap.
      destruct (GoString.bytes key !! i) as [c|]; [|reflexivity].
      cbn. rewrite obscured_obscured. reflexivity. }
    apply (f_equal GoString.of_bytes) in Hb. rewrite !of_bytes_bytes in Hb. exact Hb.
  - assert (Hk : obscureKey key = key).
    { unfold obscureKey. fold (GoString.len key).
      destruct (Nat.ltb_spec 8 (GoString.len key)); [lia | reflexivity]. }
    rewrite !Hk. reflexivity.
Qed.

(** ** File data: updates of an environment *)

Lemma index_unbound (c : Credential) (r : Relay.t) :
  Relay.envsByCredential r !! c = None -> Relay.getEnvironment c r = None.
Proof. unfold Relay.getEnvironment. intros ->. reflexivity. Qed.

(** X17: an update for an environment that is not registered under its ID,
    or for which no update sink was captured, is only logged as an internal
    error that names the ID: the environments, the Credential Index and the
    captured sinks stay as they were, whatever keys and data the archive
    holds. *)
Theorem UpdateEnvironment_unknown (ae : ArchiveEnvironment.t) (a : relayFileDataActions.t) :
  let id := EnvironmentParams.EnvID (ArchiveEnvironment.Params ae) in
  let found := Relay.getEnvironment (EnvironmentID id) (relayFileDataActions.r a) in
  found = None \/ relayFileDataActions.envUpdates a !! id = @None string ->
  let a' := relayFileDataActions.UpdateEnvironment ae a in
  Relay.environments (relayFileDataActions.r a')
  = Relay.environments (relayFileDataActions.r a)
  /\ Relay.envsByCredential (relayFileDataActions.r a')
     = Relay.envsByCredential (relayFileDataActions.r a)
  /\ relayFileDataActions.envUpdates a' = relayFileDataActions.envUpdates a
  /\ Relay.loggers (relayFileDataActions.r a')
     = Relay.loggers (relayFileDataActions.r a)
         ++ [Logged LError
               (match found with
                | Some _ => logMsgInternalErrorNoUpdatesForEnv
                | None => logMsgInternalErrorUpdatedEnvNotFound
                end)
               [id]].
Proof.
  intros id found H a'. unfold a', relayFileDataActions.UpdateEnvironment.
  unfold found, id in *. cbv zeta.
  destruct (Relay.getEnvironment _ _) as [[env e]|].
  - destruct H as [H|H]; [discriminate H|]. rewrite H. repeat split.
  - repeat split.
Qed.

Lemma UpdateEnvironment_unknown_witness :
  let ae := ScenarioFileData.rotation "" in
  let a := relayFileDataActions.Build Relay.New ∅ in
  let a' := relayFileDataActions.UpdateEnvironment ae a in
  Relay.environments (relayFileDataActions.r a')
  = Relay.environments (relayFileDataActions.r a)
  /\ Relay.envsByCredential (relayFileDataActions.r a')
     = Relay.envsByCredential (relayFileDataActions.r a)
  /\ relayFileDataActions.envUpdates a' = relayFileDataActions.envUpdates a
  /\ Relay.loggers (relayFileDataActions.r a')
     = Relay.loggers (relayFileDataActions.r a)
         ++ [Logged LError
               (match Relay.getEnvironment (EnvironmentID "env-id")
                        (relayFileDataActions.r a) with
                | Some _ => logMsgInternalErrorNoUpdatesForEnv
                | None => logMsgInternalErrorUpdatedEnvNotFound
                end)
               ["env-id"]].
Proof.
  apply (UpdateEnvironment_unknown (ScenarioFileData.rotation "")
           (relayFileDataActions.Build Relay.New ∅)).
  left. reflexivity.
Defined.

(** X18: when an update of a registered environment announces a mobile key
    other than the one the environment holds, the new key becomes a credential
    of the environment and the Credential Index binds it to the environment;
    the key held before is removed at once, whatever the archive gives as the
    expiring key: it is neither an active nor a deprecated credential of the
    environment and the index no longer resolves it. *)
Theorem UpdateEnvironment_mobile_key (ae : ArchiveEnvironment.t)
    (a : relayFileDataActions.t) (env : string) (e : EnvState.t) (updates : string) :
  let p := ArchiveEnvironment.Params ae in
  let old := snd (relayFileDataActions.oldKeys (EnvState.GetCredentials e)) in
  let new := EnvironmentParams.MobileKey p in
  Relay.getEnvironment (EnvironmentID (EnvironmentParams.EnvID p))
    (relayFileDataActions.r a) = Some (env, e) ->
  relayFileDataActions.envUpdates a !! EnvironmentParams.EnvID p = Some updates ->
  new <> old ->
  let r' := relayFileDataActions.r (relayFileDataActions.UpdateEnvironment ae a) in
  exists e',
    Relay.environments r' !! env = Some e'
    /\ (MobileKey new ∈ EnvState.credentials e')
    /\ Relay.envsByCredential r' !! MobileKey new = Some env
    /\ (MobileKey old ∉ EnvState.credentials e')
    /\ (MobileKey old ∉ EnvState.deprecated e')
    /\ Relay.envsByCredential r' !! MobileKey old = None
    /\ Relay.getEnvironment (MobileKey old) r' = None.
Proof.
  intros p old new Hget Hupd Hne r'.
  pose proof Hget as Hget'. apply getEnvironment_Some in Hget' as [Hidx Henv].
  assert (Hr1 :
            Relay.environments
              (Relay.onEnv env (EnvState.SetSecureMode (EnvironmentParams.SecureMode p))
                 (Relay.onEnv env (EnvState.SetTTL (EnvironmentParams.TTL p))
                    (Relay.onEnv env
                       (EnvState.SetIdentifiers (EnvironmentParams.Identifiers p))
                       (relayFileDataActions.r a))))
            !! env
            = Some (EnvState.SetSecureMode (EnvironmentParams.SecureMode p)
                      (EnvState.SetTTL (EnvironmentParams.TTL p)
                         (EnvState.SetIdentifiers (EnvironmentParams.Identifiers p) e)))).
  { rewrite !environments_onEnv, !decide_True by reflexivity.
    rewrite Henv. reflexivity. }
  subst r'. unfold relayFileDataActions.UpdateEnvironment. fold p.
  rewrite Hget, Hupd. cbv zeta. rewrite Hr1.
  cbn [EnvState.GetCredentials EnvState.credentials EnvState.SetSecureMode
       EnvState.SetTTL EnvState.SetIdentifiers relayFileDataActions.r].
  change (EnvState.credentials e) with (EnvState.GetCredentials e). fold old new.
  pose proof Hne as Hne'. apply String.eqb_neq in Hne'. rewrite Hne'. cbn [negb].
  assert (Hnew_old : MobileKey new <> MobileKey old) by congruence.
  assert (Hold_new : MobileKey old <> MobileKey new) by congruence.
  destruct (decide (updates = env)) as [->|Hu];
    destruct (ArchiveEnvironment.SDKData ae) as [d|];
    destruct (negb (String.eqb (EnvironmentParams.SDKKey p)
                      (fst (relayFileDataActions.oldKeys (EnvState.GetCredentials e)))));
    destruct (String.eqb (EnvironmentParams.ExpiringSDKKey p)
                (fst (relayFileDataActions.oldKeys (EnvState.GetCredentials e)))).
  all: eexists; (split; [env_lookup; rewrite Henv; reflexivity|]).
  all: split; [credentials_of; intuition (congruence || discriminate)|].
  all: split; [index_lookup; reflexivity|].
  all: split; [credentials_of; intuition (congruence || discriminate)|].
  all: split; [credentials_of; intuition (congruence || discriminate)|].
  all: match goal with
       | |- ?A /\ _ => assert (Hnone : A) by (index_lookup; reflexivity)
       end.
  all: split; [exact Hnone | apply index_unbound; exact Hnone].
Qed.

Lemma UpdateEnvironment_mobile_key_witness :
  let r' :=
    relayFileDataActions.r
      (relayFileDataActions.UpdateEnvironment ScenarioUpdate.renewal
         ScenarioFileData.added) in
  exists e',
    Relay.environments r' !! "env-id" = Some e'
    /\ (MobileKey "mob-new" ∈ EnvState.credentials e')
    /\ Relay.envsByCredential r' !! MobileKey "mob-new" = Some "env-id"
    /\ (MobileKey "mob-test" ∉ EnvState.credentials e')
    /\ (MobileKey "mob-test" ∉ EnvState.deprecated e')
    /\ Relay.envsByCredential r' !! MobileKey "mob-test" = None
    /\ Relay.getEnvironment (MobileKey "mob-test") r' = None.
Proof.
  refine (UpdateEnvironment_mobile_key ScenarioUpdate.renewal ScenarioFileData.added
            "env-id" ScenarioUpdate.registered "env-id" _ _ _).
  - vm_compute. reflexivity.
  - reflexivity.
  - vm_compute. discriminate.
Defined.

(** *** What an update leaves behind *)

Lemma filter_at_most_one {A} (f : A -> bool) (l : list A) (x y : A) :
  (List.length (List.filter f l) <= 1)%nat ->
  In x l -> In y l -> f x = true -> f y = true -> x = y.
Proof.
  intros Hlen Hx Hy Hfx Hfy.
  assert (Hx' : In x (List.filter f l)) by (apply filter_In; split; assumption).
  assert (Hy' : In y (List.filter f l)) by (apply filter_In; split; assumption).
  destruct (List.filter f l) as [|z [|z' rest]]; cbn in Hlen, Hx', Hy'.
  - destruct Hx'.
  - destruct Hx' as [<-|[]]. destruct Hy' as [<-|[]]. reflexivity.
  - lia.
Qed.

Lemma oneKeyEach_unique (creds : list Credential) :
  oneKeyEach creds = true ->
  (forall k k', SDKKey k ∈ creds -> SDKKey k' ∈ creds -> k = k')
  /\ (forall k k', MobileKey k ∈ creds -> MobileKey k' ∈ creds -> k = k').
Proof.
  unfold oneKeyEach. intros H. apply andb_true_iff in H. destruct H as [Hs Hm].
  apply Nat.leb_le in Hs. apply Nat.leb_le in Hm.
  split; intros k k' Hk Hk'; apply list_elem_of_In in Hk, Hk'.
  - pose proof (filter_at_most_one isSDKKey creds _ _ Hs Hk Hk' eq_refl eq_refl) as E.
    injection E as E. exact E.
  - pose proof (filter_at_most_one isMobileKey creds _ _ Hm Hk Hk' eq_refl eq_refl) as E.
    injection E as E. exact E.
Qed.

(** The old mobile key that [UpdateEnvironment] finds is one of the
    environment's credentials, unless the environment has no mobile key. *)
Lemma oldKeys_MobileKey (creds : list Credential) :
  MobileKey (snd (relayFileDataActions.oldKeys creds)) ∈ creds
  \/ (snd (relayFileDataActions.oldKeys creds) = ""
      /\ forall k, MobileKey k ∉ creds).
Proof.
  unfold relayFileDataActions.oldKeys.
  assert (H : forall init,
             MobileKey (snd (fold_left
                               (fun old c =>
                                  match c with
                                  | SDKKey k => (k, snd old)
                                  | MobileKey k => (fst old, k)
                                  | EnvironmentID _ => old
                                  end) creds init)) ∈ creds
             \/ (snd (fold_left
                        (fun old c =>
                           match c with
                           | SDKKey k => (k, snd old)
                           | MobileKey k => (fst old, k)
                           | EnvironmentID _ => old
                           end) creds init) = snd init
                 /\ forall k, MobileKey k ∉ creds)).
  { induction creds as [|c creds IH]; intros init; cbn [fold_left].
    - right. split; [reflexivity|]. intros k H. inversion H.
    - destruct (IH match c with
                   | SDKKey k => (k, snd init)
                   | MobileKey k => (fst init, k)
                   | EnvironmentID _ => init
                   end) as [Hin | [Heq Hnone]].
      + left. right. exact Hin.
      + destruct c as [k|k|k]; cbn [snd] in Heq.
        * right. split; [exact Heq|]. intros k' H.
          inversion H; subst. exact (Hnone k' ltac:(assumption)).
        * left. rewrite Heq. left.
        * right. split; [exact Heq|]. intros k' H.
          inversion H; subst. exact (Hnone k' ltac:(assumption)). }
  exact (H ("", "")).
Qed.

(** When [x] is the only SDK key there can be among [creds], it is the old
    SDK key that the loop finds; likewise for the mobile key. *)
Lemma oldKeys_fst_only (creds : list Credential) (x : string) :
  (forall k, SDKKey k ∈ creds -> k = x) ->
  SDKKey x ∈ creds \/ x = "" ->
  fst (relayFileDataActions.oldKeys creds) = x.
Proof.
  intros Honly Hx. destruct (oldKeys_SDKKey creds) as [Hin | [Hempty Hnone]].
  - apply Honly. exact Hin.
  - rewrite Hempty. destruct Hx as [Hx | ->]; [|reflexivity].
    destruct (Hnone x Hx).
Qed.

Lemma oldKeys_snd_only (creds : list Credential) (x : string) :
  (forall k, MobileKey k ∈ creds -> k = x) ->
  MobileKey x ∈ creds \/ x = "" ->
  snd (relayFileDataActions.oldKeys creds) = x.
Proof.
  intros Honly Hx. destruct (oldKeys_MobileKey creds) as [Hin | [Hempty Hnone]].
  - apply Honly. exact Hin.
  - rewrite Hempty. destruct Hx as [Hx | ->]; [|reflexivity].
    destruct (Hnone x Hx).
Qed.

Lemma settings_AddCredential (c : Credential) (e : EnvState.t) :
  EnvState.Identifiers (EnvState.AddCredential c e) = EnvState.Identifiers e
  /\ EnvState.TTL (EnvState.AddCredential c e) = EnvState.TTL e
  /\ EnvState.SecureMode (EnvState.AddCredential c e) = EnvState.SecureMode e.
Proof.
  unfold EnvState.AddCredential.
  destruct (bool_decide (c ∈ EnvState.credentials e)); repeat split.
Qed.

Lemma settings_DeprecateCredential (c : Credential) (e : EnvState.t) :
  EnvState.Identifiers (EnvState.DeprecateCredential c e) = EnvState.Identifiers e
  /\ EnvState.TTL (EnvState.DeprecateCredential c e) = EnvState.TTL e
  /\ EnvState.SecureMode (EnvState.DeprecateCredential c e) = EnvState.SecureMode e.
Proof.
  unfold EnvState.DeprecateCredential.
  destruct (bool_decide (c ∈ EnvState.credentials e)); repeat split.
Qed.

(** The environment that an update leaves under the ID it found. *)
Lemma UpdateEnvironment_env (ae : ArchiveEnvironment.t)
    (a : relayFileDataActions.t) (env : string) (e : EnvState.t) (updates : string) :
  let p := ArchiveEnvironment.Params ae in
  let old := fst (relayFileDataActions.oldKeys (EnvState.GetCredentials e)) in
  let oldMobile := snd (relayFileDataActions.oldKeys (EnvState.GetCredentials e)) in
  let new := EnvironmentParams.SDKKey p in
  let newMobile := EnvironmentParams.MobileKey p in
  let e0 :=
    EnvState.SetSecureMode (EnvironmentParams.SecureMode p)
      (EnvState.SetTTL (EnvironmentParams.TTL p)
         (EnvState.SetIdentifiers (EnvironmentParams.Identifiers p) e)) in
  let eS :=
    if negb (String.eqb new old) then
      if String.eqb (EnvironmentParams.ExpiringSDKKey p) old
      then EnvState.DeprecateCredential (SDKKey old)
             (EnvState.AddCredential (SDKKey new) e0)
      else EnvState.RemoveCredential (SDKKey old)
             (EnvState.AddCredential (SDKKey new) e0)
    else e0 in
  let eM :=
    if negb (String.eqb newMobile oldMobile) then
      EnvState.RemoveCredential (MobileKey oldMobile)
        (EnvState.AddCredential (MobileKey newMobile) eS)
    else eS in
  let e1 :=
    match ArchiveEnvironment.SDKData ae with
    | Some d => if decide (updates = env) then EnvState.Init d eM else eM
    | None => eM
    end in
  Relay.getEnvironment (EnvironmentID (EnvironmentParams.EnvID p))
    (relayFileDataActions.r a) = Some (env, e) ->
  relayFileDataActions.envUpdates a !! EnvironmentParams.EnvID p = Some updates ->
  let a' := relayFileDataActions.UpdateEnvironment ae a in
  Relay.environments (relayFileDataActions.r a') !! env = Some e1
  /\ Relay.envsByCredential (relayFileDataActions.r a')
     !! EnvironmentID (EnvironmentParams.EnvID p) = Some env
  /\ relayFileDataActions.envUpdates a' = relayFileDataActions.envUpdates a
  /\ (forall d eu,
         ArchiveEnvironment.SDKData ae = Some d ->
         Relay.environments (relayFileDataActions.r a') !! updates = Some eu ->
         EnvState.data eu = Some d).
Proof.
  intros p old oldMobile new newMobile e0 eS eM e1 Hget Hupd a'.
  pose proof Hget as Hget'. apply getEnvironment_Some in Hget' as [Hidx Henv].
  assert (Hr1 :
            Relay.environments
              (Relay.onEnv env (EnvState.SetSecureMode (EnvironmentParams.SecureMode p))
                 (Relay.onEnv env (EnvState.SetTTL (EnvironmentParams.TTL p))
                    (Relay.onEnv env
                       (EnvState.SetIdentifiers (EnvironmentParams.Identifiers p))
                       (relayFileDataActions.r a))))
            !! env
            = Some e0).
  { rewrite !environments_onEnv, !decide_True by reflexivity.
    rewrite Henv. reflexivity. }
  subst a'. unfold relayFileDataActions.UpdateEnvironment. fold p.
  rewrite Hget, Hupd. cbv zeta. rewrite Hr1.
  unfold e1, eM, eS.
  change (EnvState.GetCredentials e0) with (EnvState.GetCredentials e).
  fold old oldMobile new newMobile.
  cbn [relayFileDataActions.r relayFileDataActions.envUpdates].
  destruct (decide (updates = env)) as [->|Hu];
    [|assert (Hu' : env <> updates) by congruence];
    destruct (ArchiveEnvironment.SDKData ae) as [d|];
    destruct (negb (String.eqb new old));
    destruct (String.eqb (EnvironmentParams.ExpiringSDKKey p) old);
    destruct (negb (String.eqb newMobile oldMobile)).
  all: split; [env_lookup; rewrite Henv; reflexivity|].
  all: split; [index_lookup; exact Hidx|].
  all: split; [reflexivity|].
  all: intros d' eu Hd Heu; try discriminate Hd.
  all: injection Hd as <-.
  all: revert Heu; env_lookup; intros Heu.
  all: try (rewrite Henv in Heu; injection Heu as <-; reflexivity).
  all: destruct (Relay.environments (relayFileDataActions.r a) !! updates) as [eu0|];
    cbn in Heu; [|discriminate Heu].
  all: injection Heu as <-; reflexivity.
Qed.

(** The keys of the environment after the credential calls of an update:
    the announced SDK key and mobile key are the only ones of their kind. *)
Lemma updated_keys (e0 : EnvState.t) (new newMobile expiring : string) :
  let old := fst (relayFileDataActions.oldKeys (EnvState.credentials e0)) in
  let oldMobile := snd (relayFileDataActions.oldKeys (EnvState.credentials e0)) in
  let eS :=
    if negb (String.eqb new old) then
      if String.eqb expiring old
      then EnvState.DeprecateCredential (SDKKey old)
             (EnvState.AddCredential (SDKKey new) e0)
      else EnvState.RemoveCredential (SDKKey old)
             (EnvState.AddCredential (SDKKey new) e0)
    else e0 in
  let eM :=
    if negb (String.eqb newMobile oldMobile) then
      EnvState.RemoveCredential (MobileKey oldMobile)
        (EnvState.AddCredential (MobileKey newMobile) eS)
    else eS in
  oneKeyEach (EnvState.credentials e0) = true ->
  ((forall k, SDKKey k ∈ EnvState.credentials eM -> k = new)
   /\ (SDKKey new ∈ EnvState.credentials eM \/ new = ""))
  /\ ((forall k, MobileKey k ∈ EnvState.credentials eM -> k = newMobile)
      /\ (MobileKey newMobile ∈ EnvState.credentials eM \/ newMobile = "")).
Proof.
  intros old oldMobile eS eM Hone.
  destruct (oneKeyEach_unique _ Hone) as [Hsdk Hmob].
  assert (HoldS : forall k, SDKKey k ∈ EnvState.credentials e0 -> k = old).
  { intros k Hk. destruct (oldKeys_SDKKey (EnvState.credentials e0)) as [Hin | [_ Hnone]].
    - exact (Hsdk _ _ Hk Hin).
    - destruct (Hnone k Hk). }
  assert (HoldM : forall k, MobileKey k ∈ EnvState.credentials e0 -> k = oldMobile).
  { intros k Hk. destruct (oldKeys_MobileKey (EnvState.credentials e0)) as [Hin | [_ Hnone]].
    - exact (Hmob _ _ Hk Hin).
    - destruct (Hnone k Hk). }
  assert (HS : (forall c, isSDKKey c = false ->
                          (c ∈ EnvState.credentials eS <-> c ∈ EnvState.credentials e0))
               /\ (forall k, SDKKey k ∈ EnvState.credentials eS -> k = new)
               /\ (SDKKey new ∈ EnvState.credentials eS \/ new = "")).
  { unfold eS. destruct (String.eqb_spec new old) as [E|E]; cbn [negb].
    - split; [tauto|]. split.
      + intros k Hk. rewrite E. exact (HoldS k Hk).
      + rewrite E. destruct (oldKeys_SDKKey (EnvState.credentials e0)) as [Hin | [He _]].
        * left. exact Hin.
        * right. exact He.
    - destruct (String.eqb expiring old).
      + split; [|split].
        * intros c Hc. rewrite credentials_DeprecateCredential, credentials_AddCredential.
          destruct c; try discriminate Hc; intuition congruence.
        * intros k. rewrite credentials_DeprecateCredential, credentials_AddCredential.
          intros [[Hk | Hk] Hne]; [congruence|].
          apply HoldS in Hk. congruence.
        * left. rewrite credentials_DeprecateCredential, credentials_AddCredential.
          split; [left; reflexivity | congruence].
      + split; [|split].
        * intros c Hc. rewrite credentials_RemoveCredential, credentials_AddCredential.
          destruct c; try discriminate Hc; intuition congruence.
        * intros k. rewrite credentials_RemoveCredential, credentials_AddCredential.
          intros [[Hk | Hk] Hne]; [congruence|].
          apply HoldS in Hk. congruence.
        * left. rewrite credentials_RemoveCredential, credentials_AddCredential.
          split; [left; reflexivity | congruence]. }
  destruct HS as (HSother & HSonly & HSnew).
  unfold eM. destruct (String.eqb_spec newMobile oldMobile) as [E|E]; cbn [negb].
  - split; [split; assumption|]. split.
    + intros k Hk. apply HSother in Hk; [|reflexivity]. rewrite E. exact (HoldM k Hk).
    + rewrite E.
      destruct (oldKeys_MobileKey (EnvState.credentials e0)) as [Hin | [He _]].
      * left. apply HSother; [reflexivity | exact Hin].
      * right. exact He.
  - split; [split|split].
    + intros k. rewrite credentials_RemoveCredential, credentials_AddCredential.
      intros [[Hk | Hk] _]; [discriminate Hk | exact (HSonly k Hk)].
    + destruct HSnew as [Hin | Hin]; [left | right; exact Hin].
      rewrite credentials_RemoveCredential, credentials_AddCredential.
      split; [right; exact Hin | discriminate].
    + intros k. rewrite credentials_RemoveCredential, credentials_AddCredential.
      intros [[Hk | Hk] Hne]; [congruence|].
      apply HSother in Hk; [|reflexivity]. apply HoldM in Hk. congruence.
    + left. rewrite credentials_RemoveCredential, credentials_AddCredential.
      split; [left; reflexivity | congruence].
Qed.

Lemma updated_settings (e0 : EnvState.t) (new newMobile expiring old oldMobile : string) :
  let eS :=
    if negb (String.eqb new old) then
      if String.eqb expiring old
      then EnvState.DeprecateCredential (SDKKey old)
             (EnvState.AddCredential (SDKKey new) e0)
      else EnvState.RemoveCredential (SDKKey old)
             (EnvState.AddCredential (SDKKey new) e0)
    else e0 in
  let eM :=
    if negb (String.eqb newMobile oldMobile) then
      EnvState.RemoveCredential (MobileKey oldMobile)
        (EnvState.AddCredential (MobileKey newMobile) eS)
    else eS in
  EnvState.Identifiers eM = EnvState.Identifiers e0
  /\ EnvState.TTL eM = EnvState.TTL e0
  /\ EnvState.SecureMode eM = EnvState.SecureMode e0.
Proof.
  intros eS eM.
  assert (HS : EnvState.Identifiers eS = EnvState.Identifiers e0
               /\ EnvState.TTL eS = EnvState.TTL e0
               /\ EnvState.SecureMode eS = EnvState.SecureMode e0).
  { unfold eS. destruct (negb (String.eqb new old)); [|repeat split].
    destruct (String.eqb expiring old).
    - destruct (settings_DeprecateCredential (SDKKey old)
                  (EnvState.AddCredential (SDKKey new) e0)) as (-> & -> & ->).
      apply settings_AddCredential.
    - cbn [EnvState.RemoveCredential EnvState.set_credentials EnvState.Identifiers
           EnvState.TTL EnvState.SecureMode].
      apply settings_AddCredential. }
  unfold eM. destruct (negb (String.eqb newMobile oldMobile)); [|exact HS].
  cbn [EnvState.RemoveCredential EnvState.set_credentials EnvState.Identifiers
       EnvState.TTL EnvState.SecureMode].
  destruct (settings_AddCredential (MobileKey newMobile) eS) as (-> & -> & ->).
  exact HS.
Qed.

(** What an update leaves of a registered environment that held at most one
    SDK key and one mobile key. *)
Lemma UpdateEnvironment_result (ae : ArchiveEnvironment.t)
    (a : relayFileDataActions.t) (env : string) (e : EnvState.t) (updates : string) :
  let p := ArchiveEnvironment.Params ae in
  Relay.getEnvironment (EnvironmentID (EnvironmentParams.EnvID p))
    (relayFileDataActions.r a) = Some (env, e) ->
  relayFileDataActions.envUpdates a !! EnvironmentParams.EnvID p = Some updates ->
  oneKeyEach (EnvState.GetCredentials e) = true ->
  let a' := relayFileDataActions.UpdateEnvironment ae a in
  exists e',
    Relay.environments (relayFileDataActions.r a') !! env = Some e'
    /\ Relay.envsByCredential (relayFileDataActions.r a')
       !! EnvironmentID (EnvironmentParams.EnvID p) = Some env
    /\ relayFileDataActions.envUpdates a' = relayFileDataActions.envUpdates a
    /\ (forall d eu,
           ArchiveEnvironment.SDKData ae = Some d ->
           Relay.environments (relayFileDataActions.r a') !! updates = Some eu ->
           EnvState.data eu = Some d)
    /\ EnvState.Identifiers e' = EnvironmentParams.Identifiers p
    /\ EnvState.TTL e' = EnvironmentParams.TTL p
    /\ EnvState.SecureMode e' = EnvironmentParams.SecureMode p
    /\ ((forall k, SDKKey k ∈ EnvState.credentials e' -> k = EnvironmentParams.SDKKey p)
        /\ (SDKKey (EnvironmentParams.SDKKey p) ∈ EnvState.credentials e'
            \/ EnvironmentParams.SDKKey p = ""))
    /\ ((forall k, MobileKey k ∈ EnvState.credentials e'
                   -> k = EnvironmentParams.MobileKey p)
        /\ (MobileKey (EnvironmentParams.MobileKey p) ∈ EnvState.credentials e'
            \/ EnvironmentParams.MobileKey p = "")).
Proof.
  intros p Hget Hupd Hone a'.
  destruct (UpdateEnvironment_env ae a env e updates Hget Hupd)
    as (Henv & Hidx & Hsink & Hdata).
  fold p a' in Henv, Hidx, Hsink, Hdata.
  set (e0 := EnvState.SetSecureMode (EnvironmentParams.SecureMode p)
               (EnvState.SetTTL (EnvironmentParams.TTL p)
                  (EnvState.SetIdentifiers (EnvironmentParams.Identifiers p) e))) in *.
  change (EnvState.GetCredentials e) with (EnvState.credentials e0) in *.
  pose proof (updated_keys e0 (EnvironmentParams.SDKKey p) (EnvironmentParams.MobileKey p)
                (EnvironmentParams.ExpiringSDKKey p) Hone) as Hkeys.
  pose proof (updated_settings e0 (EnvironmentParams.SDKKey p)
                (EnvironmentParams.MobileKey p) (EnvironmentParams.ExpiringSDKKey p)
                (fst (relayFileDataActions.oldKeys (EnvState.credentials e0)))
                (snd (relayFileDataActions.oldKeys (EnvState.credentials e0))))
    as Hset.
  cbv zeta in Hkeys, Hset.
  match type of Henv with
  | _ = Some ?x => exists x
  end.
  split; [exact Henv|]. split; [exact Hidx|]. split; [exact Hsink|].
  split; [exact Hdata|].
  destruct (ArchiveEnvironment.SDKData ae) as [d|];
    [destruct (decide (updates = env))|];
    cbn [EnvState.Init EnvState.Identifiers EnvState.TTL EnvState.SecureMode
         EnvState.credentials];
    (destruct Hset as (-> & -> & ->);
     split; [reflexivity|]; split; [reflexivity|]; split; [reflexivity|];
     exact Hkeys).
Qed.

(** X19: an update settles the environment on the archive.  For a registered
    environment that held at most one SDK key and at most one mobile key, the
    environment afterwards has the archive's identifiers, TTL and secure-mode
    setting, its only active SDK key and mobile key are the archive's, and
    these are the keys the next update finds as the current ones. *)
Theorem UpdateEnvironment_settles (ae : ArchiveEnvironment.t)
    (a : relayFileDataActions.t) (env : string) (e : EnvState.t) (updates : string) :
  let p := ArchiveEnvironment.Params ae in
  Relay.getEnvironment (EnvironmentID (EnvironmentParams.EnvID p))
    (relayFileDataActions.r a) = Some (env, e) ->
  relayFileDataActions.envUpdates a !! EnvironmentParams.EnvID p = Some updates ->
  oneKeyEach (EnvState.GetCredentials e) = true ->
  let r' := relayFileDataActions.r (relayFileDataActions.UpdateEnvironment ae a) in
  exists e',
    Relay.environments r' !! env = Some e'
    /\ EnvState.Identifiers e' = EnvironmentParams.Identifiers p
    /\ EnvState.TTL e' = EnvironmentParams.TTL p
    /\ EnvState.SecureMode e' = EnvironmentParams.SecureMode p
    /\ (forall k, SDKKey k ∈ EnvState.GetCredentials e' -> k = EnvironmentParams.SDKKey p)
    /\ (forall k, MobileKey k ∈ EnvState.GetCredentials e'
                  -> k = EnvironmentParams.MobileKey p)
    /\ relayFileDataActions.oldKeys (EnvState.GetCredentials e')
       = (EnvironmentParams.SDKKey p, EnvironmentParams.MobileKey p).
Proof.
  intros p Hget Hupd Hone r'.
  destruct (UpdateEnvironment_result ae a env e updates Hget Hupd Hone)
    as (e' & Henv & _ & _ & _ & Hid & Httl & Hsec & [Hsdk Hsdk'] & [Hmob Hmob']).
  exists e'. repeat split; try assumption.
  unfold EnvState.GetCredentials.
  rewrite (surjective_pairing (relayFileDataActions.oldKeys (EnvState.credentials e'))).
  rewrite (oldKeys_fst_only _ _ Hsdk Hsdk'), (oldKeys_snd_only _ _ Hmob Hmob').
  reflexivity.
Qed.

Lemma SetIdentifiers_same (i : EnvIdentifiers.t) (e : EnvState.t) :
  EnvState.Identifiers e = i -> EnvState.SetIdentifiers i e = e.
Proof. intros <-. destruct e; reflexivity. Qed.

Lemma SetTTL_same (ttl : Z) (e : EnvState.t) :
  EnvState.TTL e = ttl -> EnvState.SetTTL ttl e = e.
Proof. intros <-. destruct e; reflexivity. Qed.

Lemma SetSecureMode_same (secure : bool) (e : EnvState.t) :
  EnvState.SecureMode e = secure -> EnvState.SetSecureMode secure e = e.
Proof. intros <-. destruct e; reflexivity. Qed.

Lemma Init_same (d : InMemoryStore.Collections) (e : EnvState.t) :
  EnvState.data e = Some d -> EnvState.Init d e = e.
Proof. destruct e; cbn. intros ->. reflexivity. Qed.

(** X20: updates are idempotent.  Applying the same archive environment a
    second time to a registered environment that held at most one SDK key and
    at most one mobile key changes nothing: no environment, no binding of the
    Credential Index, no sink and no log line differs from the state after
    the first application. *)
Theorem UpdateEnvironment_idempotent (ae : ArchiveEnvironment.t)
    (a : relayFileDataActions.t) (env : string) (e : EnvState.t) (updates : string) :
  let p := ArchiveEnvironment.Params ae in
  Relay.getEnvironment (EnvironmentID (EnvironmentParams.EnvID p))
    (relayFileDataActions.r a) = Some (env, e) ->
  relayFileDataActions.envUpdates a !! EnvironmentParams.EnvID p = Some updates ->
  oneKeyEach (EnvState.GetCredentials e) = true ->
  relayFileDataActions.UpdateEnvironment ae (relayFileDataActions.UpdateEnvironment ae a)
  = relayFileDataActions.UpdateEnvironment ae a.
Proof.
  intros p Hget Hupd Hone.
  destruct (UpdateEnvironment_result ae a env e updates Hget Hupd Hone)
    as (e' & Henv & Hidx & Hsink & Hdata & Hid & Httl & Hsec
        & [Hsdk Hsdk'] & [Hmob Hmob']).
  fold p in Henv, Hidx, Hsink, Hdata.
  rewrite <- Hsink in Hupd.
  set (a' := relayFileDataActions.UpdateEnvironment ae a) in *. clearbody a'.
  destruct a' as [[M index log] sinks].
  cbn [relayFileDataActions.r relayFileDataActions.envUpdates Relay.environments
       Relay.envsByCredential] in *.
  unfold relayFileDataActions.UpdateEnvironment. fold p.
  cbn [relayFileDataActions.r relayFileDataActions.envUpdates].
  assert (Hfound : Relay.getEnvironment (EnvironmentID (EnvironmentParams.EnvID p))
                     (Relay.Build M index log) = Some (env, e')).
  { apply getEnvironment_Some. split; assumption. }
  rewrite Hfound, Hupd. cbv zeta.
  assert (HM : alter (EnvState.SetSecureMode (EnvironmentParams.SecureMode p)) env
                 (alter (EnvState.SetTTL (EnvironmentParams.TTL p)) env
                    (alter (EnvState.SetIdentifiers (EnvironmentParams.Identifiers p))
                       env M))
               = M).
  { rewrite (alter_id (EnvState.SetIdentifiers _) M env)
      by (intros x Hx; rewrite Henv in Hx; injection Hx as <-;
          apply SetIdentifiers_same; exact Hid).
    rewrite (alter_id (EnvState.SetTTL _) M env)
      by (intros x Hx; rewrite Henv in Hx; injection Hx as <-;
          apply SetTTL_same; exact Httl).
    apply alter_id. intros x Hx. rewrite Henv in Hx. injection Hx as <-.
    apply SetSecureMode_same. exact Hsec. }
  assert (Hr1 :
            Relay.onEnv env (EnvState.SetSecureMode (EnvironmentParams.SecureMode p))
              (Relay.onEnv env (EnvState.SetTTL (EnvironmentParams.TTL p))
                 (Relay.onEnv env
                    (EnvState.SetIdentifiers (EnvironmentParams.Identifiers p))
                    (Relay.Build M index log)))
            = Relay.Build M index log).
  { unfold Relay.onEnv.
    cbn [Relay.environments Relay.envsByCredential Relay.loggers].
    rewrite HM. reflexivity. }
  rewrite Hr1. cbn [Relay.environments]. rewrite Henv.
  unfold EnvState.GetCredentials.
  rewrite (oldKeys_fst_only _ _ Hsdk Hsdk'), (oldKeys_snd_only _ _ Hmob Hmob').
  rewrite !String.eqb_refl. cbn [negb].
  destruct (ArchiveEnvironment.SDKData ae) as [d|]; [|reflexivity].
  unfold Relay.onEnv. cbn [Relay.environments Relay.envsByCredential Relay.loggers].
  rewrite alter_id; [reflexivity|].
  intros x Hx. apply Init_same. exact (Hdata d x eq_refl Hx).
Qed.

(** X21: an update touches nothing but the environment it names and the
    keys it rotates.  Every other environment is left as it was (the one
    whose sink the update feeds apart), every credential other than the old
    and the new SDK key and mobile key keeps its binding in the Credential
    Index, the captured sinks are the same and nothing is logged. *)
Theorem UpdateEnvironment_frame (ae : ArchiveEnvironment.t)
    (a : relayFileDataActions.t) (env : string) (e : EnvState.t) (updates : string) :
  let p := ArchiveEnvironment.Params ae in
  let old := relayFileDataActions.oldKeys (EnvState.GetCredentials e) in
  Relay.getEnvironment (EnvironmentID (EnvironmentParams.EnvID p))
    (relayFileDataActions.r a) = Some (env, e) ->
  relayFileDataActions.envUpdates a !! EnvironmentParams.EnvID p = Some updates ->
  let a' := relayFileDataActions.UpdateEnvironment ae a in
  (forall id,
      id <> env -> id <> updates ->
      Relay.environments (relayFileDataActions.r a') !! id
      = Relay.environments (relayFileDataActions.r a) !! id)
  /\ (forall c,
         c <> SDKKey (EnvironmentParams.SDKKey p) -> c <> SDKKey (fst old) ->
         c <> MobileKey (EnvironmentParams.MobileKey p) -> c <> MobileKey (snd old) ->
         Relay.envsByCredential (relayFileDataActions.r a') !! c
         = Relay.envsByCredential (relayFileDataActions.r a) !! c)
  /\ relayFileDataActions.envUpdates a' = relayFileDataActions.envUpdates a
  /\ Relay.loggers (relayFileDataActions.r a') = Relay.loggers (relayFileDataActions.r a).
Proof.
  intros p old Hget Hupd a'.
  pose proof Hget as Hget'. apply getEnvironment_Some in Hget' as [Hidx Henv].
  assert (Hr1 :
            Relay.environments
              (Relay.onEnv env (EnvState.SetSecureMode (EnvironmentParams.SecureMode p))
                 (Relay.onEnv env (EnvState.SetTTL (EnvironmentParams.TTL p))
                    (Relay.onEnv env
                       (EnvState.SetIdentifiers (EnvironmentParams.Identifiers p))
                       (relayFileDataActions.r a))))
            !! env
            = Some (EnvState.SetSecureMode (EnvironmentParams.SecureMode p)
                      (EnvState.SetTTL (EnvironmentParams.TTL p)
                         (EnvState.SetIdentifiers (EnvironmentParams.Identifiers p) e)))).
  { rewrite !environments_onEnv, !decide_True by reflexivity.
    rewrite Henv. reflexivity. }
  subst a'. unfold relayFileDataActions.UpdateEnvironment. fold p.
  rewrite Hget, Hupd. cbv zeta. rewrite Hr1.
  cbn [EnvState.GetCredentials EnvState.credentials EnvState.SetSecureMode
       EnvState.SetTTL EnvState.SetIdentifiers relayFileDataActions.r
       relayFileDataActions.envUpdates].
  change (EnvState.credentials e) with (EnvState.GetCredentials e). fold old.
  destruct (ArchiveEnvironment.SDKData ae) as [d|];
    destruct (negb (String.eqb (EnvironmentParams.SDKKey p) (fst old)));
    destruct (String.eqb (EnvironmentParams.ExpiringSDKKey p) (fst old));
    destruct (negb (String.eqb (EnvironmentParams.MobileKey p) (snd old))).
  all: split;
    [intros id Hid Hid';
     assert (Hne : env <> id) by congruence;
     assert (Hne' : updates <> id) by congruence;
     env_lookup; reflexivity|].
  all: split; [intros c H1 H2 H3 H4; index_lookup; reflexivity|].
  all: split; reflexivity.
Qed.

Lemma UpdateEnvironment_settles_witness :
  let r' :=
    relayFileDataActions.r
      (relayFileDataActions.UpdateEnvironment ScenarioUpdate.renewal
         ScenarioFileData.added) in
  exists e',
    Relay.environments r' !! "env-id" = Some e'
    /\ EnvState.Identifiers e'
       = EnvIdentifiers.Build "staging" "Staging" "default" "Default" ""
    /\ EnvState.TTL e' = 300
    /\ EnvState.SecureMode e' = true
    /\ (forall k, SDKKey k ∈ EnvState.GetCredentials e' -> k = "sdk-new")
    /\ (forall k, MobileKey k ∈ EnvState.GetCredentials e' -> k = "mob-new")
    /\ relayFileDataActions.oldKeys (EnvState.GetCredentials e') = ("sdk-new", "mob-new").
Proof.
  refine (UpdateEnvironment_settles ScenarioUpdate.renewal ScenarioFileData.added
            "env-id" ScenarioUpdate.registered "env-id" _ _ _).
  - vm_compute. reflexivity.
  - reflexivity.
  - reflexivity.
Defined.

Lemma UpdateEnvironment_idempotent_witness :
  relayFileDataActions.UpdateEnvironment ScenarioUpdate.renewal
    (relayFileDataActions.UpdateEnvironment ScenarioUpdate.renewal ScenarioFileData.added)
  = relayFileDataActions.UpdateEnvironment ScenarioUpdate.renewal ScenarioFileData.added.
Proof.
  refine (UpdateEnvironment_idempotent ScenarioUpdate.renewal ScenarioFileData.added
            "env-id" ScenarioUpdate.registered "env-id" _ _ _).
  - vm_compute. reflexivity.
  - reflexivity.
  - reflexivity.
Defined.

Lemma UpdateEnvironment_frame_witness :
  let a := ScenarioFileData.added in
  let a' := relayFileDataActions.UpdateEnvironment ScenarioUpdate.renewal a in
  (forall id,
      id <> "env-id" -> id <> "env-id" ->
      Relay.environments (relayFileDataActions.r a') !! id
      = Relay.environments (relayFileDataActions.r a) !! id)
  /\ (forall c,
         c <> SDKKey "sdk-new" -> c <> SDKKey "sdk-test" ->
         c <> MobileKey "mob-new" -> c <> MobileKey "mob-test" ->
         Relay.envsByCredential (relayFileDataActions.r a') !! c
         = Relay.envsByCredential (relayFileDataActions.r a) !! c)
  /\ relayFileDataActions.envUpdates a' = relayFileDataActions.envUpdates a
  /\ Relay.loggers (relayFileDataActions.r a') = Relay.loggers (relayFileDataActions.r a).
Proof.
  refine (UpdateEnvironment_frame ScenarioUpdate.renewal ScenarioFileData.added
            "env-id" ScenarioUpdate.registered "env-id" _ _).
  - vm_compute. reflexivity.
  - reflexivity.
Defined.

(** ** File data: the expiring key of a new environment *)

(** X22: when the archive of a new environment names an expiring SDK key,
    what [AddEnvironment] does with it depends on whether the key already
    resolves to an environment once the new one is registered.  If it does,
    the key is left alone: the Credential Index and the credentials of every
    environment are as registration left them.  If it does not, the key is
    bound to the new environment, as a deprecated credential and not as an
    active one.  This holds whether or not the update sink arrives in time. *)
Theorem AddEnvironment_expiring_key (ae : ArchiveEnvironment.t)
    (sel : relayFileDataActions.selected) (a : relayFileDataActions.t) :
  let p := ArchiveEnvironment.Params ae in
  let expiring := EnvironmentParams.ExpiringSDKKey p in
  let env := EnvironmentParams.EnvID p in
  let r0 := snd (Relay.addEnvironment p None (relayFileDataActions.r a)) in
  let r' := relayFileDataActions.r (relayFileDataActions.AddEnvironment ae None sel a) in
  expiring <> "" ->
  match Relay.getEnvironment (SDKKey expiring) r0 with
  | Some _ =>
      Relay.envsByCredential r' = Relay.envsByCredential r0
      /\ forall id,
           EnvState.credentials <$> Relay.environments r' !! id
           = EnvState.credentials <$> Relay.environments r0 !! id
           /\ EnvState.deprecated <$> Relay.environments r' !! id
              = EnvState.deprecated <$> Relay.environments r0 !! id
  | None =>
      Relay.envsByCredential r' !! SDKKey expiring = Some env
      /\ exists e',
           Relay.environments r' !! env = Some e'
           /\ (SDKKey expiring ∉ EnvState.credentials e')
           /\ (SDKKey expiring ∈ EnvState.deprecated e')
  end.
Proof.
  intros p expiring env r0 r' Hexp.
  apply String.eqb_neq in Hexp.
  unfold r', relayFileDataActions.AddEnvironment. fold p.
  change (Relay.addEnvironment p None (relayFileDataActions.r a)) with (Ok env, r0).
  cbv zeta. fold expiring. rewrite Hexp. cbn [negb].
  destruct (Relay.getEnvironment (SDKKey expiring) r0) as [[holder eh]|].
  - destruct sel; cbn [relayFileDataActions.r].
    + split; [reflexivity|]. intros id.
      destruct (decide (env = id)) as [<-|Hne].
      * env_lookup. destruct (Relay.environments r0 !! env); split; reflexivity.
      * env_lookup. split; reflexivity.
    + split; [reflexivity|]. intros id. split; reflexivity.
  - assert (He0 : exists e0, Relay.environments r0 !! env = Some e0).
    { unfold r0. cbn. rewrite lookup_insert_eq. eexists. reflexivity. }
    destruct He0 as [e0 He0].
    destruct sel; cbn [relayFileDataActions.r].
    + split; [index_lookup; reflexivity|].
      eexists. split; [env_lookup; rewrite He0; reflexivity|].
      cbn [EnvState.UpdateStatusValid EnvState.Init EnvState.credentials
           EnvState.deprecated].
      split.
      * rewrite credentials_DeprecateCredential. intros [_ H]. apply H. reflexivity.
      * rewrite deprecated_DeprecateCredential. right. split; [reflexivity|].
        rewrite credentials_AddCredential. left. reflexivity.
    + split; [cbn [Relay.Errorf Relay.envsByCredential]; index_lookup; reflexivity|].
      eexists. split; [cbn [Relay.Errorf Relay.environments]; env_lookup;
                       rewrite He0; reflexivity|].
      split.
      * rewrite credentials_DeprecateCredential. intros [_ H]. apply H. reflexivity.
      * rewrite deprecated_DeprecateCredential. right. split; [reflexivity|].
        rewrite credentials_AddCredential. left. reflexivity.
Qed.

Lemma AddEnvironment_expiring_key_witness :
  let r0 :=
    snd (Relay.addEnvironment (ArchiveEnvironment.Params ScenarioFileData.newcomer) None
           (relayFileDataActions.r ScenarioFileData.added)) in
  let r' :=
    relayFileDataActions.r
      (relayFileDataActions.AddEnvironment ScenarioFileData.newcomer None
         relayFileDataActions.Captured ScenarioFileData.added) in
  match Relay.getEnvironment (SDKKey "sdk-old") r0 with
  | Some _ =>
      Relay.envsByCredential r' = Relay.envsByCredential r0
      /\ forall id,
           EnvState.credentials <$> Relay.environments r' !! id
           = EnvState.credentials <$> Relay.environments r0 !! id
           /\ EnvState.deprecated <$> Relay.environments r' !! id
              = EnvState.deprecated <$> Relay.environments r0 !! id
  | None =>
      Relay.envsByCredential r' !! SDKKey "sdk-old" = Some "env-new"
      /\ exists e',
           Relay.environments r' !! "env-new" = Some e'
           /\ (SDKKey "sdk-old" ∉ EnvState.credentials e')
           /\ (SDKKey "sdk-old" ∈ EnvState.deprecated e')
  end.
Proof.
  refine (AddEnvironment_expiring_key ScenarioFileData.newcomer
            relayFileDataActions.Captured ScenarioFileData.added _).
  vm_compute. discriminate.
Defined.

(** ** The polling handler of endpoints.go and its successor *)

(** X23: for a client that sends no [If-None-Match], on an environment
    without TTL, the handler of relay_endpoints.go for one flag or segment
    answers as the handler of endpoints.go does on a store with the same
    content: the same status (200, 404 or 500), the same body and the same log
    line; the only difference is the Etag [relay-<version>] that it adds to a
    200. *)
Theorem poll_item_extends_v5 (lib : Lib.t) (clientContext : EnvContext.t)
    (featureStore : V5.FeatureStore) (kind : DataKind) (req : Request.t)
    (h : gmap string string) (b : string) (tr : list Effect) :
  let key := get (Request.Vars req) "key" in
  let read := DataStore.Get (EnvContext.GetStore clientContext) kind key in
  V5.Get featureStore kind key
  = match read with
    | Ok item => Ok (ItemDescriptor.Item item)
    | Error err => Error err
    end ->
  get (Request.Header req) "If-None-Match" = "" ->
  EnvContext.GetTTL clientContext <= 0 ->
  let s := MkHState (ResponseWriter.Build h None b) tr in
  let s5 := ServeHTTP (V5.pollFlagOrSegment lib featureStore kind req) s in
  let s6 := ServeHTTP (pollFlagOrSegment lib clientContext kind req) s in
  ResponseWriter.Code (w s6) = ResponseWriter.Code (w s5)
  /\ ResponseWriter.Body (w s6) = ResponseWriter.Body (w s5)
  /\ trace s6 = trace s5
  /\ ResponseWriter.Header (w s6)
     = match read with
       | Ok item =>
           if bool_decide (ResponseWriter.Code (w s5) = Some StatusOK)
           then <["Etag" := "relay-" +:+ Itoa (ItemDescriptor.Version item)]>
                  (ResponseWriter.Header (w s5))
           else ResponseWriter.Header (w s5)
       | Error _ => ResponseWriter.Header (w s5)
       end.
Proof.
  intros key read Hsame Hcached Httl s s5 s6.
  unfold s5, s6, ServeHTTP, V5.pollFlagOrSegment, pollFlagOrSegment.
  fold key. fold read. rewrite Hsame.
  destruct read as [item|err]; [|repeat split].
  destruct (ItemDescriptor.Item item) as [entity|]; [|repeat split].
  unfold s. rewrite writeCacheableJSONResponse_run. rewrite Hcached.
  cbn [String.eqb String.append snd].
  unfold cacheableHeaders. apply Z.ltb_ge in Httl. rewrite Httl.
  destruct (Lib.json_Marshal lib (EItem entity)) as [bytes|err]; repeat split.
Qed.

Lemma poll_item_extends_v5_witness :
  let clientContext := env (ScenarioPoll.context ScenarioPoll.data1) in
  let featureStore :=
    V5.MkFeatureStore
      (fun kind key =>
         match DataStore.Get (EnvContext.GetStore clientContext) kind key with
         | Ok item => Ok (ItemDescriptor.Item item)
         | Error err => Error err
         end) in
  let req := Fake.request "GET" [] [] [("key", "b")] "" in
  let s := MkHState (ResponseWriter.Build ∅ None "") [] in
  let s5 := ServeHTTP (V5.pollFlagOrSegment Fake.lib featureStore Features req) s in
  let s6 := ServeHTTP (pollFlagOrSegment Fake.lib clientContext Features req) s in
  ResponseWriter.Code (w s6) = ResponseWriter.Code (w s5)
  /\ ResponseWriter.Body (w s6) = ResponseWriter.Body (w s5)
  /\ trace s6 = trace s5
  /\ ResponseWriter.Header (w s6)
     = match DataStore.Get (EnvContext.GetStore clientContext) Features "b" with
       | Ok item =>
           if bool_decide (ResponseWriter.Code (w s5) = Some StatusOK)
           then <["Etag" := "relay-" +:+ Itoa (ItemDescriptor.Version item)]>
                  (ResponseWriter.Header (w s5))
           else ResponseWriter.Header (w s5)
       | Error _ => ResponseWriter.Header (w s5)
       end.
Proof.
  refine (poll_item_extends_v5 Fake.lib (env (ScenarioPoll.context ScenarioPoll.data1))
            (V5.MkFeatureStore
               (fun kind key =>
                  match DataStore.Get
                          (EnvContext.GetStore (env (ScenarioPoll.context ScenarioPoll.data1)))
                          kind key with
                  | Ok item => Ok (ItemDescriptor.Item item)
                  | Error err => Error err
                  end))
            Features (Fake.request "GET" [] [] [("key", "b")] "") ∅ "" [] _ _ _).
  - reflexivity.
  - reflexivity.
  - vm_compute. discriminate.
Defined.

(** ** Event proxying *)

(** X24: an event post is answered 503 when the environment has no event
    dispatcher, and also when its dispatcher has no handler for the endpoint.
    The body is a JSON error message, but no header is set (so no
    [Content-Type]); the second case is also logged as an error that names
    the endpoint.  No handler is given the request. *)
Theorem events_not_proxied (lib : Lib.t) {Endpoint : Type}
    (Endpoint_String : Endpoint -> string) (endpoint : Endpoint)
    (dispatcher : option (events.EventDispatcher Endpoint)) (req : Request.t)
    (h : gmap string string) (b : string) (tr : list Effect) :
  (forall d, dispatcher = Some d -> events.GetHandler d endpoint = None) ->
  ServeHTTP (bulkEventHandler lib Endpoint_String endpoint dispatcher req)
    (MkHState (ResponseWriter.Build h None b) tr)
  = MkHState
      (ResponseWriter.Build h (Some StatusServiceUnavailable)
         (b +:+ Lib.ErrorJsonMsg lib
                  (match dispatcher with
                   | None => "Event proxy is not enabled for this environment"
                   | Some _ => "Internal error in event proxy"
                   end)))
      (tr ++ match dispatcher with
             | None => []
             | Some _ =>
                 [Logged LError "Tried to proxy events for unsupported endpoint '%s'"
                    [Endpoint_String endpoint]]
             end).
Proof.
  intros Hnone. unfold ServeHTTP, bulkEventHandler.
  destruct dispatcher as [d|].
  - rewrite (Hnone d eq_refl). reflexivity.
  - cbn. rewrite app_nil_r. reflexivity.
Qed.

Lemma events_not_proxied_witness :
  ServeHTTP (bulkEventHandler Fake.lib (fun endpoint : string => endpoint) "bulk"
               (Some ScenarioServer.dispatcher) (ScenarioPoll.poll []))
    (MkHState (ResponseWriter.Build ∅ None "") [])
  = MkHState
      (ResponseWriter.Build ∅ (Some StatusServiceUnavailable)
         ("" +:+ Lib.ErrorJsonMsg Fake.lib "Internal error in event proxy"))
      ([] ++ [Logged LError "Tried to proxy events for unsupported endpoint '%s'"
                ["bulk"]]).
Proof.
  apply (events_not_proxied Fake.lib (fun endpoint : string => endpoint) "bulk"
           (Some ScenarioServer.dispatcher) (ScenarioPoll.poll []) ∅ "" []).
  intros d Hd. injection Hd as <-. reflexivity.
Defined.

(** ** The evaluator's view of the store *)

(** X25: the data provider of the evaluator gives a flag under a key exactly
    when the store reads a live item under that key among the flags and the
    item is a flag; a failed read, an unknown key, a deleted item and an item
    of another type all give nil.  Likewise for segments. *)
Theorem basicDataProvider_reads (p : basicDataProvider.t) (key : string) :
  (forall f,
      basicDataProvider.GetFeatureFlag p key = Some f
      <-> exists data,
            DataStore.Get (basicDataProvider.store p) Features key = Ok data
            /\ ItemDescriptor.Item data = Some (ItemFlag f))
  /\ (forall s,
         basicDataProvider.GetSegment p key = Some s
         <-> exists data,
               DataStore.Get (basicDataProvider.store p) Segments key = Ok data
               /\ ItemDescriptor.Item data = Some (ItemSegment s)).
Proof.
  unfold basicDataProvider.GetFeatureFlag, basicDataProvider.GetSegment. split.
  - intros f. destruct (DataStore.Get (basicDataProvider.store p) Features key)
      as [data|err].
    + destruct (ItemDescriptor.Item data) as [[f'|s']|] eqn:E; split.
      * intros H. injection H as <-. exists data. split; [reflexivity | exact E].
      * intros (data' & Hd & Hi). injection Hd as <-. congruence.
      * discriminate.
      * intros (data' & Hd & Hi). injection Hd as <-. congruence.
      * discriminate.
      * intros (data' & Hd & Hi). injection Hd as <-. congruence.
    + split; [discriminate|]. intros (data' & Hd & _). discriminate Hd.
  - intros s. destruct (DataStore.Get (basicDataProvider.store p) Segments key)
      as [data|err].
    + destruct (ItemDescriptor.Item data) as [[f'|s']|] eqn:E; split.
      * discriminate.
      * intros (data' & Hd & Hi). injection Hd as <-. congruence.
      * intros H. injection H as <-. exists data. split; [reflexivity | exact E].
      * intros (data' & Hd & Hi). injection Hd as <-. congruence.
      * discriminate.
      * intros (data' & Hd & Hi). injection Hd as <-. congruence.
    + split; [discriminate|]. intros (data' & Hd & _). discriminate Hd.
Qed.

(** ** Starting the server *)

(** X26: the server listens on [:<port>] with the handler it was given.
    With TLS disabled the certificate, the key and the minimum TLS version
    are not used: the server, the log and the errors are those of a start
    without them.  With TLS enabled the server is served over TLS with the
    certificate and the key; it has a TLS configuration exactly when the
    minimum version is not zero, the configuration carries that version, and
    the log line on TLS then names it.  At most one error is sent on the
    error channel, the one the serving call returned. *)
Theorem StartHTTPServer_tls {Handler : Type} (net : application.Net Handler)
    (port : Z) (handler : Handler) (tlsEnabled : bool) (tlsCertFile tlsKeyFile : string)
    (tlsMinVersion : Z) :
  let started :=
    application.StartHTTPServer net port handler tlsEnabled tlsCertFile tlsKeyFile
      tlsMinVersion in
  application.Addr (application.srv started) = ":" +:+ Itoa port
  /\ application.Handler_ (application.srv started) = handler
  /\ (tlsEnabled = false ->
      started = application.StartHTTPServer net port handler false "" "" 0
      /\ application.serving started = application.ListenAndServe
      /\ application.TLSConfig (application.srv started) = None)
  /\ (tlsEnabled = true ->
      application.serving started = application.ListenAndServeTLS tlsCertFile tlsKeyFile
      /\ (application.TLSConfig (application.srv started) = None <-> tlsMinVersion = 0)
      /\ (forall v,
             application.TLSConfig (application.srv started) = Some v ->
             v = tlsMinVersion
             /\ In (Logged LInfo
                      ("TLS enabled for server (minimum TLS version: "
                         +:+ application.TLSVersion_String net v +:+ ")") [])
                   (application.logged started)))
  /\ application.errCh started
     = match application.serve net (application.srv started)
               (application.serving started) with
       | Some err => [err]
       | None => []
       end.
Proof.
  intros started. unfold started, application.StartHTTPServer.
  split; [destruct (tlsEnabled && negb (tlsMinVersion =? 0)); reflexivity|].
  split; [destruct (tlsEnabled && negb (tlsMinVersion =? 0)); reflexivity|].
  split; [|split].
  - intros ->. repeat split.
  - intros ->. cbn [andb application.serving application.srv application.logged].
    split; [reflexivity|].
    destruct (Z.eqb_spec tlsMinVersion 0) as [E|E]; cbn [negb application.TLSConfig].
    + split; [split; [intros _; exact E | reflexivity]|]. discriminate.
    + split; [split; [discriminate | intros H; contradiction]|].
      intros v Hv. injection Hv as <-. split; [reflexivity|]. right. left. reflexivity.
  - reflexivity.
Qed.

(** ** The command *)

(** X27: [main] ends with exit status 1 exactly when it has logged an
    error, and then it has logged one error line, the last line of its log;
    it exits with status 0 only when the relay was created and the
    configuration asks to exit always, and then no server was started; it
    never exits with another status. *)
Theorem main_exit_status {Config Relay Handler : Type}
    (world : @relayMain.World Config Relay Handler) :
  let log := fst (relayMain.main world) in
  let ending := snd (relayMain.main world) in
  List.length (List.filter isErrorLine log)
  = (if exitsWith 1 ending then 1 else 0)%nat
  /\ (ending = relayMain.Exit 1 -> exists format args,
         List.last log (Logged LInfo "" []) = Logged LError format args)
  /\ (ending = relayMain.Exit 0 ->
      exists opts c r,
        relayMain.ReadOptions world = Ok opts
        /\ relayMain.NewRelayEnterprise world c = Ok r
        /\ relayMain.ExitAlways (relayMain.Main world c) = true
        /\ log = [relayMain.starting world opts])
  /\ (forall code, ending = relayMain.Exit code -> code = 0 \/ code = 1).
Proof.
  intros log ending. unfold log, ending, relayMain.main.
  destruct (relayMain.ReadOptions world) as [opts|err].
  2:{ cbn. repeat split; try discriminate.
      - intros _. eexists. eexists. reflexivity.
      - intros code H. injection H as <-. right. reflexivity. }
  destruct (if negb (String.eqb (relayMain.ConfigFile opts) "")
            then relayMain.LoadConfigFile world (relayMain.zero world)
                   (relayMain.ConfigFile opts)
            else Ok (relayMain.zero world)) as [c0|err].
  2:{ cbn. repeat split; try discriminate.
      - intros _. eexists. eexists. reflexivity.
      - intros code H. injection H as <-. right. reflexivity. }
  destruct (if relayMain.UseEnvironment opts
            then relayMain.LoadConfigFromEnvironment world c0 else Ok c0) as [c|err].
  2:{ cbn. repeat split; try discriminate.
      - intros _. eexists. eexists. reflexivity.
      - intros code H. injection H as <-. right. reflexivity. }
  destruct (relayMain.NewRelayEnterprise world c) as [r|err] eqn:Hrelay.
  2:{ cbn. repeat split; try discriminate.
      - intros _. eexists. eexists. reflexivity.
      - intros code H. injection H as <-. right. reflexivity. }
  destruct (relayMain.ExitAlways (relayMain.Main world c)) eqn:Hexit.
  { cbn. repeat split; try discriminate.
    - intros _. exists opts, c, r. repeat split; assumption.
    - intros code H. injection H as <-. left. reflexivity. }
  cbv zeta. unfold application.StartHTTPServer.
  cbn [application.errCh application.logged].
  destruct (application.serve _ _ _) as [err|];
    destruct (relayMain.TLSEnabled (relayMain.Main world c)); cbn.
  all: repeat split; try discriminate.
  all: try (intros _; eexists; eexists; reflexivity).
  all: intros code H; injection H as <-; right; reflexivity.
Qed.

(** A run from a configuration file that asks for TLS 1.2 on the default
    port, which is taken: the start is logged, then the failure, and the
    process exits with status 1.  With [ExitAlways] it exits with status 0
    after the first line. *)
Example main_port_taken :
  relayMain.main (ScenarioMain.world false)
  = ([Logged LInfo
        ("Starting LaunchDarkly Relay Proxy Enterprise version %s with %s" +:+ newline)
        ["6.0.0"; "relay.conf"];
      Logged LInfo ("Starting server listening on port %d" +:+ newline) ["8030"];
      Logged LInfo "TLS enabled for server (minimum TLS version: 1.2)" [];
      Logged LError "Error starting HTTP listener on port: %d  %s"
        ["8030"; "listen tcp :8030: bind: address already in use"]],
     relayMain.Exit 1)
  /\ relayMain.main (ScenarioMain.world true)
     = ([Logged LInfo
           ("Starting LaunchDarkly Relay Proxy Enterprise version %s with %s" +:+ newline)
           ["6.0.0"; "relay.conf"]],
        relayMain.Exit 0).
Proof. split; reflexivity. Qed.

(** ** What the Etag of the data set does not tell apart *)

Lemma of_string_append (a b : string) :
  Digest.of_string (a +:+ b) = Digest.of_string a ++ Digest.of_string b.
Proof.
  unfold Digest.of_string. induction a as [|c a IH]; [reflexivity|].
  simpl. rewrite IH. reflexivity.
Qed.

Lemma append_assoc (a b c : string) : (a +:+ b) +:+ c = a +:+ (b +:+ c).
Proof.
  induction a as [|x a IH]; [reflexivity|].
  change (String x ((a +:+ b) +:+ c) = String x (a +:+ (b +:+ c))).
  rewrite IH. reflexivity.
Qed.

(** X28: the keys and versions are written to the hash one after the other
    with nothing between two items, so the Etag does not always tell two data
    sets apart: a listing of the two items [k1] at version [v1] and [k2] at
    version [v2] ([k1] not after [k2]) has the Etag of the listing of the one
    item whose key is [k1:v1k2], at version [v2]. *)
Theorem flags_etag_concatenation (k1 k2 : string) (v1 v2 : Z) (i1 i2 i : option Item) :
  string_lt k2 k1 = false ->
  flags_etag
    [KeyedItemDescriptor.Build k1 (ItemDescriptor.Build v1 i1);
     KeyedItemDescriptor.Build k2 (ItemDescriptor.Build v2 i2)]
  = flags_etag
      [KeyedItemDescriptor.Build (k1 +:+ ":" +:+ Itoa v1 +:+ k2)
         (ItemDescriptor.Build v2 i)].
Proof.
  intros Horder. unfold flags_etag. do 3 f_equal.
  cbn [sort_by_key fold_right insert_by_key KeyedItemDescriptor.Key].
  rewrite Horder.
  cbn [flat_map key_version KeyedItemDescriptor.Key KeyedItemDescriptor.Item
       ItemDescriptor.Version].
  rewrite !app_nil_r. rewrite <- of_string_append. f_equal.
  unfold key_version.
  cbn [KeyedItemDescriptor.Key KeyedItemDescriptor.Item ItemDescriptor.Version].
  rewrite !append_assoc. reflexivity.
Qed.

Lemma flags_etag_concatenation_witness :
  flags_etag
    [KeyedItemDescriptor.Build "a" (ItemDescriptor.Build 1 None);
     KeyedItemDescriptor.Build "b" (ItemDescriptor.Build 2 None)]
  = flags_etag
      [KeyedItemDescriptor.Build ("a" +:+ ":" +:+ Itoa 1 +:+ "b")
         (ItemDescriptor.Build 2 None)].
Proof.
  apply (flags_etag_concatenation "a" "b" 1 2 None None None).
  reflexivity.
Defined.

(** ** When [GET /sdk/flags] answers 304 *)

(** X29: [GET /sdk/flags] answers 304 only for the current Etag: the status
    is 304 exactly when the store lists its flags and the request's
    [If-None-Match] is [relay-] followed by the Etag value of that listing.
    A request without [If-None-Match], with another value, or made while the
    store fails is never answered 304. *)
Theorem not_modified_only_for_current_etag (lib : Lib.t) (clientCtx : clientContext)
    (req : Request.t) (h : gmap string string) (b : string) (tr : list Effect) :
  let s' :=
    ServeHTTP (pollAllFlagsHandler lib clientCtx req)
      (MkHState (ResponseWriter.Build h None b) tr) in
  ResponseWriter.Code (w s') = Some StatusNotModified
  <-> exists data,
        DataStore.GetAll (EnvContext.GetStore (env clientCtx)) Features = Ok data
        /\ get (Request.Header req) "If-None-Match" = "relay-" +:+ flags_etag data.
Proof.
  intros s'. unfold s'.
  destruct (DataStore.GetAll (EnvContext.GetStore (env clientCtx)) Features)
    as [data|err] eqn:Hall.
  - rewrite (pollAllFlagsHandler_run lib clientCtx req data h b tr Hall).
    destruct (String.eqb_spec (get (Request.Header req) "If-None-Match")
                ("relay-" +:+ flags_etag data)) as [E|E].
    + split; [|reflexivity]. intros _. exists data. split; [reflexivity | exact E].
    + split.
      * destruct (Lib.json_Marshal lib (EItems (itemsCollectionToMap data)));
          intros H; discriminate H.
      * intros (data' & Hd & He). injection Hd as <-. contradiction.
  - unfold ServeHTTP, pollAllFlagsHandler. rewrite Hall. split.
    + intros H. discriminate H.
    + intros (data' & Hd & _). discriminate Hd.
Qed.
